(** * taskTimeTracker backend: models and controllers, and their properties

    A shallow embedding of the Express/PostgreSQL backend
    ([models/*.model.ts], [controllers/*.controller.ts]).

    - A JavaScript [number] that holds a money amount, a quantity or a rate
      is an IEEE 754 binary64 value ([float]).  A [number] that holds a row
      id, a count or a sum of minutes is an integer in the safe range and is
      a [Z].
    - A table is the list of its rows, in insertion order.  The columns are
      the ones the SQL text of the models names (the [Invoice],
      [InvoiceItem], [Timesheet] and [TimeEntry] interfaces plus
      [time_entries.timesheet_id] and [invoices.paid_at]).  A column that
      [db/schema.sql] declares has the type declared there: the money
      columns [quantity], [amount], [subtotal], [tax_amount] and [tax_rate]
      are [DECIMAL(_, 2)] and hold what they are sent rounded to two
      decimals.  A column the models name and the schema does not
      ([total], [unit_price], [time_entry_ids], [timesheet_id], [paid_at],
      the table [timesheets]) holds the value it is sent.
    - An [UPDATE ... WHERE] is a [map] that rewrites the matching rows, a
      [SELECT ... WHERE] a [filter], an [INSERT] an append with the id drawn
      from the table's serial sequence.
    - [InvoiceModel.create] runs on a connection whose statements may throw:
      its model threads a connection state through a small error monad.
      The other model functions are the statements they send, executed;
      their [catch] branches (a driver error, answered 500) are left out,
      except in [TimeEntries.create], [Timesheets.create] and
      [Invoices.updateStatus], where [db/schema.sql] can refuse what is
      sent.  Elsewhere a statement about an id says that the id is within
      [INTEGER] where the answer depends on it.
    - One clock reading [now] per call stands for [new Date()] and
      [CURRENT_TIMESTAMP]; calls follow one another. *)

From Stdlib Require Import ZArith List String Ascii Bool Lia Permutation.
From Stdlib Require Import DecimalString.
From Stdlib Require Import Floats.PrimFloat Floats.SpecFloat Floats.FloatOps.
Import ListNotations.

Open Scope string_scope.
Open Scope list_scope.
Open Scope Z_scope.

(** ** JavaScript built-ins used by the models *)

Module JS.

(** [String(n)] for an integer-valued number. *)
Definition String_ (n : Z) : string := NilZero.string_of_int (Z.to_int n).

Fixpoint repeat_char (c : ascii) (n : nat) : string :=
  match n with
  | O => EmptyString
  | S k => String c (repeat_char c k)
  end.

(** [s.padStart(n, c)] for a one-character filler. *)
Definition padStart (n : nat) (c : ascii) (s : string) : string :=
  (repeat_char c (n - String.length s) ++ s)%string.

(** The number nearest to an integer (exact below 2^53). *)
Definition of_Z (z : Z) : float :=
  SF2Prim (binary_normalize prec emax z 0 false).

(** The number nearest to the quotient of two positive integers. *)
Definition nearest_ratio (n d : positive) : float :=
  SF2Prim (SFdiv prec emax (S754_finite false n 0) (S754_finite false d 0)).

(** [parseFloat] of the text of a [DECIMAL(_, 2)] value, given in
    hundredths. *)
Definition parseFloat_decimal2 (hundredths : Z) : float :=
  match hundredths with
  | Z0 => 0%float
  | Zpos p => nearest_ratio p 100
  | Zneg p => (- nearest_ratio p 100)%float
  end.

(** The integer [n] for which [n / 100] is closest to [m * 2^e], the
    larger one on a tie (step 2 of [Number.prototype.toFixed]). *)
Definition hundredths_of (m : positive) (e : Z) : Z :=
  if 0 <=? e then Zpos m * 2 ^ e * 100
  else (2 * (Zpos m * 100) + 2 ^ (- e)) / 2 ^ (- e + 1).

(** [parseFloat(x.toFixed(2))]. *)
Definition toFixed2 (x : float) : float :=
  match Prim2SF x with
  | S754_finite s m e =>
      if (1e21 <=? abs x)%float then x
      else
        let r := parseFloat_decimal2 (hundredths_of m e) in
        if s then (- r)%float else r
  | S754_zero _ => 0%float
  | _ => x
  end.

(** The number nearest to [s * 10^q], for an integer [s > 0]. *)
Definition of_decimal (s q : Z) : float :=
  if 0 <=? q then of_Z (s * 10 ^ q)
  else match s with
       | Zpos p => nearest_ratio p (Z.to_pos (10 ^ (- q)))
       | _ => 0%float
       end.

(** [2 * (num / den)] compared with [(2 * lo + 1) * 10^q]: on which side
    of the middle of [lo * 10^q] and [(lo + 1) * 10^q] the quotient
    lies. *)
Definition side (num den : positive) (lo q : Z) : comparison :=
  if 0 <=? q
  then 2 * Zpos num ?= (2 * lo + 1) * 10 ^ q * Zpos den
  else 2 * Zpos num * 10 ^ (- q) ?= (2 * lo + 1) * Zpos den.

(** The digits [Number::toString] prints for [x = num / den > 0]: the
    decimal [s * 10^q] with the fewest digits that reads back as [x], that
    is, with the largest [q]; of two such decimals the one closer to [x],
    the even [s] on a tie.  The search goes down from [q]. *)
Fixpoint shortest (fuel : nat) (q : Z) (num den : positive) (x : float)
    : Z * Z :=
  match fuel with
  | O => (0, 0)
  | S fuel' =>
      let lo := if 0 <=? q then Zpos num / (Zpos den * 10 ^ q)
                else Zpos num * 10 ^ (- q) / Zpos den in
      let hi := lo + 1 in
      let reads s := (0 <? s) && (of_decimal s q =? x)%float in
      match reads lo, reads hi with
      | true, true =>
          match side num den lo q with
          | Lt => (lo, q)
          | Gt => (hi, q)
          | Eq => if Z.even lo then (lo, q) else (hi, q)
          end
      | true, false => (lo, q)
      | false, true => (hi, q)
      | false, false => shortest fuel' (q - 1) num den x
      end
  end.

(** [String(x)] as a decimal [s * 10^q], for [x = m * 2^e > 0].  The
    search starts above the decimal exponent of [x] (from its binary
    logarithm) and needs at most 17 digits. *)
Definition Number_toString (m : positive) (e : Z) (x : float) : Z * Z :=
  let num := if 0 <=? e then (m * Z.to_pos (2 ^ e))%positive else m in
  let den := if 0 <=? e then 1%positive else Z.to_pos (2 ^ (- e)) in
  let l := Z.log2 (Zpos num) + 1 - Z.log2 (Zpos den) in
  let q := (if 0 <=? l then l * 30103 / 100000
            else l * 30102 / 100000) + 1 in
  shortest 40 q num den x.

End JS.

(** ** PostgreSQL column types

    node-postgres sends a number as its text [String(x)] and returns a
    [DECIMAL] as text; the server reads the text as an exact decimal. *)

Module Pg.

(** [s * 10^q >= 0] rounded to a whole number of hundredths, a half going
    up: the rounding of [numeric] to scale 2. *)
Definition round2 (s q : Z) : Z :=
  if 0 <=? q + 2 then s * 10 ^ (q + 2)
  else (2 * s + 10 ^ (- (q + 2))) / (2 * 10 ^ (- (q + 2))).

(** What a [DECIMAL(_, 2)] column holds, in hundredths, when it is sent
    the finite number [x]. *)
Definition hundredths (x : float) : Z :=
  match Prim2SF x with
  | S754_finite negative m e =>
      let (s, q) := JS.Number_toString m e (abs x) in
      if negative then - round2 s q else round2 s q
  | _ => 0
  end.

(** The number read back from a [DECIMAL(_, 2)] column that was sent
    [x]: [x] rounded to two decimals, halves away from zero.  [NaN] is
    stored as it is.  A value beyond the precision of the column (for
    [DECIMAL(10, 2)], [1e8] or more in magnitude; an infinity) makes the
    statement throw; here it is left as it is, the throw being one of the
    failures a statement can have. *)
Definition numeric2 (x : float) : float :=
  match Prim2SF x with
  | S754_finite _ _ _ => JS.parseFloat_decimal2 (hundredths x)
  | S754_zero _ => 0%float
  | _ => x
  end.

(** The range of [INTEGER] and [SERIAL]: a number outside it, sent where
    an [INTEGER] is expected (a column, a comparison with one, an element
    of an [int[]]), makes the statement throw. *)
Definition int4 (z : Z) : Prop := - 2147483648 <= z <= 2147483647.

Definition int4b (z : Z) : bool :=
  (- 2147483648 <=? z) && (z <=? 2147483647).

Definition opt_int4 (z : option Z) : Prop :=
  match z with Some v => int4 v | None => True end.

Definition opt_int4b (z : option Z) : bool :=
  match z with Some v => int4b v | None => true end.

End Pg.

(** ** Rows *)

(** A [Date] / [TIMESTAMP] value with the calendar fields the code reads:
    [getFullYear()] and [EXTRACT(YEAR ...)], [getMonth()] (0-based;
    [EXTRACT(MONTH ...)] is one more), and the instant used by [<=]. *)
Module Date.
Record t := mk { getFullYear : Z; getMonth : Z; getTime : Z }.
Definition leb (a b : t) : bool := getTime a <=? getTime b.
End Date.

Inductive Role := admin | user | client.

Definition Role_eqb (a b : Role) : bool :=
  match a, b with
  | admin, admin | user, user | client, client => true
  | _, _ => false
  end.

(** [time_entries.status] *)
Inductive EntryStatus := draft | submitted | approved | rejected | billed.

Definition EntryStatus_eqb (a b : EntryStatus) : bool :=
  match a, b with
  | draft, draft | submitted, submitted | approved, approved
  | rejected, rejected | billed, billed => true
  | _, _ => false
  end.

(** [timesheets.status] *)
Inductive SheetStatus :=
  sheet_draft | sheet_submitted | sheet_approved | sheet_rejected.

Definition SheetStatus_eqb (a b : SheetStatus) : bool :=
  match a, b with
  | sheet_draft, sheet_draft | sheet_submitted, sheet_submitted
  | sheet_approved, sheet_approved | sheet_rejected, sheet_rejected => true
  | _, _ => false
  end.

(** [invoices.status] *)
Inductive InvoiceStatus :=
  inv_draft | inv_sent | inv_paid | inv_overdue | inv_cancelled.

Module User.
Record t := mk {
  id : Z;
  email : string;
  first_name : string;
  last_name : string;
  company_name : option string;
  role : Role
}.
End User.

Module Project.
Record t := mk {
  id : Z;
  client_id : Z;
  name : string;
  hourly_rate : Z   (* DECIMAL(10, 2), in hundredths *)
}.
End Project.

Module Task.
Record t := mk { id : Z; project_id : Z; name : string }.
End Task.

Module TimeEntry.
Record t := mk {
  id : Z;
  user_id : Z;
  task_id : Z;
  start_time : Date.t;
  end_time : option Date.t;
  duration_minutes : option Z;
  description : option string;
  is_billable : bool;
  status : EntryStatus;
  timesheet_id : option Z;
  updated_at : Date.t
}.

Definition with_status (s : EntryStatus) (e : t) : t :=
  mk (id e) (user_id e) (task_id e) (start_time e) (end_time e)
     (duration_minutes e) (description e) (is_billable e) s
     (timesheet_id e) (updated_at e).

Definition with_timesheet (ts : option Z) (s : EntryStatus) (e : t) : t :=
  mk (id e) (user_id e) (task_id e) (start_time e) (end_time e)
     (duration_minutes e) (description e) (is_billable e) s
     ts (updated_at e).
End TimeEntry.

Module Timesheet.
Record t := mk {
  id : Z;
  user_id : Z;
  start_date : Date.t;
  end_date : Date.t;
  status : SheetStatus;
  notes : option string;
  approved_by : option Z;
  approved_at : option Date.t;
  updated_at : Date.t
}.

(** The row [findById] returns: the timesheet with the [json_agg] of its
    entries. *)
Record joined := mkJoined {
  row : t;
  time_entries : list (option TimeEntry.t)
}.
End Timesheet.

Module InvoiceItem.
Record t := mk {
  id : Z;
  invoice_id : Z;
  description : string;
  quantity : float;
  unit_price : float;
  amount : float;
  time_entry_ids : list Z
}.
End InvoiceItem.

Module Invoice.
Record t := mk {
  id : Z;
  invoice_number : string;
  client_id : Z;
  issue_date : Date.t;
  due_date : Date.t;
  status : InvoiceStatus;
  subtotal : float;
  tax_rate : float;
  tax_amount : float;
  total : float;
  notes : option string;
  created_at : Date.t;
  updated_at : Date.t;
  paid_at : option Date.t
}.

Record clientInfo := mkClient {
  c_id : Z;
  c_company_name : option string;
  c_first_name : string;
  c_last_name : string;
  c_email : string
}.

(** What [findById] returns: the row, its client and its items. *)
Record full := mkFull {
  row : t;
  client : clientInfo;
  items : list InvoiceItem.t
}.
End Invoice.

(** ** The database *)

Record Db := mkDb {
  users : list User.t;
  projects : list Project.t;
  tasks : list Task.t;
  time_entries : list TimeEntry.t;
  timesheets : list Timesheet.t;
  invoices : list Invoice.t;
  invoice_items : list InvoiceItem.t;
  invoices_id_seq : Z;        (* last value of the serial sequences *)
  invoice_items_id_seq : Z
}.

Definition set_time_entries (f : list TimeEntry.t -> list TimeEntry.t)
    (d : Db) : Db :=
  mkDb (users d) (projects d) (tasks d) (f (time_entries d)) (timesheets d)
       (invoices d) (invoice_items d) (invoices_id_seq d)
       (invoice_items_id_seq d).

Definition set_timesheets (f : list Timesheet.t -> list Timesheet.t)
    (d : Db) : Db :=
  mkDb (users d) (projects d) (tasks d) (time_entries d) (f (timesheets d))
       (invoices d) (invoice_items d) (invoices_id_seq d)
       (invoice_items_id_seq d).

Definition insert_invoice (mkrow : Z -> Invoice.t) (d : Db) : Invoice.t * Db :=
  let i := invoices_id_seq d + 1 in
  (mkrow i,
   mkDb (users d) (projects d) (tasks d) (time_entries d) (timesheets d)
        (invoices d ++ [mkrow i]) (invoice_items d) i
        (invoice_items_id_seq d)).

Definition insert_invoice_item (mkrow : Z -> InvoiceItem.t) (d : Db)
    : InvoiceItem.t * Db :=
  let i := invoice_items_id_seq d + 1 in
  (mkrow i,
   mkDb (users d) (projects d) (tasks d) (time_entries d) (timesheets d)
        (invoices d) (invoice_items d ++ [mkrow i]) (invoices_id_seq d) i).

(** The rows of every table, without the sequences. *)
Definition tables (d : Db) :=
  (users d, projects d, tasks d, time_entries d,
   (timesheets d, invoices d, invoice_items d)).

(** What a rolled-back transaction leaves: the rows of [before], the
    sequences of [after] (a sequence does not take part in a rollback). *)
Definition rolled_back (before after : Db) : Db :=
  mkDb (users before) (projects before) (tasks before) (time_entries before)
       (timesheets before) (invoices before) (invoice_items before)
       (invoices_id_seq after) (invoice_items_id_seq after).

Definition mem (x : Z) (l : list Z) : bool := existsb (Z.eqb x) l.

Definition option_Z_eqb (a : option Z) (b : Z) : bool :=
  match a with Some x => x =? b | None => false end.

Definition is_null {A} (a : option A) : bool :=
  match a with Some _ => false | None => true end.

(** SQL [COALESCE(new, old)]. *)
Definition COALESCE {A} (new : option A) (old : A) : A :=
  match new with Some v => v | None => old end.

(** [ORDER BY]: insertion sort under a total preorder [le]. *)
Section Sort.
Context {A : Type} (le : A -> A -> bool).

Fixpoint insert_sorted (x : A) (l : list A) : list A :=
  match l with
  | [] => [x]
  | y :: r => if le x y then x :: l else y :: insert_sorted x r
  end.

Fixpoint order_by (l : list A) : list A :=
  match l with
  | [] => []
  | x :: r => insert_sorted x (order_by r)
  end.
End Sort.

(** ** models/time-entry.model.ts *)

Module TimeEntryModel.

(** [Partial<TimeEntryInput>] as [update] reads it. *)
Record updates := mkUpdates {
  startTime : option Date.t;
  endTime : option Date.t;
  durationMinutes : option Z;
  description : option string;
  isBillable : option bool;
  status : option EntryStatus
}.

Definition updated_row (u : updates) (now : Date.t) (e : TimeEntry.t)
    : TimeEntry.t :=
  TimeEntry.mk (TimeEntry.id e) (TimeEntry.user_id e) (TimeEntry.task_id e)
    (COALESCE (startTime u) (TimeEntry.start_time e))
    (COALESCE (option_map Some (endTime u)) (TimeEntry.end_time e))
    (COALESCE (option_map Some (durationMinutes u))
              (TimeEntry.duration_minutes e))
    (COALESCE (option_map Some (description u)) (TimeEntry.description e))
    (COALESCE (isBillable u) (TimeEntry.is_billable e))
    (COALESCE (status u) (TimeEntry.status e))
    (TimeEntry.timesheet_id e)
    now.

(** [UPDATE time_entries SET ... WHERE id = $7 RETURNING *], then
    [rows[0] || null]. *)
Definition update (id : Z) (u : updates) (now : Date.t) (d : Db)
    : option TimeEntry.t * Db :=
  let hit := fun e => TimeEntry.id e =? id in
  let d' := set_time_entries
              (map (fun e => if hit e then updated_row u now e else e)) d in
  (hd_error (filter hit (time_entries d')), d').

(** [DELETE FROM time_entries WHERE id = $1], then [rowCount > 0]. *)
Definition delete (id : Z) (d : Db) : bool * Db :=
  let hit := fun e => TimeEntry.id e =? id in
  (existsb hit (time_entries d),
   set_time_entries (filter (fun e => negb (hit e))) d).

(** [SELECT 1 FROM time_entries WHERE id = $1 AND user_id = $2], then
    [rowCount > 0]. *)
Definition userOwnsEntry (entryId userId : Z) (d : Db) : bool :=
  existsb (fun e => (TimeEntry.id e =? entryId)
                    && (TimeEntry.user_id e =? userId))
          (time_entries d).












End TimeEntryModel.

(** ** models/timesheet.model.ts *)

Module TimesheetModel.

(** [json_agg] over a [LEFT JOIN]: a timesheet without entries yields
    the one all-null row. *)
Definition json_agg (l : list TimeEntry.t) : list (option TimeEntry.t) :=
  match l with
  | [] => [None]
  | _ => map Some l
  end.

Definition entries_of (id : Z) (d : Db) : list TimeEntry.t :=
  filter (fun te => option_Z_eqb (TimeEntry.timesheet_id te) id)
         (time_entries d).

(** [findById]: [rows[0] || null] of the grouped join. *)
Definition findById (id : Z) (d : Db) : option Timesheet.joined :=
  hd_error
    (map (fun t => Timesheet.mkJoined t (json_agg (entries_of id d)))
         (filter (fun t => Timesheet.id t =? id) (timesheets d))).

Definition status_row (status : SheetStatus) (notes : option string)
    (approvedById : Z) (now : Date.t) (t : Timesheet.t) : Timesheet.t :=
  Timesheet.mk (Timesheet.id t) (Timesheet.user_id t)
    (Timesheet.start_date t) (Timesheet.end_date t)
    status
    (COALESCE (option_map Some notes) (Timesheet.notes t))
    (Some approvedById)
    (if SheetStatus_eqb status sheet_approved then Some now
     else Timesheet.approved_at t)
    now.

(** [updateStatus]: the statements between [BEGIN] and [COMMIT]; the
    early [ROLLBACK] leaves the database as it was. *)
Definition updateStatus (id : Z) (status : SheetStatus) (approvedById : Z)
    (notes : option string) (now : Date.t) (d : Db)
    : option Timesheet.t * Db :=
  let hit := fun t => Timesheet.id t =? id in
  let d1 := set_timesheets
              (map (fun t => if hit t
                             then status_row status notes approvedById now t
                             else t)) d in
  match filter hit (timesheets d1) with
  | [] => (None, d)
  | timesheet :: _ =>
      let d2 :=
        match status with
        | sheet_approved | sheet_rejected =>
            let entryStatus :=
              if SheetStatus_eqb status sheet_approved then approved
              else rejected in
            set_time_entries
              (map (fun te =>
                      if option_Z_eqb (TimeEntry.timesheet_id te) id
                      then TimeEntry.with_status entryStatus te
                      else te)) d1
        | _ => d1
        end in
      (Some timesheet, d2)
  end.

(** [UPDATE time_entries SET timesheet_id = $1, status = 'submitted'
     WHERE id = ANY($2) AND timesheet_id IS NULL]. *)
Definition addTimeEntries (timesheetId : Z) (timeEntryIds : list Z)
    (d : Db) : bool * Db :=
  match timeEntryIds with
  | [] => (true, d)
  | _ =>
      let hit := fun te =>
        mem (TimeEntry.id te) timeEntryIds
        && is_null (TimeEntry.timesheet_id te) in
      (existsb hit (time_entries d),
       set_time_entries
         (map (fun te =>
                 if hit te
                 then TimeEntry.with_timesheet (Some timesheetId) submitted te
                 else te)) d)
  end.

(** [UPDATE time_entries SET timesheet_id = NULL, status = 'draft'
     WHERE id = ANY($1) AND timesheet_id = $2]. *)
Definition removeTimeEntries (timesheetId : Z) (timeEntryIds : list Z)
    (d : Db) : bool * Db :=
  match timeEntryIds with
  | [] => (true, d)
  | _ =>
      let hit := fun te =>
        mem (TimeEntry.id te) timeEntryIds
        && option_Z_eqb (TimeEntry.timesheet_id te) timesheetId in
      (existsb hit (time_entries d),
       set_time_entries
         (map (fun te =>
                 if hit te then TimeEntry.with_timesheet None draft te
                 else te)) d)
  end.

End TimesheetModel.

(** ** A connection to the database

    [committed] is what every connection sees; [working] is the state
    inside the open transaction of this connection, if any; [issued]
    counts the statements sent so far.  [fails k] says that the statement
    number [k] throws. *)

Module Conn.

Record state := mk {
  committed : Db;
  working : option Db;
  issued : nat
}.

Inductive result (A : Type) :=
| Ok (a : A)
| Throw.
Arguments Ok {A} a.
Arguments Throw {A}.

Definition M (A : Type) := state -> result A * state.

Definition ret {A} (a : A) : M A := fun s => (Ok a, s).

Definition bind {A B} (m : M A) (k : A -> M B) : M B :=
  fun s =>
    match m s with
    | (Ok a, s') => k a s'
    | (Throw, s') => (Throw, s')
    end.

Definition throw {A} : M A := fun s => (Throw, s).

(** [try { body } catch (error) { handler }] *)
Definition try_catch {A} (body handler : M A) : M A :=
  fun s =>
    match body s with
    | (Ok a, s') => (Ok a, s')
    | (Throw, s') => handler s'
    end.

Definition tick (s : state) : state :=
  mk (committed s) (working s) (S (issued s)).

Section Oracle.
Variable fails : nat -> bool.

Definition statement {A} (run : state -> A * state) : M A :=
  fun s =>
    if fails (issued s) then (Throw, tick s)
    else let (a, s') := run (tick s) in (Ok a, s').

(** [client.query]: inside the transaction when one is open. *)
Definition client_query {A} (q : Db -> A * Db) : M A :=
  statement
    (fun s =>
       match working s with
       | Some w => let (a, w') := q w in
                   (a, mk (committed s) (Some w') (issued s))
       | None => let (a, c) := q (committed s) in
                 (a, mk c None (issued s))
       end).

(** [pool.query], and [client.query] on a connection of its own: the
    statement sees and changes the committed rows. *)
Definition pool_query {A} (q : Db -> A * Db) : M A :=
  statement
    (fun s => let (a, c) := q (committed s) in
              (a, mk c (working s) (issued s))).

Definition BEGIN : M unit :=
  statement
    (fun s =>
       (tt, match working s with
            | None => mk (committed s) (Some (committed s)) (issued s)
            | Some _ => s
            end)).

Definition COMMIT : M unit :=
  statement
    (fun s =>
       (tt, match working s with
            | Some w => mk w None (issued s)
            | None => s
            end)).
End Oracle.

(** [ROLLBACK] in the [catch] block; it is taken to succeed. *)
Definition ROLLBACK : M unit :=
  fun s =>
    (Ok tt,
     match working s with
     | Some w => mk (rolled_back (committed s) w) None (S (issued s))
     | None => tick s
     end).

(** [for (const x of l) { body x }] *)
Fixpoint for_of {A} (l : list A) (body : A -> M unit) : M unit :=
  match l with
  | [] => ret tt
  | x :: r => bind (body x) (fun _ => for_of r body)
  end.

(** A connection with no transaction open. *)
Definition idle (d : Db) : state := mk d None 0.

End Conn.

Declare Scope conn_scope.
Delimit Scope conn_scope with conn.
Notation "x <- m ;; k" := (Conn.bind m (fun x => k))
  (at level 61, m at next level, right associativity) : conn_scope.
Notation "m ;;; k" := (Conn.bind m (fun _ => k))
  (at level 61, right associativity) : conn_scope.

(** ** models/invoice.model.ts *)

Module InvoiceModel.

Record item_input := mkItem {
  description : string;
  quantity : float;
  unitPrice : float;
  timeEntryIds : list Z
}.

Record InvoiceInput := mkInput {
  clientId : Z;
  issueDate : Date.t;
  dueDate : Date.t;
  taxRate : float;
  notes : option string;
  items : list item_input
}.

(** [WHERE EXTRACT(YEAR FROM created_at) = $1
     AND EXTRACT(MONTH FROM created_at) = $2], [$2] being the month
    number printed on two digits. *)
Definition created_in (year month : Z) (i : Invoice.t) : bool :=
  (Date.getFullYear (Invoice.created_at i) =? year)
  && (Date.getMonth (Invoice.created_at i) + 1 =? month).

Definition count_in_month (now : Date.t) (d : Db) : Z :=
  Z.of_nat (List.length
    (filter (created_in (Date.getFullYear now) (Date.getMonth now + 1))
            (invoices d))).

Definition invoice_number_text (now : Date.t) (count : Z) : string :=
  ("INV-" ++ JS.String_ (Date.getFullYear now)
          ++ JS.padStart 2 "0" (JS.String_ (Date.getMonth now + 1))
          ++ "-" ++ JS.padStart 4 "0" (JS.String_ count))%string.

(** [ORDER BY id] *)
Definition items_by_id (l : list InvoiceItem.t) : list InvoiceItem.t :=
  order_by (fun a b => InvoiceItem.id a <=? InvoiceItem.id b) l.

(** The two [SELECT]s of [findById]. *)
Definition select_invoice (id : Z) (d : Db) : list (Invoice.t * User.t) :=
  flat_map
    (fun i =>
       if Invoice.id i =? id
       then map (fun u => (i, u))
                (filter (fun u => Invoice.client_id i =? User.id u)
                        (users d))
       else [])
    (invoices d).

Definition select_items (id : Z) (d : Db) : list InvoiceItem.t :=
  items_by_id
    (filter (fun it => InvoiceItem.invoice_id it =? id) (invoice_items d)).

(** The rows [create] inserts, as the tables hold them: [subtotal],
    [tax_amount], [quantity] and [amount] are [DECIMAL(10, 2)] columns and
    [tax_rate] is [DECIMAL(5, 2)]. *)
Definition invoice_row (input : InvoiceInput) (invoiceNumber : string)
    (subtotal taxAmount total : float) (now : Date.t) (id : Z)
    : Invoice.t :=
  Invoice.mk id invoiceNumber (clientId input) (issueDate input)
    (dueDate input) inv_draft (Pg.numeric2 subtotal)
    (Pg.numeric2 (taxRate input)) (Pg.numeric2 taxAmount) total
    (notes input) now now None.

Definition item_row (invoice_id : Z) (item : item_input) (id : Z)
    : InvoiceItem.t :=
  let itemAmount := (quantity item * unitPrice item)%float in
  InvoiceItem.mk id invoice_id (description item)
    (Pg.numeric2 (quantity item)) (unitPrice item)
    (Pg.numeric2 itemAmount) (timeEntryIds item).

(** [UPDATE time_entries SET status = 'billed' WHERE id = ANY($1)] *)
Definition mark_billed (ids : list Z) (d : Db) : unit * Db :=
  (tt,
   set_time_entries
     (map (fun te => if mem (TimeEntry.id te) ids
                     then TimeEntry.with_status billed te else te)) d).

Section Oracle.
Variable fails : nat -> bool.
Local Open Scope conn_scope.

Definition generateInvoiceNumber (now : Date.t) : Conn.M string :=
  countResult <-
    Conn.pool_query fails (fun d => (count_in_month now d, d)) ;;
  let count := countResult + 1 in
  Conn.ret (invoice_number_text now count).

Definition findById (id : Z) : Conn.M (option Invoice.full) :=
  invoiceResult <-
    Conn.pool_query fails (fun d => (select_invoice id d, d)) ;;
  match invoiceResult with
  | [] => Conn.ret None
  | (invoice, u) :: _ =>
      itemsResult <-
        Conn.pool_query fails (fun d => (select_items id d, d)) ;;
      Conn.ret
        (Some (Invoice.mkFull invoice
                 (Invoice.mkClient (Invoice.client_id invoice)
                    (User.company_name u) (User.first_name u)
                    (User.last_name u) (User.email u))
                 itemsResult))
  end.

(** The body of the [for] loop of [create]. *)
Definition add_item (invoice_id : Z) (item : item_input) : Conn.M unit :=
  Conn.client_query fails (insert_invoice_item (item_row invoice_id item)) ;;;
  match timeEntryIds item with
  | [] => Conn.ret tt
  | ids => Conn.client_query fails (mark_billed ids)
  end.

Definition create (input : InvoiceInput) (now : Date.t)
    : Conn.M (option Invoice.full) :=
  let subtotal :=
    fold_left (fun sum item => (sum + quantity item * unitPrice item)%float)
              (items input) 0%float in
  let taxAmount := (subtotal * (taxRate input / 100))%float in
  let total := (subtotal + taxAmount)%float in
  invoiceNumber <- generateInvoiceNumber now ;;
  Conn.try_catch
    (Conn.BEGIN fails ;;;
     invoice <-
       Conn.client_query fails
         (insert_invoice
            (invoice_row input invoiceNumber subtotal taxAmount total
                         now)) ;;
     Conn.for_of (items input) (add_item (Invoice.id invoice)) ;;;
     Conn.COMMIT fails ;;;
     fullInvoice <- findById (Invoice.id invoice) ;;
     Conn.ret fullInvoice)
    (Conn.ROLLBACK ;;; Conn.throw).
End Oracle.

(** [updateStatus] of an invoice: the row update, and [paid_at] when the
    invoice is marked paid. *)
Definition updateStatus (id : Z) (status : InvoiceStatus)
    (notes : option string) (now : Date.t) (d : Db) : Db :=
  mkDb (users d) (projects d) (tasks d) (time_entries d) (timesheets d)
    (map (fun i =>
            if Invoice.id i =? id
            then Invoice.mk (Invoice.id i) (Invoice.invoice_number i)
                   (Invoice.client_id i) (Invoice.issue_date i)
                   (Invoice.due_date i) status (Invoice.subtotal i)
                   (Invoice.tax_rate i) (Invoice.tax_amount i)
                   (Invoice.total i)
                   (COALESCE (option_map Some notes) (Invoice.notes i))
                   (Invoice.created_at i) now
                   (match status with
                    | inv_paid => Some now
                    | _ => Invoice.paid_at i
                    end)
            else i)
         (invoices d))
    (invoice_items d) (invoices_id_seq d) (invoice_items_id_seq d).

(** The ids [getUnbilledTimeEntries] excludes:
    [SELECT unnest(time_entry_ids) FROM invoice_items
     WHERE array_length(time_entry_ids, 1) > 0]. *)
Definition invoiced_ids (d : Db) : list Z :=
  flat_map InvoiceItem.time_entry_ids (invoice_items d).

(** [getUnbilledTimeEntries]: the approved billable entries of the
    client's projects that no invoice item lists, newest first. *)
Definition getUnbilledTimeEntries (clientId : Z) (d : Db)
    : list (TimeEntry.t * Task.t * Project.t * User.t) :=
  order_by
    (fun a b => match a, b with
                | (ta, _, _, _), (tb, _, _, _) =>
                    Date.leb (TimeEntry.start_time tb)
                             (TimeEntry.start_time ta)
                end)
    (flat_map
       (fun te =>
          flat_map
            (fun t =>
               flat_map
                 (fun p =>
                    map (fun u => (te, t, p, u))
                        (filter (fun u => TimeEntry.user_id te =? User.id u)
                                (users d)))
                 (filter (fun p => (Task.project_id t =? Project.id p)
                                   && (Project.client_id p =? clientId))
                         (projects d)))
            (filter (fun t => TimeEntry.task_id te =? Task.id t) (tasks d)))
       (filter
          (fun te => EntryStatus_eqb (TimeEntry.status te) approved
                     && TimeEntry.is_billable te
                     && negb (mem (TimeEntry.id te) (invoiced_ids d)))
          (time_entries d))).

End InvoiceModel.

(** ** Requests and responses *)

Module Http.

(** [req.user], set by the [auth] middleware. *)
Record auth_user := mkUser { id : Z; role : Role }.

(** A request as a handler reads it: [param_id] is
    [parseInt(req.params.id, 10)] with [None] for [NaN];
    [validation_errors] is [validationResult(req).array()]. *)
Record request (B : Type) := mkRequest {
  user : auth_user;
  param_id : option Z;
  validation_errors : list string;
  body : B
}.
Arguments mkRequest {B}.
Arguments user {B}.
Arguments param_id {B}.
Arguments validation_errors {B}.
Arguments body {B}.

Inductive json :=
| json_errors (l : list string)
| json_message (m : string)
| json_time_entry (e : TimeEntry.t)
| json_timesheet (t : Timesheet.t)
| json_joined (t : Timesheet.joined).

Record response := mkResponse { status : Z; payload : json }.

(** [res.status(code).json(j)] and [res.json(j)] *)
Definition reply (code : Z) (j : json) : response := mkResponse code j.
Definition ok (j : json) : response := mkResponse 200 j.

End Http.

(** ** controllers/time-entry.controller.ts *)

Module TimeEntryController.
Import Http.

Definition is_admin (u : auth_user) : bool := Role_eqb (role u) admin.

(** [status && status !== 'draft'] *)
Definition non_draft (s : option EntryStatus) : bool :=
  match s with
  | Some st => negb (EntryStatus_eqb st draft)
  | None => false
  end.

Definition updateTimeEntry (req : request TimeEntryModel.updates)
    (now : Date.t) (d : Db) : response * Db :=
  match validation_errors req with
  | _ :: _ => (reply 400 (json_errors (validation_errors req)), d)
  | [] =>
      match param_id req with
      | None => (reply 400 (json_message "Invalid time entry ID"), d)
      | Some entryId =>
          let isOwner :=
            TimeEntryModel.userOwnsEntry entryId (id (user req)) d in
          if negb isOwner && negb (is_admin (user req)) then
            (reply 403
               (json_message "Not authorized to update this time entry"), d)
          else if non_draft (TimeEntryModel.status (body req))
                  && negb (is_admin (user req)) then
            (reply 403
               (json_message "Only admins can change time entry status"), d)
          else
            match TimeEntryModel.update entryId (body req) now d with
            | (None, d') =>
                (reply 404 (json_message "Time entry not found"), d')
            | (Some updatedEntry, d') => (ok (json_time_entry updatedEntry), d')
            end
      end
  end.

Definition deleteTimeEntry (req : request unit) (d : Db) : response * Db :=
  match param_id req with
  | None => (reply 400 (json_message "Invalid time entry ID"), d)
  | Some entryId =>
      let isOwner :=
        TimeEntryModel.userOwnsEntry entryId (id (user req)) d in
      if negb isOwner && negb (is_admin (user req)) then
        (reply 403 (json_message "Not authorized to delete this time entry"), d)
      else
        match TimeEntryModel.delete entryId d with
        | (false, d') => (reply 404 (json_message "Time entry not found"), d')
        | (true, d') =>
            (ok (json_message "Time entry deleted successfully"), d')
        end
  end.

End TimeEntryController.

(** ** controllers/timesheet.controller.ts *)

Module TimesheetController.
Import Http.

(** The body fields the timesheet handlers destructure. *)
Record sheet_body := mkBody {
  startDate : option Date.t;
  endDate : option Date.t;
  notes : option string;
  timeEntryIds : option (list Z)
}.

Definition updateTimesheet (req : request sheet_body) (d : Db)
    : response * Db :=
  match validation_errors req with
  | _ :: _ => (reply 400 (json_errors (validation_errors req)), d)
  | [] =>
      match param_id req with
      | None => (reply 400 (json_message "Invalid timesheet ID"), d)
      | Some timesheetId =>
          match TimesheetModel.findById timesheetId d with
          | None => (reply 404 (json_message "Timesheet not found"), d)
          | Some existingTimesheet =>
              if negb (Timesheet.user_id (Timesheet.row existingTimesheet)
                       =? id (user req)) then
                (reply 403
                   (json_message "Not authorized to update this timesheet"), d)
              else if negb (SheetStatus_eqb
                              (Timesheet.status
                                 (Timesheet.row existingTimesheet))
                              sheet_draft) then
                (reply 400
                   (json_message "Only draft timesheets can be updated"), d)
              else (ok (json_joined existingTimesheet), d)
          end
      end
  end.

Definition submitTimesheet (req : request sheet_body) (now : Date.t)
    (d : Db) : response * Db :=
  match param_id req with
  | None => (reply 400 (json_message "Invalid timesheet ID"), d)
  | Some timesheetId =>
      match TimesheetModel.findById timesheetId d with
      | None => (reply 404 (json_message "Timesheet not found"), d)
      | Some timesheet =>
          if negb (Timesheet.user_id (Timesheet.row timesheet)
                   =? id (user req)) then
            (reply 403 (json_message "Not authorized to submit this timesheet"),
             d)
          else if negb (SheetStatus_eqb
                          (Timesheet.status (Timesheet.row timesheet))
                          sheet_draft) then
            (reply 400 (json_message "Only draft timesheets can be submitted"),
             d)
          else
            match TimesheetModel.updateStatus timesheetId sheet_submitted
                    (id (user req)) (notes (body req)) now d with
            | (None, d') => (reply 404 (json_message "Timesheet not found"), d')
            | (Some updatedTimesheet, d') =>
                (ok (json_timesheet updatedTimesheet), d')
            end
      end
  end.

Definition approveTimesheet (req : request sheet_body) (now : Date.t)
    (d : Db) : response * Db :=
  match param_id req with
  | None => (reply 400 (json_message "Invalid timesheet ID"), d)
  | Some timesheetId =>
      if negb (Role_eqb (role (user req)) admin) then
        (reply 403 (json_message "Only administrators can approve timesheets"),
         d)
      else
        match TimesheetModel.updateStatus timesheetId sheet_approved
                (id (user req)) (notes (body req)) now d with
        | (None, d') => (reply 404 (json_message "Timesheet not found"), d')
        | (Some updatedTimesheet, d') =>
            (ok (json_timesheet updatedTimesheet), d')
        end
  end.

(** [!notes]: absent or empty. *)
Definition falsy (s : option string) : bool :=
  match s with
  | None | Some EmptyString => true
  | Some _ => false
  end.

Definition rejectTimesheet (req : request sheet_body) (now : Date.t)
    (d : Db) : response * Db :=
  match param_id req with
  | None => (reply 400 (json_message "Invalid timesheet ID"), d)
  | Some timesheetId =>
      if negb (Role_eqb (role (user req)) admin) then
        (reply 403
           (json_message "Only administrators can reject timesheets"), d)
      else if falsy (notes (body req)) then
        (reply 400 (json_message "Rejection reason is required"), d)
      else
        match TimesheetModel.updateStatus timesheetId sheet_rejected
                (id (user req)) (notes (body req)) now d with
        | (None, d') => (reply 404 (json_message "Timesheet not found"), d')
        | (Some updatedTimesheet, d') =>
            (ok (json_timesheet updatedTimesheet), d')
        end
  end.

End TimesheetController.

(** ** What a committed [InvoiceModel.create] adds *)

Module InvoiceEffect.
Import InvoiceModel.

(** Statements the loop sends for one item, and [create] sends between
    [BEGIN] and [COMMIT], both included. *)
Definition item_statements (item : item_input) : nat :=
  match timeEntryIds item with
  | [] => 1
  | _ => 2
  end.

Definition loop_statements (l : list item_input) : nat :=
  fold_right (fun item n => (item_statements item + n)%nat) 0%nat l.

Definition tx_statements (input : InvoiceInput) : nat :=
  (2 + loop_statements (items input) + 1)%nat.

(** No statement numbered [n .. n + len - 1] throws; one of them does. *)
Definition no_fail (fails : nat -> bool) (n len : nat) : Prop :=
  forall k, (k < len)%nat -> fails (n + k)%nat = false.

Definition some_fail (fails : nat -> bool) (n len : nat) : Prop :=
  exists k, (k < len)%nat /\ fails (n + k)%nat = true.

(** The rows of the items, with ids drawn after [seq]. *)
Fixpoint item_rows (invoice_id seq : Z) (l : list item_input)
    : list InvoiceItem.t :=
  match l with
  | [] => []
  | item :: r =>
      item_row invoice_id item (seq + 1) :: item_rows invoice_id (seq + 1) r
  end.

Definition bill (ids : list Z) (te : TimeEntry.t) : TimeEntry.t :=
  if mem (TimeEntry.id te) ids then TimeEntry.with_status billed te else te.

Definition subtotal_of (input : InvoiceInput) : float :=
  fold_left (fun sum item => (sum + quantity item * unitPrice item)%float)
            (items input) 0%float.

(** The invoice row of a call on the database [d] at time [now]. *)
Definition new_invoice (input : InvoiceInput) (now : Date.t) (d : Db)
    : Invoice.t :=
  let subtotal := subtotal_of input in
  let taxAmount := (subtotal * (taxRate input / 100))%float in
  invoice_row input
    (invoice_number_text now (count_in_month now d + 1))
    subtotal taxAmount (subtotal + taxAmount)%float now
    (invoices_id_seq d + 1).

(** The database after a committed call: the invoice row, one row per
    item, and every listed time entry billed. *)
Definition committed_create (input : InvoiceInput) (now : Date.t) (d : Db)
    : Db :=
  mkDb (users d) (projects d) (tasks d)
    (map (bill (flat_map timeEntryIds (items input))) (time_entries d))
    (timesheets d)
    (invoices d ++ [new_invoice input now d])
    (invoice_items d
     ++ item_rows (invoices_id_seq d + 1) (invoice_items_id_seq d)
                  (items input))
    (invoices_id_seq d + 1)
    (invoice_items_id_seq d + Z.of_nat (List.length (items input))).

(** One pass of the loop body on the rows of the open transaction. *)
Definition add_item_effect (invoice_id : Z) (item : item_input) (w : Db)
    : Db :=
  let w1 := snd (insert_invoice_item (item_row invoice_id item) w) in
  match timeEntryIds item with
  | [] => w1
  | ids => snd (mark_billed ids w1)
  end.

Definition loop_effect (invoice_id : Z) (l : list item_input) (w : Db)
    : Db :=
  fold_left (fun w item => add_item_effect invoice_id item w) l w.

End InvoiceEffect.


(** ** Sample data *)

Module Sample.

Definition nov (day : Z) : Date.t := Date.mk 2026 10 day.

Definition alice : User.t :=
  User.mk 10 "alice@example.com" "Alice" "Roe" (Some "Roe Ltd") client.

Definition entry (id uid task minutes : Z) (st : EntryStatus)
    (sheet : option Z) : TimeEntry.t :=
  TimeEntry.mk id uid task (nov 1) None (Some minutes) None true st sheet
               (nov 1).

Definition sheet (id uid : Z) (st : SheetStatus) : Timesheet.t :=
  Timesheet.mk id uid (nov 1) (nov 7) st None None None (nov 1).

(** Two projects of one client at different rates, a task in each, and
    approved billable entries of user 7 on both. *)
Definition bob : User.t :=
  User.mk 7 "bob@example.com" "Bob" "Poe" None user.

Definition carol : User.t :=
  User.mk 8 "carol@example.com" "Carol" "Doe" None user.

Definition db0 : Db :=
  mkDb [alice; bob; carol]
       [Project.mk 1 10 "site" 10000; Project.mk 2 10 "app" 5000]
       [Task.mk 1 1 "design"; Task.mk 2 2 "build"]
       [entry 1 7 1 90 approved (Some 1); entry 2 7 2 30 approved (Some 1);
        entry 3 8 1 45 draft None]
       [sheet 1 7 sheet_draft; sheet 2 8 sheet_submitted]
       [] [] 0 0.

Definition line (q u : float) (ids : list Z) : InvoiceModel.item_input :=
  InvoiceModel.mkItem "work" q u ids.

Definition input0 : InvoiceModel.InvoiceInput :=
  InvoiceModel.mkInput 10 (nov 2) (nov 30) 20 None
    [line 1.5 100 [1]; line 0.5 50 [2]].

(** The same time entry billed again. *)
Definition input1 : InvoiceModel.InvoiceInput :=
  InvoiceModel.mkInput 10 (nov 3) (nov 30) 0 None [line 1.5 100 [1]].

Definition never (k : nat) : bool := false.
Definition at_ (n k : nat) : bool := Nat.eqb n k.

End Sample.

(** ** Sequences of calls *)

(** [create] called once per element of [calls], one call after the
    other on the same pool. *)
Fixpoint create_each (fails : nat -> bool)
    (calls : list (InvoiceModel.InvoiceInput * Date.t)) (s : Conn.state)
    : Conn.state :=
  match calls with
  | [] => s
  | (input, now) :: rest =>
      create_each fails rest (snd (InvoiceModel.create fails input now s))
  end.

(** ** Invoice items and the time entries they list *)

Module Billing.

(** Two item rows list no time entry in common. *)
Definition disjoint_ids (a b : InvoiceItem.t) : Prop :=
  forall t, In t (InvoiceItem.time_entry_ids a) ->
            ~ In t (InvoiceItem.time_entry_ids b).

(** Every time entry id is listed by at most one invoice item row. *)
Definition single_reference (d : Db) : Prop :=
  ForallOrdPairs disjoint_ids (invoice_items d).

(** [getUnbilledTimeEntries] reports the time entry [t] for some client. *)
Definition unbilled (t : Z) (d : Db) : Prop :=
  exists clientId row,
    In row (InvoiceModel.getUnbilledTimeEntries clientId d)
    /\ TimeEntry.id (fst (fst (fst row))) = t.

(** The input lists only entries reported as unbilled, none of them in two
    of its items. *)
Definition lists_unbilled (input : InvoiceModel.InvoiceInput) (d : Db)
    : Prop :=
  ForallOrdPairs
    (fun a b => forall t, In t (InvoiceModel.timeEntryIds a) ->
                          ~ In t (InvoiceModel.timeEntryIds b))
    (InvoiceModel.items input)
  /\ forall t, In t (flat_map InvoiceModel.timeEntryIds
                              (InvoiceModel.items input)) ->
               unbilled t d.

(** The states the invoice operations reach from a database without
    invoice items when every [create] lists unbilled entries only. *)
Inductive reachable : Conn.state -> Prop :=
| reach_init d :
    invoice_items d = [] -> reachable (Conn.idle d)
| reach_create s fails input now :
    reachable s ->
    lists_unbilled input (Conn.committed s) ->
    reachable (snd (InvoiceModel.create fails input now s))
| reach_updateStatus s id status notes now :
    reachable s ->
    reachable
      (Conn.mk (InvoiceModel.updateStatus id status notes now
                  (Conn.committed s))
               (Conn.working s) (Conn.issued s)).

End Billing.

(** ** Timesheets and the time entries attached to them *)

Module Sheets.

(** The row of [te] once the entries of timesheet [id] take [status]. *)
Definition cascade (id : Z) (status : EntryStatus) (te : TimeEntry.t)
    : TimeEntry.t :=
  if option_Z_eqb (TimeEntry.timesheet_id te) id
  then TimeEntry.with_status status te else te.

(** The row of [te] once the unattached entries among [ids] are attached
    to [timesheetId]. *)
Definition attach (timesheetId : Z) (ids : list Z) (te : TimeEntry.t)
    : TimeEntry.t :=
  if mem (TimeEntry.id te) ids && is_null (TimeEntry.timesheet_id te)
  then TimeEntry.with_timesheet (Some timesheetId) submitted te else te.

(** The row of [te] once the entries among [ids] attached to
    [timesheetId] are detached. *)
Definition detach (timesheetId : Z) (ids : list Z) (te : TimeEntry.t)
    : TimeEntry.t :=
  if mem (TimeEntry.id te) ids
     && option_Z_eqb (TimeEntry.timesheet_id te) timesheetId
  then TimeEntry.with_timesheet None draft te else te.


(** The databases [addTimeEntries] and [removeTimeEntries] reach from
    [d0]. *)
Inductive reachable (d0 : Db) : Db -> Prop :=
| reach_start : reachable d0 d0
| reach_add d timesheetId ids :
    reachable d0 d ->
    reachable d0 (snd (TimesheetModel.addTimeEntries timesheetId ids d))
| reach_remove d timesheetId ids :
    reachable d0 d ->
    reachable d0 (snd (TimesheetModel.removeTimeEntries timesheetId ids d)).

End Sheets.

(** ** Billable minutes *)

Module Billable.





End Billable.

(** ** Invoice totals *)

Module Totals.
Import InvoiceModel.

(** The sum over the items of quantity times unit price, as [create] adds
    it up: in binary64, in the order of the items, from 0. *)
Definition sum_of (l : list item_input) : float :=
  fold_left (fun sum item => (sum + quantity item * unitPrice item)%float)
            l 0%float.


(** The totals of a stored invoice [inv] with the stored items [its],
    created from [input]: the subtotal is the sum over the items of
    quantity times unit price, the amount of each item is its quantity
    times its unit price (those of the input, and those of the row), the
    tax amount is the subtotal times [taxRate / 100], the total is the
    subtotal plus the tax amount, and so the total is the sum of the
    amounts of the items plus the tax. *)
Definition exact (input : InvoiceInput) (inv : Invoice.t)
    (its : list InvoiceItem.t) : Prop :=
  Invoice.subtotal inv = sum_of (items input)
  /\ Forall2 (fun item it =>
                InvoiceItem.amount it
                = (quantity item * unitPrice item)%float
                /\ InvoiceItem.amount it
                   = (InvoiceItem.quantity it
                      * InvoiceItem.unit_price it)%float)
             (items input) its
  /\ Invoice.tax_amount inv
     = (Invoice.subtotal inv * (taxRate input / 100))%float
  /\ Invoice.total inv
     = (Invoice.subtotal inv + Invoice.tax_amount inv)%float
  /\ Invoice.total inv
     = (fold_left (fun sum it => (sum + InvoiceItem.amount it)%float)
                  its 0%float
        + Invoice.tax_amount inv)%float.




End Totals.

(** ** Invoice numbers *)

Module Numbering.

(** Two dates of the same month of the same year. *)
Definition same_month (a b : Date.t) : bool :=
  (Date.getFullYear a =? Date.getFullYear b)
  && (Date.getMonth a =? Date.getMonth b).

(** The invoices already created in the month of [now]. *)
Definition created_this_month (now : Date.t) (d : Db) : list Invoice.t :=
  filter (fun i => same_month (Invoice.created_at i) now) (invoices d).

Definition count (now : Date.t) (d : Db) : Z :=
  Z.of_nat (List.length (created_this_month now d)).

Definition year_month (now : Date.t) : string :=
  (JS.String_ (Date.getFullYear now)
   ++ JS.padStart 2 "0" (JS.String_ (Date.getMonth now + 1)))%string.

(** The sequence, zero-padded to four characters. *)
Definition padded (sequence : Z) : string :=
  JS.padStart 4 "0" (JS.String_ sequence).

(** The number of the invoice with the given sequence in the month of
    [now]: the sequence follows a hyphen. *)
Definition number (now : Date.t) (sequence : Z) : string :=
  ("INV-" ++ year_month now ++ "-" ++ padded sequence)%string.

(** The number as the claim words it: ['INV-'] followed by the year, the
    month and the sequence. *)
Definition number_as_claimed (now : Date.t) (sequence : Z) : string :=
  ("INV-" ++ year_month now ++ padded sequence)%string.

Definition oct31 : Date.t := Date.mk 2026 9 0.

(** [Sample.db0] after one invoice in October. *)
Definition after_october : Db :=
  Conn.committed
    (snd (InvoiceModel.create Sample.never Sample.input0 oct31
            (Conn.idle Sample.db0))).

(** November 2026 with 9999 invoices already, numbered 0001 to 9999. *)
Definition full_month : Db :=
  mkDb [Sample.alice] [] [] [] []
       (map (fun k =>
               InvoiceModel.invoice_row Sample.input0
                 (number (Sample.nov 1) (Z.of_nat k)) 175 35 210
                 (Sample.nov 1) (Z.of_nat k))
            (seq 1 (Z.to_nat 9999)))
       [] 9999 0.

End Numbering.

(** ** models/time-entry.model.ts: [create], [findById] *)

Module TimeEntries.

Record TimeEntryInput := mkInput {
  taskId : Z;
  startTime : Date.t;
  endTime : option Date.t;
  durationMinutes : option Z;
  description : option string;
  isBillable : option bool;
  status : option EntryStatus
}.

(** A destructuring default: [x = v] takes [v] when the field is absent. *)
Definition or_default {A} (x : option A) (v : A) : A :=
  match x with Some a => a | None => v end.

(** What [db/schema.sql] asks of a row of [time_entries]: [id] is the
    [SERIAL] primary key, [user_id] and [task_id] are [INTEGER]s that
    reference a user and a task, [duration_minutes] is an [INTEGER]. *)
Definition fits (id : Z) (timeEntryData : TimeEntryInput) (userId : Z)
    (d : Db) : Prop :=
  Pg.int4 id
  /\ (forall e, In e (time_entries d) -> TimeEntry.id e <> id)
  /\ Pg.int4 userId
  /\ (exists u, In u (users d) /\ User.id u = userId)
  /\ Pg.int4 (taskId timeEntryData)
  /\ (exists t, In t (tasks d) /\ Task.id t = taskId timeEntryData)
  /\ Pg.opt_int4 (durationMinutes timeEntryData).

(** The same, decided. *)
Definition accepted (id : Z) (timeEntryData : TimeEntryInput) (userId : Z)
    (d : Db) : bool :=
  Pg.int4b id
  && negb (existsb (fun e => TimeEntry.id e =? id) (time_entries d))
  && Pg.int4b userId
  && existsb (fun u => User.id u =? userId) (users d)
  && Pg.int4b (taskId timeEntryData)
  && existsb (fun t => Task.id t =? taskId timeEntryData) (tasks d)
  && Pg.opt_int4b (durationMinutes timeEntryData).

(** The row of the [INSERT]: [timesheet_id] is not among the inserted
    columns and starts null. *)
Definition new_row (id : Z) (timeEntryData : TimeEntryInput) (userId : Z)
    (now : Date.t) : TimeEntry.t :=
  TimeEntry.mk id userId (taskId timeEntryData) (startTime timeEntryData)
    (endTime timeEntryData) (durationMinutes timeEntryData)
    (description timeEntryData)
    (or_default (isBillable timeEntryData) true)
    (or_default (status timeEntryData) draft)
    None now.

(** [INSERT INTO time_entries ... RETURNING *].  [id] is the value the
    serial sequence of the table hands out (the sequence itself is not
    part of [Db]).  The statement throws, and inserts nothing, when the
    row is not [accepted]. *)
Definition create (id : Z) (timeEntryData : TimeEntryInput) (userId : Z)
    (now : Date.t) (d : Db) : Conn.result TimeEntry.t * Db :=
  let row := new_row id timeEntryData userId now in
  if accepted id timeEntryData userId d
  then (Conn.Ok row, set_time_entries (fun l => l ++ [row]) d)
  else (Conn.Throw, d).

(** [SELECT * FROM time_entries WHERE id = $1], then [rows[0] || null]. *)
Definition findById (id : Z) (d : Db) : option TimeEntry.t :=
  hd_error (filter (fun e => TimeEntry.id e =? id) (time_entries d)).

End TimeEntries.

(** ** controllers/time-entry.controller.ts: [createTimeEntry],
    [getTimeEntry] *)

Module TimeEntryHandlers.
Import Http.

(** The body fields [createTimeEntry] destructures; the two dates are the
    [Date]s that [new Date(...)] makes of them. *)
Record entry_body := mkBody {
  taskId : Z;
  startTime : Date.t;
  endTime : option Date.t;
  durationMinutes : option Z;
  description : option string;
  isBillable : option bool
}.

(** [durationMinutes || null]: a zero is dropped like an absent value. *)
Definition truthy_minutes (m : option Z) : option Z :=
  match m with
  | Some 0 => None
  | other => other
  end.

(** [isBillable !== false] *)
Definition not_false (b : option bool) : bool :=
  match b with
  | Some false => false
  | _ => true
  end.

Definition createTimeEntry (id : Z) (req : request entry_body)
    (now : Date.t) (d : Db) : response * Db :=
  match validation_errors req with
  | _ :: _ => (reply 400 (json_errors (validation_errors req)), d)
  | [] =>
      let userId := Http.id (user req) in
      let timeEntryData :=
        TimeEntries.mkInput (taskId (body req)) (startTime (body req))
          (endTime (body req)) (truthy_minutes (durationMinutes (body req)))
          (description (body req)) (Some (not_false (isBillable (body req))))
          (Some draft) in
      match TimeEntries.create id timeEntryData userId now d with
      | (Conn.Ok timeEntry, d') =>
          (reply 201 (json_time_entry timeEntry), d')
      | (Conn.Throw, d') =>
          (reply 500
             (json_message "Server error while creating time entry"), d')
      end
  end.

Definition getTimeEntry (req : request unit) (d : Db) : response * Db :=
  match param_id req with
  | None => (reply 400 (json_message "Invalid time entry ID"), d)
  | Some entryId =>
      match TimeEntries.findById entryId d with
      | None => (reply 404 (json_message "Time entry not found"), d)
      | Some timeEntry =>
          let isOwner :=
            TimeEntryModel.userOwnsEntry entryId (Http.id (user req)) d in
          if negb isOwner && negb (TimeEntryController.is_admin (user req))
          then
            (reply 403
               (json_message "Not authorized to view this time entry"), d)
          else (ok (json_time_entry timeEntry), d)
      end
  end.

End TimeEntryHandlers.

(** ** models/timesheet.model.ts: [TimesheetModel.create] *)

Module Timesheets.

Record TimesheetInput := mkInput {
  userId : Z;
  startDate : Date.t;
  endDate : Date.t;
  notes : option string;
  status : option SheetStatus;
  timeEntryIds : option (list Z)
}.

(** The row the [UPDATE] of [create] leaves: attached and submitted, with
    [updated_at] set by the trigger of [db/schema.sql]. *)
Definition attached (id : Z) (now : Date.t) (te : TimeEntry.t)
    : TimeEntry.t :=
  TimeEntry.mk (TimeEntry.id te) (TimeEntry.user_id te)
    (TimeEntry.task_id te) (TimeEntry.start_time te) (TimeEntry.end_time te)
    (TimeEntry.duration_minutes te) (TimeEntry.description te)
    (TimeEntry.is_billable te) submitted (Some id) now.

(** The [UPDATE] of [create] is not sent, or all it is sent is within
    [INTEGER]. *)
Definition fits (timeEntryIds : list Z) (userId : Z) : Prop :=
  timeEntryIds = [] \/ (Forall Pg.int4 timeEntryIds /\ Pg.int4 userId).

(** The row of the [INSERT]. *)
Definition new_row (id : Z) (timesheetData : TimesheetInput) (now : Date.t)
    : Timesheet.t :=
  Timesheet.mk id (userId timesheetData) (startDate timesheetData)
    (endDate timesheetData)
    (TimeEntries.or_default (status timesheetData) sheet_draft)
    (notes timesheetData) None None now.

(** [create]: the [INSERT] and, when ids are given, the [UPDATE] of the
    entries of that user, between [BEGIN] and [COMMIT].  [id] is the value
    the serial sequence of timesheets hands out.  The [UPDATE] casts the
    ids to [int[]] and compares [user_id], an [INTEGER], with the user:
    with one of them outside [INTEGER] it throws, and the [ROLLBACK] of
    the [catch] block undoes the [INSERT]. *)
Definition create (id : Z) (timesheetData : TimesheetInput) (now : Date.t)
    (d : Db) : Conn.result Timesheet.t * Db :=
  let timeEntryIds :=
    TimeEntries.or_default (timeEntryIds timesheetData) [] in
  let timesheet := new_row id timesheetData now in
  let d1 := set_timesheets (fun l => l ++ [timesheet]) d in
  match timeEntryIds with
  | [] => (Conn.Ok timesheet, d1)
  | _ =>
      if forallb Pg.int4b timeEntryIds && Pg.int4b (userId timesheetData)
      then
        (Conn.Ok timesheet,
         set_time_entries
           (map (fun te =>
                   if mem (TimeEntry.id te) timeEntryIds
                      && (TimeEntry.user_id te =? userId timesheetData)
                   then attached id now te
                   else te)) d1)
      else (Conn.Throw, d)
  end.

End Timesheets.

(** ** controllers/timesheet.controller.ts: the other handlers *)

Module TimesheetHandlers.
Import Http.

(** The body fields [createTimesheet] destructures. *)
Record create_body := mkCreate {
  startDate : Date.t;
  endDate : Date.t;
  notes : option string;
  timeEntryIds : option (list Z)
}.

Definition createTimesheet (id : Z) (req : request create_body)
    (now : Date.t) (d : Db) : response * Db :=
  match validation_errors req with
  | _ :: _ => (reply 400 (json_errors (validation_errors req)), d)
  | [] =>
      let timesheetData :=
        Timesheets.mkInput (Http.id (user req)) (startDate (body req))
          (endDate (body req)) (notes (body req)) (Some sheet_draft)
          (Some (TimeEntries.or_default (timeEntryIds (body req)) [])) in
      match Timesheets.create id timesheetData now d with
      | (Conn.Ok timesheet, d') =>
          (reply 201 (json_timesheet timesheet), d')
      | (Conn.Throw, d') =>
          (reply 500
             (json_message "Server error while creating timesheet"), d')
      end
  end.

Definition getTimesheet (req : request unit) (d : Db) : response * Db :=
  match param_id req with
  | None => (reply 400 (json_message "Invalid timesheet ID"), d)
  | Some timesheetId =>
      match TimesheetModel.findById timesheetId d with
      | None => (reply 404 (json_message "Timesheet not found"), d)
      | Some timesheet =>
          if negb (Timesheet.user_id (Timesheet.row timesheet)
                   =? Http.id (user req))
             && negb (Role_eqb (role (user req)) admin) then
            (reply 403
               (json_message "Not authorized to view this timesheet"), d)
          else (ok (json_joined timesheet), d)
      end
  end.

(** What the two handlers below send: a response, or [res.json(null)]
    when the last [findById] finds nothing. *)
Inductive answer :=
| send (r : response)
| send_null.

Definition addTimeEntriesToTimesheet
    (req : request TimesheetController.sheet_body) (d : Db) : answer * Db :=
  match param_id req with
  | None => (send (reply 400 (json_message "Invalid timesheet ID")), d)
  | Some timesheetId =>
      match TimesheetController.timeEntryIds (body req) with
      | None | Some [] =>
          (send (reply 400 (json_message "Time entry IDs are required")), d)
      | Some timeEntryIds =>
          match TimesheetModel.findById timesheetId d with
          | None =>
              (send (reply 404 (json_message "Timesheet not found")), d)
          | Some timesheet =>
              if negb (Timesheet.user_id (Timesheet.row timesheet)
                       =? Http.id (user req)) then
                (send (reply 403
                         (json_message
                            "Not authorized to modify this timesheet")), d)
              else if negb (SheetStatus_eqb
                              (Timesheet.status (Timesheet.row timesheet))
                              sheet_draft) then
                (send (reply 400
                         (json_message
                            "Only draft timesheets can be modified")), d)
              else
                match TimesheetModel.addTimeEntries timesheetId timeEntryIds
                        d with
                | (false, d') =>
                    (send (reply 400
                             (json_message
                                "Failed to add time entries to timesheet")),
                     d')
                | (true, d') =>
                    match TimesheetModel.findById timesheetId d' with
                    | Some updatedTimesheet =>
                        (send (ok (json_joined updatedTimesheet)), d')
                    | None => (send_null, d')
                    end
                end
          end
      end
  end.

Definition removeTimeEntriesFromTimesheet
    (req : request TimesheetController.sheet_body) (d : Db) : answer * Db :=
  match param_id req with
  | None => (send (reply 400 (json_message "Invalid timesheet ID")), d)
  | Some timesheetId =>
      match TimesheetController.timeEntryIds (body req) with
      | None | Some [] =>
          (send (reply 400 (json_message "Time entry IDs are required")), d)
      | Some timeEntryIds =>
          match TimesheetModel.findById timesheetId d with
          | None =>
              (send (reply 404 (json_message "Timesheet not found")), d)
          | Some timesheet =>
              if negb (Timesheet.user_id (Timesheet.row timesheet)
                       =? Http.id (user req)) then
                (send (reply 403
                         (json_message
                            "Not authorized to modify this timesheet")), d)
              else if negb (SheetStatus_eqb
                              (Timesheet.status (Timesheet.row timesheet))
                              sheet_draft) then
                (send (reply 400
                         (json_message
                            "Only draft timesheets can be modified")), d)
              else
                match TimesheetModel.removeTimeEntries timesheetId
                        timeEntryIds d with
                | (false, d') =>
                    (send
                       (reply 400
                          (json_message
                             "Failed to remove time entries from timesheet")),
                     d')
                | (true, d') =>
                    match TimesheetModel.findById timesheetId d' with
                    | Some updatedTimesheet =>
                        (send (ok (json_joined updatedTimesheet)), d')
                    | None => (send_null, d')
                    end
                end
          end
      end
  end.

End TimesheetHandlers.

(** ** models/invoice.model.ts: what the reads answer when the server
    executes them *)

Module Invoices.

(** The answer of [InvoiceModel.findById] on the committed rows [d]. *)
Definition found (id : Z) (d : Db) : option Invoice.full :=
  match InvoiceModel.select_invoice id d with
  | [] => None
  | (invoice, u) :: _ =>
      Some (Invoice.mkFull invoice
              (Invoice.mkClient (Invoice.client_id invoice)
                 (User.company_name u) (User.first_name u)
                 (User.last_name u) (User.email u))
              (InvoiceModel.select_items id d))
  end.

(** [InvoiceModel.updateStatus] with what it returns: [null] when the
    [UPDATE] matched no row, else the answer of [findById].  [invoices.id]
    is [SERIAL]: with an id outside [INTEGER] the [UPDATE] throws. *)
Definition updateStatus (id : Z) (status : InvoiceStatus)
    (notes : option string) (now : Date.t) (d : Db)
    : Conn.result (option Invoice.full) * Db :=
  if Pg.int4b id then
    match filter (fun i => Invoice.id i =? id) (invoices d) with
    | [] => (Conn.Ok None, d)
    | _ =>
        let d' := InvoiceModel.updateStatus id status notes now d in
        (Conn.Ok (found id d'), d')
    end
  else (Conn.Throw, d).

End Invoices.

(** ** controllers/invoice.controller.ts *)

Module InvoiceController.

Inductive json :=
| json_errors (l : list string)
| json_message (m : string)
| json_invoice (i : option Invoice.full)
| json_rows (l : list (TimeEntry.t * Task.t * Project.t * User.t)).

Record response := mkResponse { status : Z; payload : json }.

Definition reply (code : Z) (j : json) : response := mkResponse code j.

Definition ok (j : json) : response := mkResponse 200 j.

(** An item of the request body; [timeEntryIds] may be absent. *)
Record item_body := mkItemBody {
  description : string;
  quantity : float;
  unitPrice : float;
  timeEntryIds : option (list Z)
}.

Record invoice_body := mkInvoiceBody {
  clientId : Z;
  issueDate : Date.t;
  dueDate : Date.t;
  taxRate : float;
  notes : option string;
  items : list item_body
}.

(** [items.map(item => ({ ..., timeEntryIds: item.timeEntryIds || [] }))] *)
Definition invoiceData (b : invoice_body) : InvoiceModel.InvoiceInput :=
  InvoiceModel.mkInput (clientId b) (issueDate b) (dueDate b) (taxRate b)
    (notes b)
    (map (fun item =>
            InvoiceModel.mkItem (description item) (quantity item)
              (unitPrice item)
              (TimeEntries.or_default (timeEntryIds item) []))
         (items b)).

Section Oracle.
Variable fails : nat -> bool.

Definition createInvoice (req : Http.request invoice_body) (now : Date.t)
    (s : Conn.state) : response * Conn.state :=
  match Http.validation_errors req with
  | _ :: _ => (reply 400 (json_errors (Http.validation_errors req)), s)
  | [] =>
      if negb (Role_eqb (Http.role (Http.user req)) admin) then
        (reply 403 (json_message "Only administrators can create invoices"),
         s)
      else
        match InvoiceModel.create fails (invoiceData (Http.body req)) now s
        with
        | (Conn.Ok invoice, s') => (reply 201 (json_invoice invoice), s')
        | (Conn.Throw, s') =>
            (reply 500 (json_message "Server error while creating invoice"),
             s')
        end
  end.

Definition getInvoice (req : Http.request unit) (s : Conn.state)
    : response * Conn.state :=
  match Http.param_id req with
  | None => (reply 400 (json_message "Invalid invoice ID"), s)
  | Some invoiceId =>
      match InvoiceModel.findById fails invoiceId s with
      | (Conn.Throw, s') =>
          (reply 500 (json_message "Server error while fetching invoice"),
           s')
      | (Conn.Ok None, s') =>
          (reply 404 (json_message "Invoice not found"), s')
      | (Conn.Ok (Some invoice), s') =>
          if negb (Role_eqb (Http.role (Http.user req)) admin)
             && negb (Http.id (Http.user req)
                      =? Invoice.client_id (Invoice.row invoice)) then
            (reply 403 (json_message "Not authorized to view this invoice"),
             s')
          else (ok (json_invoice (Some invoice)), s')
      end
  end.
End Oracle.

(** The body of [updateInvoiceStatus]. *)
Record status_body := mkStatusBody {
  new_status : InvoiceStatus;
  status_notes : option string
}.

Definition updateInvoiceStatus (req : Http.request status_body)
    (now : Date.t) (d : Db) : response * Db :=
  match Http.validation_errors req with
  | _ :: _ => (reply 400 (json_errors (Http.validation_errors req)), d)
  | [] =>
      match Http.param_id req with
      | None => (reply 400 (json_message "Invalid invoice ID"), d)
      | Some invoiceId =>
          if negb (Role_eqb (Http.role (Http.user req)) admin) then
            (reply 403
               (json_message "Only administrators can update invoice status"),
             d)
          else
            match Invoices.updateStatus invoiceId
                    (new_status (Http.body req))
                    (status_notes (Http.body req)) now d with
            | (Conn.Ok None, d') =>
                (reply 404 (json_message "Invoice not found"), d')
            | (Conn.Ok (Some updatedInvoice), d') =>
                (ok (json_invoice (Some updatedInvoice)), d')
            | (Conn.Throw, d') =>
                (reply 500
                   (json_message
                      "Server error while updating invoice status"), d')
            end
      end
  end.

(** [getUnbilledTimeEntries]: the path parameter is [clientId]; the
    handler asks for no validation result. *)
Definition getUnbilledTimeEntries (req : Http.request unit) (d : Db)
    : response :=
  match Http.param_id req with
  | None => reply 400 (json_message "Invalid client ID")
  | Some clientId =>
      if negb (Role_eqb (Http.role (Http.user req)) admin) then
        reply 403
          (json_message "Only administrators can view unbilled time entries")
      else ok (json_rows (InvoiceModel.getUnbilledTimeEntries clientId d))
  end.

End InvoiceController.

(** ** Requests of users who are not administrators *)

Module Steps.

(** One request by a user who is not an administrator, to any of the
    handlers that can write. *)
Inductive step : Db -> Db -> Prop :=
| step_createTimeEntry id req now d :
    Http.role (Http.user req) <> admin ->
    step d (snd (TimeEntryHandlers.createTimeEntry id req now d))
| step_updateTimeEntry req now d :
    Http.role (Http.user req) <> admin ->
    step d (snd (TimeEntryController.updateTimeEntry req now d))
| step_deleteTimeEntry req d :
    Http.role (Http.user req) <> admin ->
    step d (snd (TimeEntryController.deleteTimeEntry req d))
| step_createTimesheet id req now d :
    Http.role (Http.user req) <> admin ->
    step d (snd (TimesheetHandlers.createTimesheet id req now d))
| step_updateTimesheet req d :
    Http.role (Http.user req) <> admin ->
    step d (snd (TimesheetController.updateTimesheet req d))
| step_submitTimesheet req now d :
    Http.role (Http.user req) <> admin ->
    step d (snd (TimesheetController.submitTimesheet req now d))
| step_approveTimesheet req now d :
    Http.role (Http.user req) <> admin ->
    step d (snd (TimesheetController.approveTimesheet req now d))
| step_rejectTimesheet req now d :
    Http.role (Http.user req) <> admin ->
    step d (snd (TimesheetController.rejectTimesheet req now d))
| step_addTimeEntries req d :
    Http.role (Http.user req) <> admin ->
    step d (snd (TimesheetHandlers.addTimeEntriesToTimesheet req d))
| step_removeTimeEntries req d :
    Http.role (Http.user req) <> admin ->
    step d (snd (TimesheetHandlers.removeTimeEntriesFromTimesheet req d))
| step_createInvoice fails req now d :
    Http.role (Http.user req) <> admin ->
    step d (Conn.committed
              (snd (InvoiceController.createInvoice fails req now
                      (Conn.idle d))))
| step_updateInvoiceStatus req now d :
    Http.role (Http.user req) <> admin ->
    step d (snd (InvoiceController.updateInvoiceStatus req now d)).

Inductive reachable (d0 : Db) : Db -> Prop :=
| reach_start : reachable d0 d0
| reach_next d d' : reachable d0 d -> step d d' -> reachable d0 d'.

(** The statuses only an approval, a rejection or an invoice gives. *)
Definition decided (s : EntryStatus) : Prop :=
  s = approved \/ s = rejected \/ s = billed.

Definition sheet_decided (s : SheetStatus) : Prop :=
  s = sheet_approved \/ s = sheet_rejected.

(** Every decided time entry of [d'] was in [d] with that id and that
    status. *)
Definition keeps_entries (d d' : Db) : Prop :=
  forall e', In e' (time_entries d') -> decided (TimeEntry.status e') ->
    exists e, In e (time_entries d)
              /\ TimeEntry.id e = TimeEntry.id e'
              /\ TimeEntry.status e = TimeEntry.status e'.

Definition keeps_sheets (d d' : Db) : Prop :=
  forall t', In t' (timesheets d') -> sheet_decided (Timesheet.status t') ->
    exists t, In t (timesheets d)
              /\ Timesheet.id t = Timesheet.id t'
              /\ Timesheet.status t = Timesheet.status t'.

Definition keeps (d d' : Db) : Prop :=
  keeps_entries d d' /\ keeps_sheets d d'
  /\ invoices d' = invoices d /\ invoice_items d' = invoice_items d.

End Steps.

(** ** Sample data with two clients *)

Module TwoClients.

Definition dave : User.t :=
  User.mk 11 "dave@example.com" "Dave" "Low" (Some "Low Inc") client.

(** One project and one task for each of the clients 10 and 11, with an
    approved billable entry of user 7 on each. *)
Definition db : Db :=
  mkDb [Sample.alice; Sample.bob; dave]
       [Project.mk 1 10 "site" 10000; Project.mk 2 11 "shop" 5000]
       [Task.mk 1 1 "design"; Task.mk 2 2 "build"]
       [Sample.entry 1 7 1 90 approved None;
        Sample.entry 2 7 2 30 approved None]
       [] [] [] 0 0.

Definition admin_asks (clientId : Z) : Http.request unit :=
  Http.mkRequest (Http.mkUser 99 admin) (Some clientId) [] tt.

End TwoClients.
(** * Properties *)

(** ** Lists, sorting *)

Lemma filter_none {A} (p : A -> bool) (l : list A) :
  (forall x, In x l -> p x = false) -> filter p l = [].
Proof.
  induction l as [|a l IH]; intros H; simpl; [reflexivity|].
  rewrite (H a (or_introl eq_refl)). apply IH.
  intros x Hx. apply H. now right.
Qed.

Lemma insert_sorted_In {A} (le : A -> A -> bool) (x y : A) (l : list A) :
  In y (insert_sorted le x l) <-> y = x \/ In y l.
Proof.
  induction l as [|z r IH]; simpl.
  - intuition.
  - destruct (le x z); simpl; [intuition|].
    rewrite IH. intuition.
Qed.

Lemma order_by_In {A} (le : A -> A -> bool) (y : A) (l : list A) :
  In y (order_by le l) <-> In y l.
Proof.
  induction l as [|x r IH]; simpl; [tauto|].
  rewrite insert_sorted_In, IH. intuition.
Qed.

Lemma mem_In (x : Z) (l : list Z) : mem x l = true <-> In x l.
Proof.
  unfold mem. rewrite existsb_exists. split.
  - intros (y & Hy & E). apply Z.eqb_eq in E. now subst.
  - intros H. exists x. split; [assumption|apply Z.eqb_refl].
Qed.

Lemma mem_app (x : Z) (l1 l2 : list Z) :
  mem x (l1 ++ l2) = mem x l1 || mem x l2.
Proof. unfold mem. apply existsb_app. Qed.

(** ** The transaction of [InvoiceModel.create] *)

Section CreateRun.
Import InvoiceModel InvoiceEffect.
Variable fails : nat -> bool.

Lemma no_fail_split n a b :
  no_fail fails n (a + b) <->
  no_fail fails n a /\ no_fail fails (n + a) b.
Proof.
  unfold no_fail. split.
  - intros H. split; intros k Hk.
    + apply H. lia.
    + rewrite <- Nat.add_assoc. apply H. lia.
  - intros [Ha Hb] k Hk.
    destruct (Nat.lt_ge_cases k a) as [L|G]; [now apply Ha|].
    replace (n + k)%nat with (n + a + (k - a))%nat by lia.
    apply Hb. lia.
Qed.

Lemma some_fail_left n a b :
  some_fail fails n a -> some_fail fails n (a + b).
Proof. intros (k & Hk & F). exists k. split; [lia|assumption]. Qed.

Lemma some_fail_right n a b :
  some_fail fails (n + a) b -> some_fail fails n (a + b).
Proof.
  intros (k & Hk & F). exists (a + k)%nat. split; [lia|].
  now rewrite Nat.add_assoc.
Qed.

Lemma no_fail_one n : fails n = false -> no_fail fails n 1.
Proof.
  intros F k Hk. replace (n + k)%nat with n by lia. exact F.
Qed.

Lemma some_fail_one n : fails n = true -> some_fail fails n 1.
Proof.
  intros F. exists 0%nat. split; [lia|]. now rewrite Nat.add_0_r.
Qed.

(** One pass of the loop body inside an open transaction. *)
Lemma add_item_run invoice_id item s w :
  Conn.working s = Some w ->
  exists r s',
    add_item fails invoice_id item s = (r, s')
    /\ Conn.committed s' = Conn.committed s
    /\ ((r = Conn.Ok tt
         /\ Conn.working s' = Some (add_item_effect invoice_id item w)
         /\ Conn.issued s' = (Conn.issued s + item_statements item)%nat
         /\ no_fail fails (Conn.issued s) (item_statements item))
        \/ (r = Conn.Throw
            /\ (exists w', Conn.working s' = Some w')
            /\ some_fail fails (Conn.issued s) (item_statements item))).
Proof.
  intros W.
  unfold add_item, add_item_effect, item_statements, Conn.bind,
    Conn.client_query, Conn.statement.
  destruct (fails (Conn.issued s)) eqn:F0.
  - eexists _, _. split; [reflexivity|]. split; [reflexivity|]. right.
    split; [reflexivity|]. split; [simpl; eauto|].
    destruct (timeEntryIds item);
      [apply some_fail_one | apply (some_fail_left _ 1 1), some_fail_one];
      exact F0.
  - simpl. rewrite W. simpl.
    destruct (timeEntryIds item) as [|i ids] eqn:E.
    + eexists _, _. split; [reflexivity|]. split; [reflexivity|]. left.
      simpl. repeat split; try reflexivity.
      * f_equal. lia.
      * now apply no_fail_one.
    + simpl. destruct (fails (S (Conn.issued s))) eqn:F1.
      * eexists _, _. split; [reflexivity|]. split; [reflexivity|]. right.
        split; [reflexivity|]. split; [simpl; eauto|].
        apply (some_fail_right _ 1 1), some_fail_one.
        now rewrite Nat.add_1_r.
      * eexists _, _. split; [reflexivity|]. split; [reflexivity|]. left.
        simpl. repeat split; try reflexivity.
        -- f_equal. lia.
        -- apply (no_fail_split _ 1 1). split; apply no_fail_one;
             [assumption | now rewrite Nat.add_1_r].
Qed.

(** The whole loop. *)
Lemma for_of_run invoice_id l : forall s w,
  Conn.working s = Some w ->
  exists r s',
    Conn.for_of l (add_item fails invoice_id) s = (r, s')
    /\ Conn.committed s' = Conn.committed s
    /\ ((r = Conn.Ok tt
         /\ Conn.working s' = Some (loop_effect invoice_id l w)
         /\ Conn.issued s' = (Conn.issued s + loop_statements l)%nat
         /\ no_fail fails (Conn.issued s) (loop_statements l))
        \/ (r = Conn.Throw
            /\ (exists w', Conn.working s' = Some w')
            /\ some_fail fails (Conn.issued s) (loop_statements l))).
Proof.
  induction l as [|item r IH]; intros s w W.
  - exists (Conn.Ok tt), s. simpl. unfold Conn.ret.
    split; [reflexivity|]. split; [reflexivity|]. left.
    repeat split; auto.
    intros k Hk. lia.
  - destruct (add_item_run invoice_id item s w W)
      as (r1 & s1 & E1 & C1 & [(R1 & W1 & I1 & N1) | (R1 & W1 & F1)]).
    + destruct (IH s1 _ W1)
        as (r2 & s2 & E2 & C2 & [(R2 & W2 & I2 & N2) | (R2 & W2 & F2)]).
      * exists r2, s2. simpl. unfold Conn.bind. rewrite E1, R1, E2.
        split; [reflexivity|]. split; [congruence|]. left.
        split; [assumption|]. split; [assumption|].
        split; [lia|]. apply no_fail_split. split; [assumption|].
        now rewrite <- I1.
      * exists r2, s2. simpl. unfold Conn.bind. rewrite E1, R1, E2.
        split; [reflexivity|]. split; [congruence|]. right.
        split; [assumption|]. split; [assumption|].
        apply some_fail_right. now rewrite <- I1.
    + exists r1, s1. simpl. unfold Conn.bind. rewrite E1, R1.
      split; [reflexivity|]. split; [assumption|]. right.
      split; [reflexivity|]. split; [assumption|].
      now apply some_fail_left.
Qed.

End CreateRun.

(** ** The rows a committed call leaves *)

Section CreateEffect.
Import InvoiceModel InvoiceEffect.

Lemma bill_bill a b te : bill b (bill a te) = bill (a ++ b) te.
Proof.
  unfold bill. rewrite mem_app.
  destruct (mem (TimeEntry.id te) a) eqn:A; simpl.
  - now destruct (mem (TimeEntry.id te) b).
  - reflexivity.
Qed.

Lemma map_bill_nil l : map (bill []) l = l.
Proof. induction l; simpl; [|rewrite IHl]; reflexivity. Qed.

Lemma loop_effect_rows invoice_id l : forall w,
  loop_effect invoice_id l w =
  mkDb (users w) (projects w) (tasks w)
    (map (bill (flat_map timeEntryIds l)) (time_entries w))
    (timesheets w) (invoices w)
    (invoice_items w ++ item_rows invoice_id (invoice_items_id_seq w) l)
    (invoices_id_seq w)
    (invoice_items_id_seq w + Z.of_nat (List.length l)).
Proof.
  induction l as [|item r IH]; intros w.
  - destruct w; simpl. rewrite map_bill_nil, app_nil_r, Z.add_0_r.
    reflexivity.
  - change (loop_effect invoice_id (item :: r) w)
      with (loop_effect invoice_id r (add_item_effect invoice_id item w)).
    rewrite IH. unfold add_item_effect.
    change (flat_map timeEntryIds (item :: r))
      with (timeEntryIds item ++ flat_map timeEntryIds r).
    destruct (timeEntryIds item) as [|i ids] eqn:E; simpl.
    + rewrite <- app_assoc. simpl. f_equal. lia.
    + rewrite map_map, <- app_assoc. simpl. f_equal; [|lia].
      apply map_ext. intros te.
      change (bill (flat_map timeEntryIds r) (bill (i :: ids) te)
              = bill ((i :: ids) ++ flat_map timeEntryIds r) te).
      apply bill_bill.
Qed.

End CreateEffect.

(** The statement number [k] is one that throws ([F]). *)
Ltac fail_at k F :=
  exists k; split; [simpl; lia | rewrite <- F; f_equal; simpl; lia].

Section CreateSpec.
Import InvoiceModel InvoiceEffect.
Variable fails : nat -> bool.

(** [findById] only reads. *)
Lemma findById_run id s :
  exists r s',
    findById fails id s = (r, s')
    /\ Conn.committed s' = Conn.committed s
    /\ Conn.working s' = Conn.working s.
Proof.
  unfold findById, Conn.bind, Conn.pool_query, Conn.statement, Conn.ret.
  destruct (fails (Conn.issued s)); [simpl; eauto|].
  simpl. destruct (select_invoice id (Conn.committed s)) as [|[i u] rest].
  - eauto.
  - simpl. destruct (fails (S (Conn.issued s))); simpl; eauto.
Qed.

(** Every run of [create] from a connection with no open transaction:
    either a statement up to [COMMIT] threw and the rows are as before,
    or none did and the rows are those of [committed_create]; then
    [findById] is what answers. *)
Lemma create_run input now s :
  Conn.working s = None ->
  exists r s',
    create fails input now s = (r, s')
    /\ Conn.working s' = None
    /\ ((some_fail fails (Conn.issued s) (1 + tx_statements input)
         /\ r = Conn.Throw
         /\ tables (Conn.committed s') = tables (Conn.committed s))
        \/ (no_fail fails (Conn.issued s) (1 + tx_statements input)
            /\ Conn.committed s'
               = committed_create input now (Conn.committed s)
            /\ r = fst (findById fails
                           (invoices_id_seq (Conn.committed s) + 1)
                           (Conn.mk
                              (committed_create input now
                                                (Conn.committed s))
                              None
                              (Conn.issued s + 1 + tx_statements input))))).
Proof.
  intros W. destruct s as [d wk n]. simpl in W. subst wk.
  unfold create, generateInvoiceNumber, tx_statements.
  unfold Conn.bind at 1. unfold Conn.bind at 1.
  unfold Conn.pool_query at 1. unfold Conn.statement at 1. simpl.
  destruct (fails n) eqn:F0.
  { eexists _, _. split; [reflexivity|]. split; [reflexivity|]. left.
    split; [|split; reflexivity]. fail_at 0%nat F0. }
  simpl. unfold Conn.ret at 1. simpl.
  unfold Conn.try_catch.
  unfold Conn.bind at 1. unfold Conn.BEGIN, Conn.statement at 1. simpl.
  destruct (fails (S n)) eqn:F1.
  { eexists _, _. split; [reflexivity|]. split; [reflexivity|]. left.
    split; [|split; reflexivity]. fail_at 1%nat F1. }
  simpl.
  unfold Conn.bind at 1. unfold Conn.client_query at 1.
  unfold Conn.statement at 1. simpl.
  destruct (fails (S (S n))) eqn:F2.
  { eexists _, _. split; [reflexivity|]. split; [reflexivity|]. left.
    split; [|split; reflexivity]. fail_at 2%nat F2. }
  simpl.
  set (inv := invoice_row input _ _ _ _ now (invoices_id_seq d + 1)).
  set (w1 := mkDb _ _ _ _ _ (invoices d ++ [inv]) _ _ _).
  destruct (for_of_run fails (invoices_id_seq d + 1) (items input)
              (Conn.mk d (Some w1) (S (S (S n)))) w1 eq_refl)
    as (r1 & s1 & E1 & C1 & [(R1 & W1 & I1 & N1) | (R1 & (w' & W1) & S1)]).
  - subst r1. unfold Conn.bind at 1. rewrite E1.
    unfold Conn.bind at 1. unfold Conn.COMMIT, Conn.statement at 1.
    simpl in I1, N1, C1.
    destruct (fails (Conn.issued s1)) eqn:F3.
    + unfold Conn.ROLLBACK, Conn.throw, Conn.bind. simpl. rewrite W1.
      eexists _, _. split; [reflexivity|]. split; [reflexivity|]. left.
      split; [|split; [reflexivity|]].
      * fail_at (3 + loop_statements (items input))%nat F3.
      * simpl. rewrite C1. reflexivity.
    + simpl. rewrite W1. simpl.
      assert (Eff : loop_effect (invoices_id_seq d + 1) (items input) w1
                    = committed_create input now d).
      { rewrite loop_effect_rows. reflexivity. }
      rewrite Eff.
      assert (Iss : S (Conn.issued s1)
                    = (n + 1 + (2 + loop_statements (items input) + 1))%nat)
        by lia.
      rewrite Iss.
      destruct (findById_run (invoices_id_seq d + 1)
                  (Conn.mk (committed_create input now d) None
                     (n + 1 + (2 + loop_statements (items input) + 1))))
        as (r2 & s2 & E2 & C2 & W2).
      unfold Conn.bind at 1. rewrite E2. simpl in C2, W2.
      assert (Fin : exists s',
                match r2 with
                | Conn.Ok a => Conn.ret a s2
                | Conn.Throw => (Conn.ROLLBACK ;;; Conn.throw)%conn s2
                end = (r2, s')
                /\ Conn.working s' = None
                /\ Conn.committed s' = committed_create input now d).
      { destruct r2.
        - exists s2. auto.
        - unfold Conn.ROLLBACK, Conn.throw, Conn.bind. rewrite W2.
          eexists. split; [reflexivity|]. simpl. auto. }
      destruct Fin as (s' & E3 & W3 & C3).
      exists r2, s'. split.
      { destruct r2; exact E3. }
      split; [exact W3|]. right. split; [|split].
      * intros k Hk.
        destruct (Nat.eq_dec k 0) as [->|];
          [rewrite <- F0; f_equal; lia|].
        destruct (Nat.eq_dec k 1) as [->|];
          [rewrite <- F1; f_equal; lia|].
        destruct (Nat.eq_dec k 2) as [->|];
          [rewrite <- F2; f_equal; lia|].
        destruct (Nat.eq_dec k (3 + loop_statements (items input)))
          as [->|]; [rewrite <- F3; f_equal; lia|].
        rewrite <- (N1 (k - 3)%nat) by lia. f_equal. lia.
      * exact C3.
      * exact (eq_sym (f_equal fst E2)).
  - subst r1. unfold Conn.bind at 1. rewrite E1.
    unfold Conn.ROLLBACK, Conn.throw, Conn.bind. simpl. rewrite W1.
    eexists _, _. split; [reflexivity|]. split; [reflexivity|]. left.
    split; [|split; [reflexivity|]].
    + destruct S1 as (k & Hk & Fk).
      fail_at (3 + k)%nat Fk.
    + simpl. simpl in C1. rewrite C1. reflexivity.
Qed.

End CreateSpec.

(** ** Invoices: totals and atomicity *)

Section InvoiceTotals.
Import InvoiceModel InvoiceEffect.





(** The column rounds the text it is sent: the number nearest to 1.005 is
    sent as [1.005] and stored as 1.01, although its binary64 value lies
    below 1.005 and [toFixed(2)] prints it as 1.00. *)
Lemma numeric2_rounds_the_text :
  Pg.hundredths (JS.of_decimal 1005 (- 3)) = 101
  /\ Pg.numeric2 (JS.of_decimal 1005 (- 3)) = JS.parseFloat_decimal2 101
  /\ JS.toFixed2 (JS.of_decimal 1005 (- 3)) = JS.parseFloat_decimal2 100.
Proof. repeat split; vm_compute; reflexivity. Qed.

End InvoiceTotals.




(** C5.  [InvoiceModel.create] is all or nothing.  Number the statements
    the call sends from [issued s]: the count query of
    [generateInvoiceNumber], then the [tx_statements] statements of the
    transaction: [BEGIN], the invoice [INSERT], those of the loop and
    [COMMIT].  From a
    connection with no open transaction, the call leaves no transaction
    open, and either none of these statements throws and the committed
    database is [committed_create] (the invoice row, every item row, and
    every listed time entry marked billed, together), or one of them throws,
    the call throws, and the rows of every table are those from before the
    call. *)
Theorem create_atomic
    (fails : nat -> bool) (input : InvoiceModel.InvoiceInput) (now : Date.t)
    (s : Conn.state) :
  Conn.working s = None ->
  let out := InvoiceModel.create fails input now s in
  Conn.working (snd out) = None
  /\ ((InvoiceEffect.no_fail fails (Conn.issued s)
         (1 + InvoiceEffect.tx_statements input)
       /\ Conn.committed (snd out)
          = InvoiceEffect.committed_create input now (Conn.committed s))
      \/ (InvoiceEffect.some_fail fails (Conn.issued s)
            (1 + InvoiceEffect.tx_statements input)
          /\ fst out = Conn.Throw
          /\ tables (Conn.committed (snd out)) = tables (Conn.committed s))).
Proof.
  intros W out. subst out.
  destruct (create_run fails input now s W)
    as (r & s' & E & W' & [(F & R & T) | (N & C & _)]);
    rewrite E; simpl; (split; [exact W'|]).
  - right. auto.
  - left. auto.
Qed.

Lemma create_atomic_witness :
  tables
    (Conn.committed
       (snd (InvoiceModel.create (Sample.at_ 3) Sample.input0 (Sample.nov 2)
               (Conn.idle Sample.db0))))
  = tables Sample.db0
  /\ Conn.committed
       (snd (InvoiceModel.create Sample.never Sample.input0 (Sample.nov 2)
               (Conn.idle Sample.db0)))
     = InvoiceEffect.committed_create Sample.input0 (Sample.nov 2) Sample.db0.
Proof.
  split.
  - destruct (create_atomic (Sample.at_ 3) Sample.input0 (Sample.nov 2)
                (Conn.idle Sample.db0) eq_refl)
      as (_ & [(N & _) | (_ & _ & T)]).
    + specialize (N 3%nat). simpl in N.
      discriminate N. unfold InvoiceEffect.tx_statements. simpl. lia.
    + exact T.
  - destruct (create_atomic Sample.never Sample.input0 (Sample.nov 2)
                (Conn.idle Sample.db0) eq_refl)
      as (_ & [(_ & C) | ((k & _ & F) & _)]).
    + exact C.
    + discriminate F.
Defined.

(** ** Invoice numbers *)

Section InvoiceNumbers.
Import InvoiceModel InvoiceEffect.

Lemma created_never fails input now s :
  Conn.working s = None ->
  (forall k, fails k = false) ->
  Conn.working (snd (create fails input now s)) = None
  /\ Conn.committed (snd (create fails input now s))
     = committed_create input now (Conn.committed s).
Proof.
  intros W N.
  destruct (create_run fails input now s W)
    as (r & s' & E & W' & [((k & _ & F) & _) | (_ & C & _)]); rewrite E; simpl.
  - rewrite N in F. discriminate F.
  - auto.
Qed.

Lemma pad4_digits c :
  1 <= c <= 9999 ->
  String.length (Numbering.padded c) = 4%nat.
Proof.
  intros H. unfold Numbering.padded.
  assert (A : forallb
                (fun k => Nat.eqb (String.length
                                     (JS.padStart 4 "0"
                                        (JS.String_ (Z.of_nat k)))) 4)
                (seq 1 (Z.to_nat 9999)) = true) by (vm_compute; reflexivity).
  rewrite forallb_forall in A.
  specialize (A (Z.to_nat c)). rewrite Z2Nat.id in A by lia.
  apply Nat.eqb_eq, A, in_seq. lia.
Qed.

Lemma padStart_long n c s :
  (n <= String.length s)%nat -> JS.padStart n c s = s.
Proof.
  intros H. unfold JS.padStart.
  replace (n - String.length s)%nat with 0%nat by lia. reflexivity.
Qed.

(** The [WHERE] clause of the count selects the invoices of the month. *)
Lemma created_in_same_month now i :
  created_in (Date.getFullYear now) (Date.getMonth now + 1) i
  = Numbering.same_month (Invoice.created_at i) now.
Proof.
  unfold created_in, Numbering.same_month. f_equal.
  destruct (Z.eqb_spec (Date.getMonth (Invoice.created_at i) + 1)
                       (Date.getMonth now + 1)) as [E|E];
    destruct (Z.eqb_spec (Date.getMonth (Invoice.created_at i))
                         (Date.getMonth now)) as [E'|E'];
    try reflexivity; lia.
Qed.

Lemma count_in_month_count now d :
  count_in_month now d = Numbering.count now d.
Proof.
  unfold count_in_month, Numbering.count, Numbering.created_this_month.
  do 2 f_equal. apply filter_ext. intros i. apply created_in_same_month.
Qed.

Lemma string_app_assoc (a b c : string) :
  ((a ++ b) ++ c = a ++ b ++ c)%string.
Proof. induction a as [|x a IH]; simpl; [reflexivity|now rewrite IH]. Qed.

Lemma number_text now c :
  invoice_number_text now c = Numbering.number now c.
Proof.
  unfold invoice_number_text, Numbering.number, Numbering.year_month,
    Numbering.padded.
  now rewrite string_app_assoc.
Qed.

Lemma same_month_number a b c :
  Numbering.same_month a b = true ->
  Numbering.number a c = Numbering.number b c.
Proof.
  unfold Numbering.same_month. intros H. apply andb_prop in H.
  destruct H as [Y M]. apply Z.eqb_eq in Y, M.
  unfold Numbering.number, Numbering.year_month. now rewrite Y, M.
Qed.

Lemma same_month_count a b d :
  Numbering.same_month a b = true ->
  Numbering.count a d = Numbering.count b d.
Proof.
  unfold Numbering.same_month. intros H. apply andb_prop in H.
  destruct H as [Y M]. apply Z.eqb_eq in Y, M.
  unfold Numbering.count, Numbering.created_this_month,
    Numbering.same_month.
  now rewrite Y, M.
Qed.

Lemma same_month_refl a : Numbering.same_month a a = true.
Proof. unfold Numbering.same_month. now rewrite !Z.eqb_refl. Qed.

Lemma generate_run fails now s :
  (forall k, fails k = false) ->
  fst (generateInvoiceNumber fails now s)
  = Conn.Ok (Numbering.number now (Numbering.count now (Conn.committed s)
                                   + 1)).
Proof.
  intros N.
  unfold generateInvoiceNumber, Conn.bind, Conn.pool_query,
    Conn.statement, Conn.ret.
  rewrite N. simpl. now rewrite number_text, count_in_month_count.
Qed.

End InvoiceNumbers.

(** C6, as the code has it.  On a pool with no open transaction and a
    server that executes every statement: [generateInvoiceNumber] answers
    ['INV-'], the year, the month on two digits, a hyphen, and the
    sequence: one plus the number of invoices whose [created_at] falls in
    the month of the call, padded with zeros to four characters.  In a
    month without invoices the sequence is [0001], whatever the other
    months hold.  The invoices that consecutive calls of [create] within
    one month store carry the sequences that follow one another from
    there.  The sequence has exactly four digits up to 9999; a longer one
    is printed in full. *)
Theorem invoice_numbers_sequential
    (fails : nat -> bool)
    (calls : list (InvoiceModel.InvoiceInput * Date.t))
    (s : Conn.state) (month : Date.t) :
  Conn.working s = None ->
  (forall k, fails k = false) ->
  Forall (fun c => Numbering.same_month (snd c) month = true) calls ->
  let count := Numbering.count month (Conn.committed s) in
  (forall now,
      fst (InvoiceModel.generateInvoiceNumber fails now s)
      = Conn.Ok (Numbering.number now
                   (Numbering.count now (Conn.committed s) + 1)))
  /\ (forall now,
        (forall i, In i (invoices (Conn.committed s)) ->
                   Numbering.same_month (Invoice.created_at i) now = false) ->
        fst (InvoiceModel.generateInvoiceNumber fails now s)
        = Conn.Ok (Numbering.number now 1))
  /\ (exists rows,
        invoices (Conn.committed (create_each fails calls s))
        = invoices (Conn.committed s) ++ rows
        /\ map Invoice.invoice_number rows
           = map (fun k => Numbering.number month (count + 1 + Z.of_nat k))
                 (seq 0 (List.length calls)))
  /\ (forall c, 1 <= c <= 9999 ->
        String.length (Numbering.padded c) = 4%nat)
  /\ (forall c, (4 <= String.length (JS.String_ c))%nat ->
        Numbering.padded c = JS.String_ c).
Proof.
  intros W N A count. split; [|split; [|split; [|split]]].
  - intros now. now apply generate_run.
  - intros now H. rewrite (generate_run fails now s N). do 3 f_equal.
    unfold Numbering.count, Numbering.created_this_month.
    rewrite filter_none; [reflexivity|]. exact H.
  - subst count. revert s W.
    induction A as [|[input now] rest M A IH]; intros s W.
    + exists []. simpl. now rewrite app_nil_r.
    + simpl in M.
      destruct (created_never fails input now s W N) as [W1 C1].
      destruct (IH _ W1) as (rows & E & Nums).
      exists (InvoiceEffect.new_invoice input now (Conn.committed s) :: rows).
      simpl create_each. rewrite E, C1. simpl.
      split; [now rewrite <- app_assoc|].
      rewrite Nums, C1. simpl.
      rewrite number_text, count_in_month_count,
        (same_month_number _ _ _ M), (same_month_count _ _ _ M), Z.add_0_r.
      f_equal.
      rewrite <- seq_shift, map_map. apply map_ext. intros k.
      f_equal.
      unfold Numbering.count, Numbering.created_this_month. simpl.
      rewrite filter_app, length_app. simpl.
      rewrite M. simpl.
      rewrite Zpos_P_of_succ_nat. lia.
  - apply pad4_digits.
  - intros c H. now apply padStart_long.
Qed.

Lemma invoice_numbers_sequential_witness :
  map Invoice.invoice_number
      (invoices
         (Conn.committed
            (create_each Sample.never
               [(Sample.input0, Sample.nov 2); (Sample.input1, Sample.nov 3)]
               (Conn.idle Numbering.after_october))))
  = ["INV-202610-0001"; "INV-202611-0001"; "INV-202611-0002"].
Proof.
  destruct (invoice_numbers_sequential Sample.never
              [(Sample.input0, Sample.nov 2); (Sample.input1, Sample.nov 3)]
              (Conn.idle Numbering.after_october) (Sample.nov 1)
              eq_refl (fun _ => eq_refl))
    as (_ & _ & (rows & E & Nums) & _).
  - repeat constructor.
  - rewrite E, map_app, Nums. vm_compute. reflexivity.
Defined.

(** C6, as stated, fails.  The first invoice of November 2026 gets
    [INV-202611-0001], with a hyphen before the sequence that the words of
    the claim do not have; and in a month that already has 9999 invoices
    the sequence is [10000], five digits. *)
Lemma invoice_numbers_counterexample :
  fst (InvoiceModel.generateInvoiceNumber Sample.never (Sample.nov 2)
         (Conn.idle Sample.db0))
  = Conn.Ok "INV-202611-0001"
  /\ Numbering.number_as_claimed (Sample.nov 2) 1 = "INV-2026110001"
  /\ fst (InvoiceModel.generateInvoiceNumber Sample.never (Sample.nov 2)
            (Conn.idle Sample.db0))
     <> Conn.Ok (Numbering.number_as_claimed (Sample.nov 2) 1)
  /\ Numbering.count (Sample.nov 2) Numbering.full_month = 9999
  /\ fst (InvoiceModel.generateInvoiceNumber Sample.never (Sample.nov 2)
            (Conn.idle Numbering.full_month))
     = Conn.Ok "INV-202611-10000"
  /\ String.length (Numbering.padded 10000) = 5%nat.
Proof.
  split; [vm_compute; reflexivity|].
  split; [vm_compute; reflexivity|].
  split; [vm_compute; discriminate|].
  split; [vm_compute; reflexivity|].
  split; vm_compute; reflexivity.
Qed.

(** ** Time entries listed by invoice items *)

Section BillingLemmas.
Import InvoiceModel InvoiceEffect Billing.

Lemma FOP_app {A} (R : A -> A -> Prop) (l1 l2 : list A) :
  ForallOrdPairs R l1 ->
  ForallOrdPairs R l2 ->
  (forall a b, In a l1 -> In b l2 -> R a b) ->
  ForallOrdPairs R (l1 ++ l2).
Proof.
  intros H1 H2 X. induction H1 as [|a l Ha H1 IH]; simpl; [assumption|].
  constructor.
  - apply Forall_app. split; [assumption|].
    apply Forall_forall. intros b Hb. apply X; [now left|assumption].
  - apply IH. intros x b Hx Hb. apply X; [now right|assumption].
Qed.

Lemma item_rows_ids invoice_id l : forall seq it,
  In it (item_rows invoice_id seq l) ->
  exists item, In item l
               /\ InvoiceItem.time_entry_ids it = timeEntryIds item.
Proof.
  induction l as [|item r IH]; intros seq it H; simpl in H; [contradiction|].
  destruct H as [<-|H].
  - exists item. split; [now left|reflexivity].
  - destruct (IH _ _ H) as (x & Hx & E). exists x. split; [now right|exact E].
Qed.

Lemma item_rows_disjoint invoice_id l : forall seq,
  ForallOrdPairs
    (fun a b => forall t, In t (timeEntryIds a) -> ~ In t (timeEntryIds b))
    l ->
  ForallOrdPairs disjoint_ids (item_rows invoice_id seq l).
Proof.
  intros seq H. revert seq.
  induction H as [|a l Ha H IH]; intros seq; simpl; constructor.
  - apply Forall_forall. intros it Hit.
    destruct (item_rows_ids _ _ _ _ Hit) as (b & Hb & E).
    unfold disjoint_ids. simpl. rewrite E.
    rewrite Forall_forall in Ha. now apply Ha.
  - apply IH.
Qed.

(** [getUnbilledTimeEntries] reports no entry that an item row lists. *)
Lemma unbilled_not_invoiced t d :
  unbilled t d -> ~ In t (invoiced_ids d).
Proof.
  intros (c & row & H & <-).
  unfold getUnbilledTimeEntries in H.
  apply order_by_In, in_flat_map in H. destruct H as (te & Hte & H).
  apply in_flat_map in H. destruct H as (tk & _ & H).
  apply in_flat_map in H. destruct H as (p & _ & H).
  apply in_map_iff in H. destruct H as (u & <- & _). simpl.
  apply filter_In in Hte. destruct Hte as [_ Hw].
  apply andb_prop in Hw. destruct Hw as [_ Hn].
  intros I. apply mem_In in I. rewrite I in Hn. discriminate Hn.
Qed.

Lemma create_keeps_reference fails input now s :
  Conn.working s = None ->
  single_reference (Conn.committed s) ->
  lists_unbilled input (Conn.committed s) ->
  single_reference (Conn.committed (snd (create fails input now s))).
Proof.
  intros W Inv [Dis Unb].
  destruct (create_run fails input now s W)
    as (r & s' & E & _ & [(_ & _ & T) | (_ & C & _)]); rewrite E; simpl.
  - unfold single_reference. unfold tables in T.
    injection T as _ _ _ _ _ _ ->. exact Inv.
  - rewrite C. unfold single_reference, committed_create. simpl.
    apply FOP_app; [exact Inv | now apply item_rows_disjoint |].
    intros a b Ha Hb t Ta Tb.
    destruct (item_rows_ids _ _ _ _ Hb) as (item & Hitem & Eb).
    apply (unbilled_not_invoiced t (Conn.committed s)).
    + apply Unb. apply in_flat_map. exists item. split; [assumption|].
      now rewrite <- Eb.
    + apply in_flat_map. exists a. split; assumption.
Qed.

End BillingLemmas.

(** C2, as the code has it.  In every state the invoice operations reach
    from a database without invoice items, when each call of [create] lists
    only time entries that [getUnbilledTimeEntries] reports at that moment
    and none in two of its items: no transaction is left open, and every
    time entry id is listed by at most one invoice item row. *)
Theorem reachable_single_reference (s : Conn.state) :
  Billing.reachable s ->
  Conn.working s = None /\ Billing.single_reference (Conn.committed s).
Proof.
  induction 1 as [d E | s fails input now R [W Inv] U
                  | s id status notes now R [W Inv]].
  - split; [reflexivity|]. unfold Billing.single_reference. simpl.
    rewrite E. constructor.
  - split.
    + destruct (create_run fails input now s W)
        as (r & s' & E & W' & _). now rewrite E.
    + now apply create_keeps_reference.
  - split; [exact W|exact Inv].
Qed.

Lemma reachable_single_reference_witness :
  Billing.single_reference
    (Conn.committed
       (snd (InvoiceModel.create Sample.never Sample.input0 (Sample.nov 2)
               (Conn.idle Sample.db0)))).
Proof.
  apply reachable_single_reference.
  apply Billing.reach_create; [apply Billing.reach_init; reflexivity|].
  split.
  - repeat constructor. simpl. intros t [<-|[]] [E|[]]. discriminate E.
  - simpl. intros t [<-|[<-|[]]]; exists 10; eexists;
      first [ split; [vm_compute; left; reflexivity | reflexivity]
            | split; [vm_compute; right; left; reflexivity | reflexivity] ].
Defined.

(** C2, as stated, fails: two calls of [create] that list time entry 1
    leave it referenced by the items of two different invoices. *)
Lemma double_reference_counterexample :
  let d :=
    Conn.committed
      (create_each Sample.never
         [(Sample.input0, Sample.nov 2); (Sample.input1, Sample.nov 3)]
         (Conn.idle Sample.db0)) in
  ~ Billing.single_reference d
  /\ exists a b,
       In a (invoice_items d) /\ In b (invoice_items d)
       /\ InvoiceItem.invoice_id a <> InvoiceItem.invoice_id b
       /\ In 1 (InvoiceItem.time_entry_ids a)
       /\ In 1 (InvoiceItem.time_entry_ids b).
Proof.
  vm_compute invoice_items. split.
  - intros H. inversion H as [|a l Ha _]; subst.
    rewrite Forall_forall in Ha.
    apply (Ha (InvoiceItem.mk 3 2 "work" 1.5 100 150 [1])
              (or_intror (or_introl eq_refl)) 1); now left.
  - exists (InvoiceItem.mk 1 1 "work" 1.5 100 150 [1]),
      (InvoiceItem.mk 3 2 "work" 1.5 100 150 [1]).
    simpl. repeat split; auto; discriminate.
Qed.

(** ** Timesheets *)

Section SheetLemmas.
Import TimesheetModel Sheets.

Lemma updated_sheet_found id status notes by_ now l t :
  In t l -> Timesheet.id t = id ->
  filter (fun t => Timesheet.id t =? id)
         (map (fun t => if Timesheet.id t =? id
                        then status_row status notes by_ now t else t) l)
  <> [].
Proof.
  intros I E F.
  assert (X : In (status_row status notes by_ now t)
                 (filter (fun t => Timesheet.id t =? id)
                    (map (fun t => if Timesheet.id t =? id
                                   then status_row status notes by_ now t
                                   else t) l))).
  { apply filter_In. split.
    - apply in_map_iff. exists t. split; [|assumption].
      now rewrite E, Z.eqb_refl.
    - simpl. rewrite E. apply Z.eqb_refl. }
  rewrite F in X. exact X.
Qed.

Lemma addTimeEntries_rows timesheetId ids d :
  time_entries (snd (addTimeEntries timesheetId ids d))
  = map (attach timesheetId ids) (time_entries d).
Proof.
  unfold addTimeEntries. destruct ids as [|i ids]; simpl; [|reflexivity].
  symmetry. erewrite map_ext; [apply map_id|]. reflexivity.
Qed.

Lemma removeTimeEntries_rows timesheetId ids d :
  time_entries (snd (removeTimeEntries timesheetId ids d))
  = map (detach timesheetId ids) (time_entries d).
Proof.
  unfold removeTimeEntries. destruct ids as [|i ids]; simpl; [|reflexivity].
  symmetry. erewrite map_ext; [apply map_id|]. reflexivity.
Qed.




Lemma NoDup_map_eq {A B} (f : A -> B) (l : list A) (x y : A) :
  NoDup (map f l) -> In x l -> In y l -> f x = f y -> x = y.
Proof.
  induction l as [|a l IH]; simpl; intros N Hx Hy E; [contradiction|].
  inversion N as [|? ? Na Nl]; subst.
  destruct Hx as [->|Hx], Hy as [->|Hy]; auto.
  - exfalso. apply Na. rewrite E. now apply in_map.
  - exfalso. apply Na. rewrite <- E. now apply in_map.
Qed.

End SheetLemmas.

(** C3.  On an existing timesheet, [TimesheetModel.updateStatus] returns
    the timesheet; with ['approved'] every time entry whose [timesheet_id]
    is the timesheet's id gets the status ['approved'], with ['rejected']
    the status ['rejected'], every other entry staying as it was; with
    ['draft'] or ['submitted'] the time entries stay as they were. *)
Theorem updateStatus_cascades
    (id : Z) (status : SheetStatus) (approvedById : Z)
    (notes : option string) (now : Date.t) (d : Db) :
  (exists t, In t (timesheets d) /\ Timesheet.id t = id) ->
  let out := TimesheetModel.updateStatus id status approvedById notes now d in
  (exists t, fst out = Some t /\ Timesheet.id t = id
             /\ Timesheet.status t = status)
  /\ (status = sheet_approved ->
      time_entries (snd out)
      = map (Sheets.cascade id approved) (time_entries d))
  /\ (status = sheet_rejected ->
      time_entries (snd out)
      = map (Sheets.cascade id rejected) (time_entries d))
  /\ (status = sheet_draft \/ status = sheet_submitted ->
      time_entries (snd out) = time_entries d)
  /\ Forall (fun te =>
               TimeEntry.timesheet_id te = Some id ->
               match status with
               | sheet_approved => TimeEntry.status te = approved
               | sheet_rejected => TimeEntry.status te = rejected
               | _ => True
               end)
            (time_entries (snd out)).
Proof.
  intros (t & I & E) out. subst out. unfold TimesheetModel.updateStatus.
  pose proof (updated_sheet_found id status notes approvedById now _ t I E)
    as NE.
  simpl in NE |- *.
  destruct (filter _ (map _ (timesheets d))) as [|t' rest] eqn:F;
    [contradiction|].
  assert (In t' (t' :: rest)) as I' by now left.
  rewrite <- F in I'. apply filter_In in I'. destruct I' as [I' Hid].
  apply Z.eqb_eq in Hid.
  apply in_map_iff in I'. destruct I' as (t0 & E0 & _).
  split.
  { exists t'. split; [reflexivity|]. split; [assumption|].
    destruct (Timesheet.id t0 =? id) eqn:H0; subst t'; [reflexivity|].
    rewrite Hid in H0. rewrite Z.eqb_refl in H0. discriminate H0. }
  split; [intros ->; reflexivity|].
  split; [intros ->; reflexivity|].
  split; [intros [-> | ->]; reflexivity|].
  apply Forall_forall. intros te Hte Hs.
  destruct status; simpl in Hte; auto;
    apply in_map_iff in Hte; destruct Hte as (te0 & <- & _);
    destruct (option_Z_eqb (TimeEntry.timesheet_id te0) id) eqn:O;
    try reflexivity; rewrite Hs in O; simpl in O;
    rewrite Z.eqb_refl in O; discriminate O.
Qed.

Lemma updateStatus_cascades_witness :
  map TimeEntry.status
      (time_entries
         (snd (TimesheetModel.updateStatus 1 sheet_approved 99 None
                 (Sample.nov 8) Sample.db0)))
  = [approved; approved; draft].
Proof.
  destruct (updateStatus_cascades 1 sheet_approved 99 None (Sample.nov 8)
              Sample.db0) as (_ & A & _).
  - exists (Sample.sheet 1 7 sheet_draft). split; [now left|reflexivity].
  - rewrite (A eq_refl). reflexivity.
Defined.



(** ** Timesheet handlers *)

(** The step of the lifecycle the handlers guard: on a timesheet that
    is not a draft [submitTimesheet] changes nothing, and it answers 400
    when the timesheet is the requester's own. *)
Lemma submitTimesheet_from_draft_only
    (req : Http.request TimesheetController.sheet_body) (now : Date.t)
    (d : Db) (id : Z) (t : Timesheet.joined) :
  Http.param_id req = Some id ->
  TimesheetModel.findById id d = Some t ->
  Timesheet.status (Timesheet.row t) <> sheet_draft ->
  snd (TimesheetController.submitTimesheet req now d) = d
  /\ (Timesheet.user_id (Timesheet.row t) = Http.id (Http.user req) ->
      Http.status (fst (TimesheetController.submitTimesheet req now d)) = 400).
Proof.
  intros P F S. unfold TimesheetController.submitTimesheet.
  rewrite P, F.
  destruct (Timesheet.user_id (Timesheet.row t) =? Http.id (Http.user req))
    eqn:O; simpl.
  - destruct (Timesheet.status (Timesheet.row t)); simpl; auto.
    contradiction.
  - split; [reflexivity|]. intros E. rewrite E, Z.eqb_refl in O.
    discriminate O.
Qed.

(** C4, where the code departs from the claim: an administrator's
    [approveTimesheet] on the draft timesheet 1 answers 200 with the
    timesheet approved and approves its time entries; [rejectTimesheet]
    with a reason rejects it likewise.  Neither handler reads the current
    status. *)
Theorem approveTimesheet_from_draft :
  let admin_req notes :=
    Http.mkRequest (Http.mkUser 99 admin) (Some 1) []
      (TimesheetController.mkBody None None notes None) in
  let approved_ :=
    TimesheetController.approveTimesheet (admin_req None) (Sample.nov 8)
      Sample.db0 in
  let rejected_ :=
    TimesheetController.rejectTimesheet (admin_req (Some "late"))
      (Sample.nov 8) Sample.db0 in
  option_map (fun t => Timesheet.status (Timesheet.row t))
             (TimesheetModel.findById 1 Sample.db0) = Some sheet_draft
  /\ Http.status (fst approved_) = 200
  /\ map Timesheet.status (timesheets (snd approved_))
     = [sheet_approved; sheet_submitted]
  /\ map TimeEntry.status (time_entries (snd approved_))
     = [approved; approved; draft]
  /\ Http.status (fst rejected_) = 200
  /\ map Timesheet.status (timesheets (snd rejected_))
     = [sheet_rejected; sheet_submitted].
Proof. repeat split. Qed.

(** C10.  [updateTimesheet] writes nothing.  No validation chain is written
    for it and no route mounts it, so [validationResult(req)] is empty
    whenever it runs.  For a draft timesheet owned by the requester it
    then answers 200 with the timesheet as [findById] returned it,
    whatever [startDate], [endDate], [notes] and [timeEntryIds] the body
    holds, and leaves every table as it was. *)
Theorem updateTimesheet_changes_nothing
    (req : Http.request TimesheetController.sheet_body) (d : Db) (id : Z)
    (t : Timesheet.joined) :
  Http.param_id req = Some id ->
  TimesheetModel.findById id d = Some t ->
  Timesheet.user_id (Timesheet.row t) = Http.id (Http.user req) ->
  Timesheet.status (Timesheet.row t) = sheet_draft ->
  Http.validation_errors req = [] ->
  TimesheetController.updateTimesheet req d
  = (Http.ok (Http.json_joined t), d)
  /\ (forall body : TimesheetController.sheet_body,
        TimesheetController.updateTimesheet
          (Http.mkRequest (Http.user req) (Http.param_id req)
             (Http.validation_errors req) body) d
        = (Http.ok (Http.json_joined t), d))
  /\ TimesheetModel.findById id
       (snd (TimesheetController.updateTimesheet req d))
     = Some t.
Proof.
  intros P F O S V.
  assert (A : forall body : TimesheetController.sheet_body,
             TimesheetController.updateTimesheet
               (Http.mkRequest (Http.user req) (Http.param_id req)
                  (Http.validation_errors req) body) d
             = (Http.ok (Http.json_joined t), d)).
  { intros body. unfold TimesheetController.updateTimesheet. simpl.
    now rewrite V, P, F, O, S, Z.eqb_refl. }
  assert (B : TimesheetController.updateTimesheet req d
              = (Http.ok (Http.json_joined t), d)).
  { specialize (A (Http.body req)). now destruct req. }
  split; [exact B|]. split; [exact A|]. now rewrite B.
Qed.

Lemma updateTimesheet_changes_nothing_witness :
  TimesheetController.updateTimesheet
    (Http.mkRequest (Http.mkUser 7 user) (Some 1) []
       (TimesheetController.mkBody (Some (Sample.nov 2)) None
          (Some "moved") (Some [3])))
    Sample.db0
  = (Http.ok
       (Http.json_joined
          (Timesheet.mkJoined (Sample.sheet 1 7 sheet_draft)
             [Some (Sample.entry 1 7 1 90 approved (Some 1));
              Some (Sample.entry 2 7 2 30 approved (Some 1))])),
     Sample.db0).
Proof.
  exact (proj1 (updateTimesheet_changes_nothing
                  (Http.mkRequest (Http.mkUser 7 user) (Some 1) []
                     (TimesheetController.mkBody (Some (Sample.nov 2)) None
                        (Some "moved") (Some [3])))
                  Sample.db0 1
                  (Timesheet.mkJoined (Sample.sheet 1 7 sheet_draft)
                     [Some (Sample.entry 1 7 1 90 approved (Some 1));
                      Some (Sample.entry 2 7 2 30 approved (Some 1))])
                  eq_refl eq_refl eq_refl eq_refl eq_refl)).
Defined.

(** ** Time entry handlers *)

Section EntryLemmas.

Lemma not_owner (d : Db) (e : TimeEntry.t) (uid : Z) :
  NoDup (map TimeEntry.id (time_entries d)) ->
  In e (time_entries d) ->
  TimeEntry.user_id e <> uid ->
  TimeEntryModel.userOwnsEntry (TimeEntry.id e) uid d = false.
Proof.
  intros N I O. unfold TimeEntryModel.userOwnsEntry.
  apply not_true_is_false. intros H.
  apply existsb_exists in H. destruct H as (x & Ix & Hx).
  apply andb_prop in Hx. destruct Hx as [Hi Hu].
  apply Z.eqb_eq in Hi, Hu.
  assert (x = e) as -> by (eapply NoDup_map_eq; eauto).
  contradiction.
Qed.

End EntryLemmas.

(** C7, as the code has it.  Let the time entries have distinct ids, [e]
    be one of them, and the requester be neither its owner nor an
    administrator.  [deleteTimeEntry] answers 403 and leaves the database
    as it was.  [updateTimeEntry] leaves the database as it was (it does
    not reach [TimeEntryModel.update]) and answers 403 when the validation
    result of the request is empty, 400 with the validation errors when it
    is not. *)
Theorem non_owner_cannot_change_entry
    (upd : Http.request TimeEntryModel.updates) (del : Http.request unit)
    (now : Date.t) (d : Db) (e : TimeEntry.t) :
  NoDup (map TimeEntry.id (time_entries d)) ->
  In e (time_entries d) ->
  Http.param_id upd = Some (TimeEntry.id e) ->
  Http.param_id del = Some (TimeEntry.id e) ->
  TimeEntry.user_id e <> Http.id (Http.user upd) ->
  TimeEntry.user_id e <> Http.id (Http.user del) ->
  Http.role (Http.user upd) <> admin ->
  Http.role (Http.user del) <> admin ->
  TimeEntryController.deleteTimeEntry del d
  = (Http.reply 403
       (Http.json_message "Not authorized to delete this time entry"), d)
  /\ snd (TimeEntryController.updateTimeEntry upd now d) = d
  /\ (Http.validation_errors upd = [] ->
      fst (TimeEntryController.updateTimeEntry upd now d)
      = Http.reply 403
          (Http.json_message "Not authorized to update this time entry"))
  /\ (Http.validation_errors upd <> [] ->
      fst (TimeEntryController.updateTimeEntry upd now d)
      = Http.reply 400 (Http.json_errors (Http.validation_errors upd))).
Proof.
  intros N I Pu Pd Ou Od Ru Rd.
  assert (Au : TimeEntryController.is_admin (Http.user upd) = false)
    by (unfold TimeEntryController.is_admin;
        destruct (Http.role (Http.user upd)); simpl; congruence).
  assert (Ad : TimeEntryController.is_admin (Http.user del) = false)
    by (unfold TimeEntryController.is_admin;
        destruct (Http.role (Http.user del)); simpl; congruence).
  unfold TimeEntryController.deleteTimeEntry,
    TimeEntryController.updateTimeEntry.
  rewrite Pu, Pd, (not_owner d e _ N I Ou), (not_owner d e _ N I Od), Au, Ad.
  simpl. split; [reflexivity|].
  destruct (Http.validation_errors upd) as [|x l]; simpl.
  - split; [reflexivity|]. split; [reflexivity|]. intros X. now destruct X.
  - split; [reflexivity|]. split; [discriminate|reflexivity].
Qed.

Lemma non_owner_cannot_change_entry_witness :
  TimeEntryController.updateTimeEntry
    (Http.mkRequest (Http.mkUser 8 user) (Some 1) []
       (TimeEntryModel.mkUpdates None None (Some 600) None None None))
    (Sample.nov 9) Sample.db0
  = (Http.reply 403
       (Http.json_message "Not authorized to update this time entry"),
     Sample.db0).
Proof.
  assert (N : NoDup (map TimeEntry.id (time_entries Sample.db0)))
    by (repeat constructor; simpl; intuition discriminate).
  assert (O : 7 <> 8) by discriminate.
  assert (R : user <> admin) by discriminate.
  destruct (non_owner_cannot_change_entry
              (Http.mkRequest (Http.mkUser 8 user) (Some 1) []
                 (TimeEntryModel.mkUpdates None None (Some 600) None None
                    None))
              (Http.mkRequest (Http.mkUser 8 user) (Some 1) [] tt)
              (Sample.nov 9) Sample.db0
              (Sample.entry 1 7 1 90 approved (Some 1))
              N (or_introl eq_refl) eq_refl eq_refl O O R R)
    as (_ & D & A & _).
  rewrite (surjective_pairing (TimeEntryController.updateTimeEntry _ _ _)).
  rewrite D, (A eq_refl). reflexivity.
Defined.

(** C7, as stated, fails: user 8, neither the owner of time entry 1 nor
    an administrator, sends an update that does not pass validation and is
    answered 400, not 403. *)
Lemma non_owner_update_counterexample :
  TimeEntryModel.userOwnsEntry 1 8 Sample.db0 = false
  /\ Http.status
       (fst (TimeEntryController.updateTimeEntry
               (Http.mkRequest (Http.mkUser 8 user) (Some 1)
                  ["Duration must be a positive number of minutes"]
                  (TimeEntryModel.mkUpdates None None (Some (-5)) None None
                     None))
               (Sample.nov 9) Sample.db0))
     = 400.
Proof. split; reflexivity. Qed.

(** ** Billable hours *)

Section BillableLemmas.
Import TimeEntryModel Billable.












End BillableLemmas.



(** * Further properties of the models and handlers *)

(** ** Rewriting rows *)

Lemma map_untouched {A} (hit : A -> bool) (f : A -> A) (l : list A) :
  (forall x, In x l -> hit x = false) ->
  map (fun x => if hit x then f x else x) l = l.
Proof.
  induction l as [|a l IH]; intros H; simpl; [reflexivity|].
  rewrite (H a (or_introl eq_refl)), IH; [reflexivity|].
  intros x Hx. apply H. now right.
Qed.

Lemma filter_all {A} (p : A -> bool) (l : list A) :
  (forall x, In x l -> p x = true) -> filter p l = l.
Proof.
  induction l as [|a l IH]; intros H; simpl; [reflexivity|].
  rewrite (H a (or_introl eq_refl)), IH; [reflexivity|].
  intros x Hx. apply H. now right.
Qed.

Lemma existsb_none {A} (p : A -> bool) (l : list A) :
  (forall x, In x l -> p x = false) -> existsb p l = false.
Proof.
  induction l as [|a l IH]; intros H; simpl; [reflexivity|].
  rewrite (H a (or_introl eq_refl)). apply IH.
  intros x Hx. apply H. now right.
Qed.

(** A rewriting that keeps the key commutes with a selection on the key. *)
Lemma filter_map_key {A} (p : A -> bool) (g : A -> A) (l : list A) :
  (forall x, p (g x) = p x) -> filter p (map g l) = map g (filter p l).
Proof.
  intros K. induction l as [|a l IH]; simpl; [reflexivity|].
  rewrite K. destruct (p a); simpl; now rewrite IH.
Qed.

Lemma Forall2_map_self {A} (R : A -> A -> Prop) (g : A -> A) (l : list A) :
  (forall x, In x l -> R x (g x)) -> Forall2 R l (map g l).
Proof.
  induction l as [|a l IH]; intros H; simpl; constructor.
  - apply H. now left.
  - apply IH. intros x Hx. apply H. now right.
Qed.

Lemma set_time_entries_same (f : list TimeEntry.t -> list TimeEntry.t)
    (d : Db) :
  f (time_entries d) = time_entries d -> set_time_entries f d = d.
Proof.
  intros E. destruct d. unfold set_time_entries. simpl in *.
  now rewrite E.
Qed.

Lemma id_not_in (d : Db) (id : Z) :
  (forall e, In e (time_entries d) -> TimeEntry.id e <> id) ->
  forall e, In e (time_entries d) -> (TimeEntry.id e =? id) = false.
Proof. intros H e I. apply Z.eqb_neq. now apply H. Qed.

(** ** Time entries: unknown ids, what an update keeps, deletion *)

Section EntryFacts.
Import Http TimeEntryController.


Lemma delete_unknown (id : Z) (d : Db) :
  (forall e, In e (time_entries d) -> TimeEntry.id e <> id) ->
  TimeEntryModel.delete id d = (false, d).
Proof.
  intros H. unfold TimeEntryModel.delete.
  rewrite (existsb_none _ _ (id_not_in d id H)).
  rewrite set_time_entries_same; [reflexivity|].
  apply filter_all. intros e I. now rewrite (id_not_in d id H e I).
Qed.

Lemma owns_unknown (id uid : Z) (d : Db) :
  (forall e, In e (time_entries d) -> TimeEntry.id e <> id) ->
  TimeEntryModel.userOwnsEntry id uid d = false.
Proof.
  intros H. unfold TimeEntryModel.userOwnsEntry. apply existsb_none.
  intros e I. now rewrite (id_not_in d id H e I).
Qed.

End EntryFacts.

Lemma unknown_entry_facts (del : Http.request unit) (d : Db) (id : Z) :
  (forall e, In e (time_entries d) -> TimeEntry.id e <> id) ->
  Http.param_id del = Some id ->
  snd (TimeEntryController.deleteTimeEntry del d) = d
  /\ Http.status (fst (TimeEntryController.deleteTimeEntry del d))
     = (if TimeEntryController.is_admin (Http.user del) then 404 else 403).
Proof.
  intros H P. unfold TimeEntryController.deleteTimeEntry.
  rewrite P, (owns_unknown id _ d H), (delete_unknown id d H). simpl.
  destruct (TimeEntryController.is_admin (Http.user del)); simpl; auto.
Qed.



(** X3.  [updateTimeEntry], for any requester, never changes the id, the
    owner, the task or the timesheet of a time entry, never adds or drops
    a row, never touches an entry whose id is not the one in the path, and
    writes to no other table. *)
Theorem update_keeps_keys
    (req : Http.request TimeEntryModel.updates) (now : Date.t) (d : Db) :
  let d' := snd (TimeEntryController.updateTimeEntry req now d) in
  map (fun e => (TimeEntry.id e, TimeEntry.user_id e, TimeEntry.task_id e,
                 TimeEntry.timesheet_id e)) (time_entries d')
  = map (fun e => (TimeEntry.id e, TimeEntry.user_id e, TimeEntry.task_id e,
                   TimeEntry.timesheet_id e)) (time_entries d)
  /\ Forall2 (fun e e' => Http.param_id req <> Some (TimeEntry.id e) -> e' = e)
             (time_entries d) (time_entries d')
  /\ (timesheets d', invoices d', invoice_items d')
     = (timesheets d, invoices d, invoice_items d).
Proof.
  assert (Same : forall l : list TimeEntry.t,
             Forall2 (fun e e' =>
                        Http.param_id req <> Some (TimeEntry.id e) -> e' = e)
                     l l).
  { induction l; constructor; auto. }
  unfold TimeEntryController.updateTimeEntry.
  destruct (Http.validation_errors req); [|simpl; auto].
  destruct (Http.param_id req) as [id|] eqn:P; [|simpl; auto].
  destruct (negb _ && negb _); [simpl; auto|].
  destruct (_ && negb _); [simpl; auto|].
  assert (K : let d' := snd (TimeEntryModel.update id (Http.body req) now d)
              in
              map (fun e => (TimeEntry.id e, TimeEntry.user_id e,
                             TimeEntry.task_id e, TimeEntry.timesheet_id e))
                  (time_entries d')
              = map (fun e => (TimeEntry.id e, TimeEntry.user_id e,
                               TimeEntry.task_id e, TimeEntry.timesheet_id e))
                    (time_entries d)
              /\ Forall2 (fun e e' => Some id <> Some (TimeEntry.id e) ->
                                      e' = e)
                         (time_entries d) (time_entries d')
              /\ (timesheets d', invoices d', invoice_items d')
                 = (timesheets d, invoices d, invoice_items d)).
  { unfold TimeEntryModel.update. simpl. split; [|split; [|reflexivity]].
    - rewrite map_map. apply map_ext. intros e.
      now destruct (TimeEntry.id e =? id).
    - apply Forall2_map_self. intros e _ N.
      destruct (TimeEntry.id e =? id) eqn:E; [|reflexivity].
      apply Z.eqb_eq in E. congruence. }
  destruct (TimeEntryModel.update id (Http.body req) now d) as [[x|] d'];
    exact K.
Qed.

Section DeleteFacts.

Lemma find_after_delete (id : Z) (d : Db) :
  TimeEntries.findById id (snd (TimeEntryModel.delete id d)) = None.
Proof.
  unfold TimeEntries.findById, TimeEntryModel.delete. simpl.
  rewrite filter_none; [reflexivity|].
  intros e I. apply filter_In in I. destruct I as [_ N].
  now apply negb_true_iff in N.
Qed.

Lemma gone_after_delete (id : Z) (d : Db) e :
  In e (time_entries (snd (TimeEntryModel.delete id d))) ->
  TimeEntry.id e <> id.
Proof.
  unfold TimeEntryModel.delete. simpl. intros I.
  apply filter_In in I. destruct I as [_ N].
  apply negb_true_iff in N. now apply Z.eqb_neq.
Qed.

Lemma owns_iff (d : Db) (e : TimeEntry.t) (uid : Z) :
  NoDup (map TimeEntry.id (time_entries d)) ->
  In e (time_entries d) ->
  TimeEntryModel.userOwnsEntry (TimeEntry.id e) uid d
  = (TimeEntry.user_id e =? uid).
Proof.
  intros N I. destruct (TimeEntry.user_id e =? uid) eqn:E.
  - unfold TimeEntryModel.userOwnsEntry. apply existsb_exists.
    exists e. split; [assumption|]. now rewrite Z.eqb_refl.
  - apply not_owner; [assumption..|]. now apply Z.eqb_neq.
Qed.

End DeleteFacts.

(** X4.  Let the time entries have distinct ids and [e] be one of them.
    [deleteTimeEntry] by its owner or by an administrator answers 200 and
    removes exactly the rows with that id, keeping the others in order;
    afterwards [findById] finds nothing, nobody owns the id, and the same
    request sent again changes nothing and is answered 404 to an
    administrator and 403 to the former owner. *)
Theorem delete_removes_entry
    (req : Http.request unit) (d : Db) (e : TimeEntry.t) :
  NoDup (map TimeEntry.id (time_entries d)) ->
  In e (time_entries d) ->
  Http.param_id req = Some (TimeEntry.id e) ->
  TimeEntry.user_id e = Http.id (Http.user req)
  \/ Http.role (Http.user req) = admin ->
  let out := TimeEntryController.deleteTimeEntry req d in
  let again := TimeEntryController.deleteTimeEntry req (snd out) in
  fst out = Http.ok (Http.json_message "Time entry deleted successfully")
  /\ time_entries (snd out)
     = filter (fun x => negb (TimeEntry.id x =? TimeEntry.id e))
              (time_entries d)
  /\ TimeEntries.findById (TimeEntry.id e) (snd out) = None
  /\ (forall uid,
        TimeEntryModel.userOwnsEntry (TimeEntry.id e) uid (snd out) = false)
  /\ snd again = snd out
  /\ Http.status (fst again)
     = (if TimeEntryController.is_admin (Http.user req) then 404 else 403).
Proof.
  intros N I P A out again.
  assert (O : negb (TimeEntryModel.userOwnsEntry (TimeEntry.id e)
                      (Http.id (Http.user req)) d)
              && negb (TimeEntryController.is_admin (Http.user req))
              = false).
  { rewrite (owns_iff d e _ N I). unfold TimeEntryController.is_admin.
    destruct A as [->| ->]; [now rewrite Z.eqb_refl|].
    simpl. apply andb_false_r. }
  assert (X : existsb (fun x => TimeEntry.id x =? TimeEntry.id e)
                      (time_entries d) = true).
  { apply existsb_exists. exists e. split; [assumption|apply Z.eqb_refl]. }
  assert (E : out = (Http.ok (Http.json_message
                                "Time entry deleted successfully"),
                     snd (TimeEntryModel.delete (TimeEntry.id e) d))).
  { subst out. unfold TimeEntryController.deleteTimeEntry.
    rewrite P, O. unfold TimeEntryModel.delete. now rewrite X. }
  assert (G : forall x,
             In x (time_entries (snd out)) ->
             TimeEntry.id x <> TimeEntry.id e).
  { rewrite E. intros x. apply gone_after_delete. }
  split; [now rewrite E|]. split; [now rewrite E|].
  split; [rewrite E; apply find_after_delete|].
  split; [intros uid; now apply owns_unknown|].
  destruct (unknown_entry_facts req (snd out) (TimeEntry.id e) G P)
    as [S C].
  split; [exact S|exact C].
Qed.

Lemma delete_removes_entry_witness :
  map TimeEntry.id
      (time_entries
         (snd (TimeEntryController.deleteTimeEntry
                 (Http.mkRequest (Http.mkUser 7 user) (Some 2) [] tt)
                 Sample.db0)))
  = [1; 3].
Proof.
  assert (N : NoDup (map TimeEntry.id (time_entries Sample.db0)))
    by (repeat constructor; simpl; intuition discriminate).
  destruct (delete_removes_entry
              (Http.mkRequest (Http.mkUser 7 user) (Some 2) [] tt)
              Sample.db0 (Sample.entry 2 7 2 30 approved (Some 1))
              N (or_intror (or_introl eq_refl)) eq_refl (or_introl eq_refl))
    as (_ & E & _).
  rewrite E. reflexivity.
Defined.

Section CreateEntryFacts.

Lemma int4b_int4 z : Pg.int4 z -> Pg.int4b z = true.
Proof.
  unfold Pg.int4, Pg.int4b. intros [A B].
  apply andb_true_intro. split; now apply Z.leb_le.
Qed.

Lemma opt_int4b_int4 z : Pg.opt_int4 z -> Pg.opt_int4b z = true.
Proof. destruct z; simpl; [apply int4b_int4|reflexivity]. Qed.

Lemma existsb_id {A} (key : A -> Z) (l : list A) (k : Z) :
  (exists x, In x l /\ key x = k) -> existsb (fun x => key x =? k) l = true.
Proof.
  intros (x & I & E). apply existsb_exists. exists x.
  split; [exact I|now apply Z.eqb_eq].
Qed.

Lemma int4b_true z : Pg.int4b z = true -> Pg.int4 z.
Proof.
  unfold Pg.int4, Pg.int4b. intros H. apply andb_prop in H.
  destruct H as [A B]. apply Z.leb_le in A, B. now split.
Qed.

Lemma opt_int4b_true z : Pg.opt_int4b z = true -> Pg.opt_int4 z.
Proof. destruct z; simpl; [apply int4b_true|trivial]. Qed.

Lemma existsb_id_inv {A} (key : A -> Z) (l : list A) (k : Z) :
  existsb (fun x => key x =? k) l = true -> exists x, In x l /\ key x = k.
Proof.
  intros H. apply existsb_exists in H. destruct H as (x & I & E).
  exists x. split; [exact I|now apply Z.eqb_eq].
Qed.

(** [accepted] decides [fits]. *)
Lemma accepted_fits id input uid d :
  TimeEntries.accepted id input uid d = true
  <-> TimeEntries.fits id input uid d.
Proof.
  unfold TimeEntries.accepted, TimeEntries.fits. split.
  - intros H.
    apply andb_prop in H. destruct H as [H M].
    apply andb_prop in H. destruct H as [H Te].
    apply andb_prop in H. destruct H as [H T].
    apply andb_prop in H. destruct H as [H Ue].
    apply andb_prop in H. destruct H as [H U].
    apply andb_prop in H. destruct H as [I F].
    split; [now apply int4b_true|].
    split.
    { intros e E Q. apply negb_true_iff in F.
      assert (X : existsb (fun e0 => TimeEntry.id e0 =? id) (time_entries d)
                  = true)
        by (apply existsb_exists; exists e; split;
            [exact E|now apply Z.eqb_eq]).
      rewrite X in F. discriminate F. }
    split; [now apply int4b_true|].
    split; [now apply existsb_id_inv|].
    split; [now apply int4b_true|].
    split; [now apply existsb_id_inv|now apply opt_int4b_true].
  - intros (I & F & U & Ue & T & Te & M).
    rewrite (int4b_int4 _ I), (int4b_int4 _ U), (int4b_int4 _ T),
      (opt_int4b_int4 _ M), (existsb_id User.id _ _ Ue),
      (existsb_id Task.id _ _ Te).
    rewrite existsb_none; [reflexivity|].
    intros e E. apply Z.eqb_neq. now apply F.
Qed.

Lemma create_find id row d :
  (forall e, In e (time_entries d) -> TimeEntry.id e <> id) ->
  TimeEntry.id row = id ->
  TimeEntries.findById id (set_time_entries (fun l => l ++ [row]) d)
  = Some row.
Proof.
  intros F R. unfold TimeEntries.findById. simpl.
  rewrite filter_app, (filter_none _ _ (id_not_in d id F)). simpl.
  now rewrite R, Z.eqb_refl.
Qed.

Lemma create_owns id uid row d :
  TimeEntry.id row = id -> TimeEntry.user_id row = uid ->
  TimeEntryModel.userOwnsEntry id uid
    (set_time_entries (fun l => l ++ [row]) d) = true.
Proof.
  intros R U. unfold TimeEntryModel.userOwnsEntry. simpl.
  rewrite existsb_app. simpl. rewrite R, U, !Z.eqb_refl. simpl.
  apply orb_true_r.
Qed.

Lemma create_delete id row d :
  (forall e, In e (time_entries d) -> TimeEntry.id e <> id) ->
  TimeEntry.id row = id ->
  TimeEntryModel.delete id (set_time_entries (fun l => l ++ [row]) d)
  = (true, d).
Proof.
  intros F R. pose proof (id_not_in d id F) as F'.
  destruct d as [us ps ts es ss iv it s1 s2].
  unfold TimeEntryModel.delete, set_time_entries.
  simpl in *.
  rewrite existsb_app, filter_app. simpl. rewrite R, Z.eqb_refl. simpl.
  rewrite orb_true_r, app_nil_r, filter_all; [reflexivity|].
  intros e I. now rewrite (F' e I).
Qed.

End CreateEntryFacts.

(** X5.  [createTimeEntry], for a request that passes validation, with
    the id the sequence hands out.  When the row fits [db/schema.sql] (the
    id is new, the requester is a row of [users], the task of the body is
    a row of [tasks], the ids and the duration are within [INTEGER]), the
    answer is 201 with a draft entry of the requester, attached to no
    timesheet, billable unless the body says [false]; [findById] and
    [getTimeEntry] by the requester then give back that row, and
    [deleteTimeEntry] by the requester puts back the rows of every table
    as they were before the creation ([d] holds no sequence of
    [time_entries]: the id is not handed out again).  When the row does
    not fit, the answer is 500 and nothing is written. *)
Theorem created_entry_round_trip
    (id : Z) (req : Http.request TimeEntryHandlers.entry_body)
    (now : Date.t) (d : Db) :
  Http.validation_errors req = [] ->
  let out := TimeEntryHandlers.createTimeEntry id req now d in
  let by_id := Http.mkRequest (Http.user req) (Some id) [] tt in
  let data :=
    TimeEntries.mkInput
      (TimeEntryHandlers.taskId (Http.body req))
      (TimeEntryHandlers.startTime (Http.body req))
      (TimeEntryHandlers.endTime (Http.body req))
      (TimeEntryHandlers.truthy_minutes
         (TimeEntryHandlers.durationMinutes (Http.body req)))
      (TimeEntryHandlers.description (Http.body req))
      (Some (TimeEntryHandlers.not_false
               (TimeEntryHandlers.isBillable (Http.body req))))
      (Some draft) in
  (TimeEntries.fits id data (Http.id (Http.user req)) d ->
   exists row,
     fst out = Http.reply 201 (Http.json_time_entry row)
     /\ TimeEntry.id row = id
     /\ TimeEntry.user_id row = Http.id (Http.user req)
     /\ TimeEntry.task_id row = TimeEntryHandlers.taskId (Http.body req)
     /\ TimeEntry.status row = draft
     /\ TimeEntry.timesheet_id row = None
     /\ TimeEntry.is_billable row
        = TimeEntryHandlers.not_false
            (TimeEntryHandlers.isBillable (Http.body req))
     /\ time_entries (snd out) = time_entries d ++ [row]
     /\ TimeEntries.findById id (snd out) = Some row
     /\ TimeEntryHandlers.getTimeEntry by_id (snd out)
        = (Http.ok (Http.json_time_entry row), snd out)
     /\ TimeEntryController.deleteTimeEntry by_id (snd out)
        = (Http.ok (Http.json_message "Time entry deleted successfully"),
           d))
  /\ (~ TimeEntries.fits id data (Http.id (Http.user req)) d ->
      out = (Http.reply 500
               (Http.json_message "Server error while creating time entry"),
             d)).
Proof.
  intros V out by_id data. subst out by_id.
  unfold TimeEntryHandlers.createTimeEntry. rewrite V. fold data.
  set (uid := Http.id (Http.user req)) in *.
  set (row := TimeEntries.new_row id data uid now).
  unfold TimeEntries.create. split.
  - intros Fit. pose proof Fit as (_ & F & _).
    rewrite (proj2 (accepted_fits id data uid d) Fit).
    fold row. cbn [fst snd]. exists row.
    assert (Ri : TimeEntry.id row = id) by reflexivity.
    assert (Ru : TimeEntry.user_id row = uid) by reflexivity.
    do 8 (split; [reflexivity|]).
    pose proof (create_find id row d F Ri) as Fi.
    pose proof (create_owns id uid row d Ri Ru) as Ow.
    pose proof (create_delete id row d F Ri) as De.
    split; [exact Fi|]. split.
    + unfold TimeEntryHandlers.getTimeEntry.
      simpl Http.param_id. simpl Http.user. cbv beta iota.
      fold uid. now rewrite Fi, Ow.
    + unfold TimeEntryController.deleteTimeEntry.
      simpl Http.param_id. simpl Http.user. cbv beta iota.
      fold uid. now rewrite Ow, De.
  - intros N.
    destruct (TimeEntries.accepted id data uid d) eqn:A; [|reflexivity].
    exfalso. apply N. now apply accepted_fits.
Qed.

Lemma created_entry_round_trip_witness :
  TimeEntryController.deleteTimeEntry
    (Http.mkRequest (Http.mkUser 8 user) (Some 4) [] tt)
    (snd (TimeEntryHandlers.createTimeEntry 4
            (Http.mkRequest (Http.mkUser 8 user) None []
               (TimeEntryHandlers.mkBody 2 (Sample.nov 5) None (Some 60)
                  None None))
            (Sample.nov 5) Sample.db0))
  = (Http.ok (Http.json_message "Time entry deleted successfully"),
     Sample.db0).
Proof.
  assert (Fit : TimeEntries.fits 4
                  (TimeEntries.mkInput 2 (Sample.nov 5) None (Some 60) None
                     (Some true) (Some draft))
                  8 Sample.db0).
  { unfold TimeEntries.fits, Pg.opt_int4, Pg.int4. simpl.
    split; [lia|].
    split; [intros e [<-|[<-|[<-|[]]]]; discriminate|].
    split; [lia|].
    split; [exists Sample.carol; auto|].
    split; [lia|].
    split; [exists (Task.mk 2 2 "build"); auto|lia]. }
  destruct (created_entry_round_trip 4
              (Http.mkRequest (Http.mkUser 8 user) None []
                 (TimeEntryHandlers.mkBody 2 (Sample.nov 5) None (Some 60)
                    None None))
              (Sample.nov 5) Sample.db0 eq_refl)
    as [A _].
  destruct (A Fit) as (row & _ & _ & _ & _ & _ & _ & _ & _ & _ & _ & D).
  exact D.
Defined.

(** X6.  With distinct ids, [getTimeEntry] sends a time entry only to its
    owner or to an administrator, and never writes. *)
Theorem getTimeEntry_discloses_to_owner
    (req : Http.request unit) (d : Db) (e : TimeEntry.t) :
  NoDup (map TimeEntry.id (time_entries d)) ->
  Http.payload (fst (TimeEntryHandlers.getTimeEntry req d))
  = Http.json_time_entry e ->
  snd (TimeEntryHandlers.getTimeEntry req d) = d
  /\ In e (time_entries d)
  /\ Http.param_id req = Some (TimeEntry.id e)
  /\ (TimeEntry.user_id e = Http.id (Http.user req)
      \/ Http.role (Http.user req) = admin).
Proof.
  intros N. unfold TimeEntryHandlers.getTimeEntry.
  destruct (Http.param_id req) as [id|]; [|discriminate].
  unfold TimeEntries.findById.
  destruct (filter _ (time_entries d)) as [|x rest] eqn:F; [discriminate|].
  simpl hd_error. cbv iota.
  assert (I : In x (time_entries d) /\ TimeEntry.id x = id).
  { assert (In x (x :: rest)) as Hx by now left.
    rewrite <- F in Hx. apply filter_In in Hx.
    destruct Hx as [Hx E]. apply Z.eqb_eq in E. auto. }
  destruct I as [I <-]. rewrite (owns_iff d x _ N I).
  unfold TimeEntryController.is_admin.
  destruct (TimeEntry.user_id x =? Http.id (Http.user req)) eqn:O;
    destruct (Http.role (Http.user req)) eqn:R; simpl;
    try discriminate; intros [= <-];
    (split; [reflexivity|]); (split; [assumption|]);
    (split; [reflexivity|]); auto;
    left; now apply Z.eqb_eq.
Qed.

Lemma getTimeEntry_discloses_to_owner_witness :
  TimeEntry.user_id (Sample.entry 3 8 1 45 draft None) = 8
  \/ user = admin.
Proof.
  assert (N : NoDup (map TimeEntry.id (time_entries Sample.db0)))
    by (repeat constructor; simpl; intuition discriminate).
  destruct (getTimeEntry_discloses_to_owner
              (Http.mkRequest (Http.mkUser 8 user) (Some 3) [] tt)
              Sample.db0 (Sample.entry 3 8 1 45 draft None) N eq_refl)
    as (_ & _ & _ & A).
  exact A.
Defined.

(** ** What a user who is not an administrator can never do *)

Section StepFacts.
Import Steps.

Lemma keeps_refl d : keeps d d.
Proof.
  repeat split; intros x I _; exists x; auto.
Qed.

Lemma keeps_trans a b c : keeps a b -> keeps b c -> keeps a c.
Proof.
  intros (E1 & S1 & I1 & J1) (E2 & S2 & I2 & J2).
  split; [|split; [|split; congruence]].
  - intros e'' I D. destruct (E2 e'' I D) as (e' & I' & Hi & Hs).
    rewrite <- Hs in D. destruct (E1 e' I' D) as (e & Ie & Hi' & Hs').
    exists e. repeat split; congruence.
  - intros t'' I D. destruct (S2 t'' I D) as (t' & I' & Hi & Hs).
    rewrite <- Hs in D. destruct (S1 t' I' D) as (t & It & Hi' & Hs').
    exists t. repeat split; congruence.
Qed.

(** Shapes of the tables after a handler. *)
Lemma entries_mapped (d d' : Db) (g : TimeEntry.t -> TimeEntry.t) :
  time_entries d' = map g (time_entries d) ->
  (forall e, TimeEntry.id (g e) = TimeEntry.id e
             /\ (TimeEntry.status (g e) = TimeEntry.status e
                 \/ ~ decided (TimeEntry.status (g e)))) ->
  keeps_entries d d'.
Proof.
  intros E G e' I D. rewrite E in I. apply in_map_iff in I.
  destruct I as (e & <- & I). destruct (G e) as [Hi [Hs|Hn]].
  - exists e. auto.
  - contradiction.
Qed.

Lemma entries_subset (d d' : Db) :
  incl (time_entries d') (time_entries d) -> keeps_entries d d'.
Proof. intros H e' I _. exists e'. auto. Qed.

Lemma entries_added (d d' : Db) (row : TimeEntry.t) :
  time_entries d' = time_entries d ++ [row] ->
  ~ decided (TimeEntry.status row) ->
  keeps_entries d d'.
Proof.
  intros E N e' I D. rewrite E in I. apply in_app_or in I.
  destruct I as [I|[<-|[]]]; [exists e'; auto|contradiction].
Qed.

Lemma sheets_mapped (d d' : Db) (g : Timesheet.t -> Timesheet.t) :
  timesheets d' = map g (timesheets d) ->
  (forall t, Timesheet.id (g t) = Timesheet.id t
             /\ (Timesheet.status (g t) = Timesheet.status t
                 \/ ~ sheet_decided (Timesheet.status (g t)))) ->
  keeps_sheets d d'.
Proof.
  intros E G t' I D. rewrite E in I. apply in_map_iff in I.
  destruct I as (t & <- & I). destruct (G t) as [Hi [Hs|Hn]].
  - exists t. auto.
  - contradiction.
Qed.

Lemma sheets_same (d d' : Db) :
  timesheets d' = timesheets d -> keeps_sheets d d'.
Proof. intros E t' I _. rewrite E in I. exists t'. auto. Qed.

Lemma sheets_added (d d' : Db) (row : Timesheet.t) :
  timesheets d' = timesheets d ++ [row] ->
  ~ sheet_decided (Timesheet.status row) ->
  keeps_sheets d d'.
Proof.
  intros E N t' I D. rewrite E in I. apply in_app_or in I.
  destruct I as [I|[<-|[]]]; [exists t'; auto|contradiction].
Qed.

Lemma not_decided_draft : ~ decided draft.
Proof. intros [H|[H|H]]; discriminate H. Qed.

Lemma not_decided_submitted : ~ decided submitted.
Proof. intros [H|[H|H]]; discriminate H. Qed.

Lemma not_sheet_decided_draft : ~ sheet_decided sheet_draft.
Proof. intros [H|H]; discriminate H. Qed.

Lemma not_sheet_decided_submitted : ~ sheet_decided sheet_submitted.
Proof. intros [H|H]; discriminate H. Qed.

Lemma not_admin (u : Http.auth_user) :
  Http.role u <> admin -> Role_eqb (Http.role u) admin = false.
Proof. destruct (Http.role u); simpl; congruence. Qed.

End StepFacts.

Section StepKeeps.
Import Steps.

Ltac same := apply keeps_refl.

Lemma keeps_createTimeEntry id req now d :
  keeps d (snd (TimeEntryHandlers.createTimeEntry id req now d)).
Proof.
  unfold TimeEntryHandlers.createTimeEntry, TimeEntries.create.
  destruct (Http.validation_errors req); [|same].
  destruct (TimeEntries.accepted _ _ _ _); [|same]. simpl.
  split; [|split; [now apply sheets_same|split; reflexivity]].
  eapply entries_added; [reflexivity|]. simpl. apply not_decided_draft.
Qed.

Lemma updated_row_status u now e :
  TimeEntryController.non_draft (TimeEntryModel.status u) = false ->
  TimeEntry.status (TimeEntryModel.updated_row u now e) = TimeEntry.status e
  \/ ~ decided (TimeEntry.status (TimeEntryModel.updated_row u now e)).
Proof.
  unfold TimeEntryController.non_draft. simpl.
  destruct (TimeEntryModel.status u) as [[]|]; simpl; intros H;
    try discriminate H; auto.
  right. apply not_decided_draft.
Qed.

Lemma keeps_update id u now d :
  TimeEntryController.non_draft (TimeEntryModel.status u) = false ->
  keeps d (snd (TimeEntryModel.update id u now d)).
Proof.
  intros N. unfold TimeEntryModel.update. simpl.
  split; [|split; [now apply sheets_same|split; reflexivity]].
  eapply entries_mapped; [reflexivity|]. intros e. cbv beta.
  destruct (TimeEntry.id e =? id); [|auto].
  split; [reflexivity|]. now apply updated_row_status.
Qed.

Lemma keeps_updateTimeEntry req now d :
  Http.role (Http.user req) <> admin ->
  keeps d (snd (TimeEntryController.updateTimeEntry req now d)).
Proof.
  intros R. unfold TimeEntryController.updateTimeEntry,
    TimeEntryController.is_admin.
  rewrite (not_admin _ R).
  destruct (Http.validation_errors req); [|same].
  destruct (Http.param_id req) as [id|]; [|same].
  destruct (negb _ && negb false); [same|].
  change (negb false) with true. rewrite andb_true_r.
  destruct (TimeEntryController.non_draft _) eqn:N; [same|].
  pose proof (keeps_update id (Http.body req) now d N) as K.
  destruct (TimeEntryModel.update id (Http.body req) now d) as [[x|] d'];
    exact K.
Qed.

Lemma keeps_deleteTimeEntry req d :
  keeps d (snd (TimeEntryController.deleteTimeEntry req d)).
Proof.
  unfold TimeEntryController.deleteTimeEntry.
  destruct (Http.param_id req) as [id|]; [|same].
  destruct (negb _ && negb _); [same|].
  assert (K : keeps d (snd (TimeEntryModel.delete id d))).
  { unfold TimeEntryModel.delete. simpl.
    split; [|split; [now apply sheets_same|split; reflexivity]].
    apply entries_subset. intros e I. simpl in I.
    apply filter_In in I. tauto. }
  destruct (TimeEntryModel.delete id d) as [[|] d']; exact K.
Qed.

Lemma keeps_createTimesheet id req now d :
  keeps d (snd (TimesheetHandlers.createTimesheet id req now d)).
Proof.
  unfold TimesheetHandlers.createTimesheet.
  destruct (Http.validation_errors req); [|same].
  unfold Timesheets.create. simpl.
  destruct (TimeEntries.or_default _ []) as [|i ids]; simpl.
  - split; [now apply entries_subset, incl_refl|].
    split; [|split; reflexivity].
    eapply sheets_added; [reflexivity|]. apply not_sheet_decided_draft.
  - destruct (_ && forallb Pg.int4b ids && _); [|same]. simpl.
    split; [|split; [|split; reflexivity]].
    + eapply entries_mapped; [reflexivity|]. intros e. cbv beta.
      destruct (_ && _); [|auto].
      split; [reflexivity|]. right. apply not_decided_submitted.
    + eapply sheets_added; [reflexivity|]. apply not_sheet_decided_draft.
Qed.

Lemma keeps_updateTimesheet req d :
  keeps d (snd (TimesheetController.updateTimesheet req d)).
Proof.
  unfold TimesheetController.updateTimesheet.
  destruct (Http.validation_errors req); [|same].
  destruct (Http.param_id req) as [id|]; [|same].
  destruct (TimesheetModel.findById id d); [|same].
  destruct (negb _); [same|]. destruct (negb _); same.
Qed.

Lemma keeps_submit id by_ notes now d :
  keeps d (snd (TimesheetModel.updateStatus id sheet_submitted by_ notes
                  now d)).
Proof.
  unfold TimesheetModel.updateStatus.
  destruct (filter _ _) as [|t rest]; [same|]. simpl.
  split; [now apply entries_subset, incl_refl|].
  split; [|split; reflexivity].
  eapply sheets_mapped; [reflexivity|]. intros t0. cbv beta.
  destruct (Timesheet.id t0 =? id); [|auto].
  split; [reflexivity|]. right. apply not_sheet_decided_submitted.
Qed.

Lemma keeps_submitTimesheet req now d :
  keeps d (snd (TimesheetController.submitTimesheet req now d)).
Proof.
  unfold TimesheetController.submitTimesheet.
  destruct (Http.param_id req) as [id|]; [|same].
  destruct (TimesheetModel.findById id d); [|same].
  destruct (negb _); [same|]. destruct (negb _); [same|].
  pose proof (keeps_submit id (Http.id (Http.user req))
                (TimesheetController.notes (Http.body req)) now d) as K.
  destruct (TimesheetModel.updateStatus _ _ _ _ _ _) as [[x|] d']; exact K.
Qed.

Lemma keeps_approveTimesheet req now d :
  Http.role (Http.user req) <> admin ->
  keeps d (snd (TimesheetController.approveTimesheet req now d)).
Proof.
  intros R. unfold TimesheetController.approveTimesheet.
  rewrite (not_admin _ R). destruct (Http.param_id req); same.
Qed.

Lemma keeps_rejectTimesheet req now d :
  Http.role (Http.user req) <> admin ->
  keeps d (snd (TimesheetController.rejectTimesheet req now d)).
Proof.
  intros R. unfold TimesheetController.rejectTimesheet.
  rewrite (not_admin _ R). destruct (Http.param_id req); same.
Qed.

Lemma keeps_add t ids d :
  keeps d (snd (TimesheetModel.addTimeEntries t ids d)).
Proof.
  split; [|split; [|split]].
  - eapply entries_mapped; [apply addTimeEntries_rows|]. intros e. cbv beta.
    unfold Sheets.attach. destruct (_ && _); [|auto].
    split; [reflexivity|]. right. apply not_decided_submitted.
  - apply sheets_same. unfold TimesheetModel.addTimeEntries.
    now destruct ids.
  - unfold TimesheetModel.addTimeEntries. now destruct ids.
  - unfold TimesheetModel.addTimeEntries. now destruct ids.
Qed.

Lemma keeps_remove t ids d :
  keeps d (snd (TimesheetModel.removeTimeEntries t ids d)).
Proof.
  split; [|split; [|split]].
  - eapply entries_mapped; [apply removeTimeEntries_rows|]. intros e. cbv beta.
    unfold Sheets.detach. destruct (_ && _); [|auto].
    split; [reflexivity|]. right. apply not_decided_draft.
  - apply sheets_same. unfold TimesheetModel.removeTimeEntries.
    now destruct ids.
  - unfold TimesheetModel.removeTimeEntries. now destruct ids.
  - unfold TimesheetModel.removeTimeEntries. now destruct ids.
Qed.

Lemma keeps_addTimeEntries req d :
  keeps d (snd (TimesheetHandlers.addTimeEntriesToTimesheet req d)).
Proof.
  unfold TimesheetHandlers.addTimeEntriesToTimesheet.
  destruct (Http.param_id req) as [id|]; [|same].
  destruct (TimesheetController.timeEntryIds _) as [[|i ids]|]; try same.
  destruct (TimesheetModel.findById id d); [|same].
  destruct (negb _); [same|]. destruct (negb _); [same|].
  pose proof (keeps_add id (i :: ids) d) as K.
  destruct (TimesheetModel.addTimeEntries id (i :: ids) d) as [[|] d'];
    [|exact K].
  destruct (TimesheetModel.findById id d'); exact K.
Qed.

Lemma keeps_removeTimeEntries req d :
  keeps d (snd (TimesheetHandlers.removeTimeEntriesFromTimesheet req d)).
Proof.
  unfold TimesheetHandlers.removeTimeEntriesFromTimesheet.
  destruct (Http.param_id req) as [id|]; [|same].
  destruct (TimesheetController.timeEntryIds _) as [[|i ids]|]; try same.
  destruct (TimesheetModel.findById id d); [|same].
  destruct (negb _); [same|]. destruct (negb _); [same|].
  pose proof (keeps_remove id (i :: ids) d) as K.
  destruct (TimesheetModel.removeTimeEntries id (i :: ids) d) as [[|] d'];
    [|exact K].
  destruct (TimesheetModel.findById id d'); exact K.
Qed.

Lemma keeps_createInvoice fails req now d :
  Http.role (Http.user req) <> admin ->
  keeps d (Conn.committed
             (snd (InvoiceController.createInvoice fails req now
                     (Conn.idle d)))).
Proof.
  intros R. unfold InvoiceController.createInvoice.
  rewrite (not_admin _ R). destruct (Http.validation_errors req); same.
Qed.

Lemma keeps_updateInvoiceStatus req now d :
  Http.role (Http.user req) <> admin ->
  keeps d (snd (InvoiceController.updateInvoiceStatus req now d)).
Proof.
  intros R. unfold InvoiceController.updateInvoiceStatus.
  rewrite (not_admin _ R). destruct (Http.validation_errors req); [|same].
  destruct (Http.param_id req); same.
Qed.

Lemma step_keeps d d' : step d d' -> keeps d d'.
Proof.
  destruct 1;
    auto using keeps_createTimeEntry, keeps_updateTimeEntry,
      keeps_deleteTimeEntry, keeps_createTimesheet, keeps_updateTimesheet,
      keeps_submitTimesheet, keeps_approveTimesheet, keeps_rejectTimesheet,
      keeps_addTimeEntries, keeps_removeTimeEntries, keeps_createInvoice,
      keeps_updateInvoiceStatus.
Qed.

End StepKeeps.

(** X2.  Whatever requests users who are not administrators send to the
    handlers that write (time entries: create, update, delete; timesheets:
    create, update, submit, approve, reject, add and remove entries;
    invoices: create, update status), a time entry that is approved,
    rejected or billed afterwards already was an entry with that id and
    that status before, a timesheet that is approved or rejected afterwards
    already was one with that id and that status, and the invoices and
    their items are untouched. *)
Theorem only_administrators_decide (d0 d : Db) :
  Steps.reachable d0 d ->
  (forall e', In e' (time_entries d) ->
     Steps.decided (TimeEntry.status e') ->
     exists e, In e (time_entries d0)
               /\ TimeEntry.id e = TimeEntry.id e'
               /\ TimeEntry.status e = TimeEntry.status e')
  /\ (forall t', In t' (timesheets d) ->
        Steps.sheet_decided (Timesheet.status t') ->
        exists t, In t (timesheets d0)
                  /\ Timesheet.id t = Timesheet.id t'
                  /\ Timesheet.status t = Timesheet.status t')
  /\ invoices d = invoices d0
  /\ invoice_items d = invoice_items d0.
Proof.
  induction 1 as [|d d' R IH S].
  - apply keeps_refl.
  - exact (keeps_trans _ _ _ IH (step_keeps _ _ S)).
Qed.

Lemma only_administrators_decide_witness :
  map Timesheet.status
      (timesheets
         (snd (TimesheetController.approveTimesheet
                 (Http.mkRequest (Http.mkUser 7 user) (Some 1) []
                    (TimesheetController.mkBody None None None None))
                 (Sample.nov 8)
                 (snd (TimesheetController.submitTimesheet
                         (Http.mkRequest (Http.mkUser 7 user) (Some 1) []
                            (TimesheetController.mkBody None None None None))
                         (Sample.nov 8) Sample.db0)))))
  = [sheet_submitted; sheet_submitted]
  /\ invoices
       (snd (TimesheetController.approveTimesheet
               (Http.mkRequest (Http.mkUser 7 user) (Some 1) []
                  (TimesheetController.mkBody None None None None))
               (Sample.nov 8)
               (snd (TimesheetController.submitTimesheet
                       (Http.mkRequest (Http.mkUser 7 user) (Some 1) []
                          (TimesheetController.mkBody None None None None))
                       (Sample.nov 8) Sample.db0))))
     = invoices Sample.db0.
Proof.
  assert (R : user <> admin) by discriminate.
  destruct (only_administrators_decide Sample.db0 _
              (Steps.reach_next _ _ _
                 (Steps.reach_next _ _ _ (Steps.reach_start _)
                    (Steps.step_submitTimesheet
                       (Http.mkRequest (Http.mkUser 7 user) (Some 1) []
                          (TimesheetController.mkBody None None None None))
                       (Sample.nov 8) Sample.db0 R))
                 (Steps.step_approveTimesheet
                    (Http.mkRequest (Http.mkUser 7 user) (Some 1) []
                       (TimesheetController.mkBody None None None None))
                    (Sample.nov 8) _ R)))
    as (_ & _ & I & _).
  split; [reflexivity|exact I].
Defined.

(** ** Billable hours: nothing to bill, one rate *)

Section RateFacts.
Import TimeEntryModel.



End RateFacts.





(** ** Timesheets: unknown ids, submitting, attaching and detaching *)

Section SheetFacts.
Import TimesheetModel.

Lemma set_timesheets_same (f : list Timesheet.t -> list Timesheet.t)
    (d : Db) :
  f (timesheets d) = timesheets d -> set_timesheets f d = d.
Proof.
  intros E. destruct d. unfold set_timesheets. simpl in *. now rewrite E.
Qed.

Lemma sheet_not_in (d : Db) (id : Z) :
  (forall t, In t (timesheets d) -> Timesheet.id t <> id) ->
  forall t, In t (timesheets d) -> (Timesheet.id t =? id) = false.
Proof. intros H t I. apply Z.eqb_neq. now apply H. Qed.

Lemma findById_unknown (id : Z) (d : Db) :
  (forall t, In t (timesheets d) -> Timesheet.id t <> id) ->
  findById id d = None.
Proof.
  intros H. unfold findById.
  now rewrite (filter_none _ _ (sheet_not_in d id H)).
Qed.

Lemma updateStatus_unknown id status by_ notes now d :
  (forall t, In t (timesheets d) -> Timesheet.id t <> id) ->
  updateStatus id status by_ notes now d = (None, d).
Proof.
  intros H. unfold updateStatus. simpl.
  rewrite (map_untouched _ _ _ (sheet_not_in d id H)).
  now rewrite (filter_none _ _ (sheet_not_in d id H)).
Qed.

(** The first row [findById] joins is the first row with that id. *)
Lemma findById_first id d t :
  findById id d = Some t ->
  exists rest,
    filter (fun x => Timesheet.id x =? id) (timesheets d)
    = Timesheet.row t :: rest
    /\ Timesheet.time_entries t = json_agg (entries_of id d).
Proof.
  unfold findById.
  destruct (filter _ (timesheets d)) as [|x rest]; [discriminate|].
  simpl. intros [= <-]. now exists rest.
Qed.

Lemma findById_sheets id d d' :
  timesheets d' = timesheets d ->
  option_map Timesheet.row (findById id d')
  = option_map Timesheet.row (findById id d).
Proof.
  intros E. unfold findById. rewrite E.
  now destruct (filter _ (timesheets d)).
Qed.

Lemma status_row_id status notes by_ now t :
  Timesheet.id (status_row status notes by_ now t) = Timesheet.id t.
Proof. reflexivity. Qed.

(** What [updateStatus] does to a timesheet that [findById] finds. *)
Lemma updateStatus_found id status by_ notes now d t :
  findById id d = Some t ->
  fst (updateStatus id status by_ notes now d)
  = Some (status_row status notes by_ now (Timesheet.row t))
  /\ option_map Timesheet.row
       (findById id (snd (updateStatus id status by_ notes now d)))
     = Some (status_row status notes by_ now (Timesheet.row t)).
Proof.
  intros F. destruct (findById_first id d t F) as (rest & E & _).
  assert (M : filter (fun x => Timesheet.id x =? id)
                (map (fun x => if Timesheet.id x =? id
                               then status_row status notes by_ now x
                               else x) (timesheets d))
              = status_row status notes by_ now (Timesheet.row t)
                :: map (fun x => if Timesheet.id x =? id
                                 then status_row status notes by_ now x
                                 else x) rest).
  { rewrite filter_map_key.
    - rewrite E. simpl.
      assert (In (Timesheet.row t) (Timesheet.row t :: rest)) as I
        by now left.
      rewrite <- E in I. apply filter_In in I. destruct I as [_ ->].
      reflexivity.
    - intros x. now destruct (Timesheet.id x =? id) eqn:Q. }
  unfold updateStatus. simpl. rewrite M. split; [reflexivity|].
  simpl snd.
  assert (S : forall d2, timesheets d2
                = map (fun x => if Timesheet.id x =? id
                                then status_row status notes by_ now x
                                else x) (timesheets d) ->
              option_map Timesheet.row (findById id d2)
              = Some (status_row status notes by_ now (Timesheet.row t))).
  { intros d2 E2. unfold findById. rewrite E2, M. reflexivity. }
  destruct status; apply S; reflexivity.
Qed.

End SheetFacts.

(** X9.  On an id that no timesheet has, every timesheet handler that
    takes an id leaves the database as it was and answers 404, once the
    request is past the checks that come before the lookup: an
    administrator for [approveTimesheet], an administrator with a reason
    for [rejectTimesheet], a non-empty id list for the two entry
    handlers.  The id of the path and the id of the requester fit
    [INTEGER]: beyond it the lookup throws. *)
Theorem unknown_timesheet_not_found
    (req : Http.request TimesheetController.sheet_body)
    (get : Http.request unit) (now : Date.t) (d : Db) (id : Z) :
  (forall t, In t (timesheets d) -> Timesheet.id t <> id) ->
  Pg.int4 id ->
  Pg.int4 (Http.id (Http.user req)) ->
  Http.param_id req = Some id ->
  Http.param_id get = Some id ->
  let not_found :=
    Http.reply 404 (Http.json_message "Timesheet not found") in
  TimesheetHandlers.getTimesheet get d = (not_found, d)
  /\ TimesheetController.submitTimesheet req now d = (not_found, d)
  /\ (Http.role (Http.user req) = admin ->
      TimesheetController.approveTimesheet req now d = (not_found, d)
      /\ (TimesheetController.falsy
            (TimesheetController.notes (Http.body req)) = false ->
          TimesheetController.rejectTimesheet req now d = (not_found, d)))
  /\ (Http.validation_errors req = [] ->
      TimesheetController.updateTimesheet req d = (not_found, d))
  /\ ((exists i l, TimesheetController.timeEntryIds (Http.body req)
                   = Some (i :: l)) ->
      TimesheetHandlers.addTimeEntriesToTimesheet req d
      = (TimesheetHandlers.send not_found, d)
      /\ TimesheetHandlers.removeTimeEntriesFromTimesheet req d
         = (TimesheetHandlers.send not_found, d)).
Proof.
  intros H _ _ P G not_found. subst not_found.
  pose proof (findById_unknown id d H) as F.
  split; [|split; [|split; [|split]]].
  - unfold TimesheetHandlers.getTimesheet. now rewrite G, F.
  - unfold TimesheetController.submitTimesheet. now rewrite P, F.
  - intros A. split.
    + unfold TimesheetController.approveTimesheet.
      now rewrite P, A, updateStatus_unknown.
    + intros N. unfold TimesheetController.rejectTimesheet.
      now rewrite P, A, N, updateStatus_unknown.
  - intros V. unfold TimesheetController.updateTimesheet.
    now rewrite V, P, F.
  - intros (i & l & E).
    unfold TimesheetHandlers.addTimeEntriesToTimesheet,
      TimesheetHandlers.removeTimeEntriesFromTimesheet.
    now rewrite P, E, F.
Qed.

Lemma unknown_timesheet_not_found_witness :
  TimesheetController.approveTimesheet
    (Http.mkRequest (Http.mkUser 99 admin) (Some 5) []
       (TimesheetController.mkBody None None None None))
    (Sample.nov 8) Sample.db0
  = (Http.reply 404 (Http.json_message "Timesheet not found"), Sample.db0).
Proof.
  assert (H : forall t, In t (timesheets Sample.db0) -> Timesheet.id t <> 5)
    by (simpl; intros t [<-|[<-|[]]]; discriminate).
  assert (I : Pg.int4 5) by (unfold Pg.int4; lia).
  assert (U : Pg.int4 99) by (unfold Pg.int4; lia).
  destruct (unknown_timesheet_not_found
              (Http.mkRequest (Http.mkUser 99 admin) (Some 5) []
                 (TimesheetController.mkBody None None None None))
              (Http.mkRequest (Http.mkUser 99 admin) (Some 5) [] tt)
              (Sample.nov 8) Sample.db0 5 H I U eq_refl eq_refl)
    as (_ & _ & A & _).
  exact (proj1 (A eq_refl)).
Defined.

(** X10.  The owner submits a draft timesheet: the answer is 200 with the
    row now ['submitted'], its [approved_by] set to the submitter, its
    [approved_at] as before, its notes replaced when the body gives notes;
    no time entry changes; and the same request sent again is answered 400
    and changes nothing. *)
Theorem submit_once
    (req : Http.request TimesheetController.sheet_body) (now later : Date.t)
    (d : Db) (id : Z) (t : Timesheet.joined) :
  Http.param_id req = Some id ->
  TimesheetModel.findById id d = Some t ->
  Timesheet.user_id (Timesheet.row t) = Http.id (Http.user req) ->
  Timesheet.status (Timesheet.row t) = sheet_draft ->
  let out := TimesheetController.submitTimesheet req now d in
  let again := TimesheetController.submitTimesheet req later (snd out) in
  (exists row,
      fst out = Http.ok (Http.json_timesheet row)
      /\ Timesheet.id row = Timesheet.id (Timesheet.row t)
      /\ Timesheet.status row = sheet_submitted
      /\ Timesheet.approved_by row = Some (Http.id (Http.user req))
      /\ Timesheet.approved_at row = Timesheet.approved_at (Timesheet.row t)
      /\ Timesheet.notes row
         = match TimesheetController.notes (Http.body req) with
           | Some n => Some n
           | None => Timesheet.notes (Timesheet.row t)
           end)
  /\ time_entries (snd out) = time_entries d
  /\ again
     = (Http.reply 400
          (Http.json_message "Only draft timesheets can be submitted"),
        snd out).
Proof.
  intros P F O S out again.
  destruct (updateStatus_found id sheet_submitted (Http.id (Http.user req))
              (TimesheetController.notes (Http.body req)) now d t F)
    as [U L].
  assert (E : out
              = (Http.ok (Http.json_timesheet
                            (TimesheetModel.status_row sheet_submitted
                               (TimesheetController.notes (Http.body req))
                               (Http.id (Http.user req)) now
                               (Timesheet.row t))),
                 snd (TimesheetModel.updateStatus id sheet_submitted
                        (Http.id (Http.user req))
                        (TimesheetController.notes (Http.body req)) now d))).
  { subst out. unfold TimesheetController.submitTimesheet.
    rewrite P, F, O, S, Z.eqb_refl. simpl negb. cbv iota.
    destruct (TimesheetModel.updateStatus _ _ _ _ _ _) as [r d']. simpl in U.
    now rewrite U. }
  split; [|split].
  - rewrite E. eexists. split; [reflexivity|]. simpl.
    repeat split. now destruct (TimesheetController.notes (Http.body req)).
  - rewrite E. unfold TimesheetModel.updateStatus. simpl.
    now destruct (filter _ _).
  - subst again. rewrite E. cbn [snd].
    set (d1 := snd (TimesheetModel.updateStatus id sheet_submitted
                      (Http.id (Http.user req))
                      (TimesheetController.notes (Http.body req)) now d))
      in *.
    unfold TimesheetController.submitTimesheet. rewrite P.
    destruct (TimesheetModel.findById id d1) as [t'|];
      [|discriminate L].
    cbn [option_map] in L. injection L as L. rewrite L.
    cbn [TimesheetModel.status_row Timesheet.user_id Timesheet.status].
    rewrite O, Z.eqb_refl. reflexivity.
Qed.

Lemma submit_once_witness :
  Http.status
    (fst (TimesheetController.submitTimesheet
            (Http.mkRequest (Http.mkUser 7 user) (Some 1) []
               (TimesheetController.mkBody None None None None))
            (Sample.nov 9)
            (snd (TimesheetController.submitTimesheet
                    (Http.mkRequest (Http.mkUser 7 user) (Some 1) []
                       (TimesheetController.mkBody None None None None))
                    (Sample.nov 8) Sample.db0))))
  = 400.
Proof.
  destruct (submit_once
              (Http.mkRequest (Http.mkUser 7 user) (Some 1) []
                 (TimesheetController.mkBody None None None None))
              (Sample.nov 8) (Sample.nov 9) Sample.db0 1
              (Timesheet.mkJoined (Sample.sheet 1 7 sheet_draft)
                 [Some (Sample.entry 1 7 1 90 approved (Some 1));
                  Some (Sample.entry 2 7 2 30 approved (Some 1))])
              eq_refl eq_refl eq_refl eq_refl)
    as (_ & _ & A).
  now rewrite A.
Defined.

Section AttachFacts.
Import TimesheetModel.

Lemma attached_not_null t ids e :
  mem (TimeEntry.id (Sheets.attach t ids e)) ids
  && is_null (TimeEntry.timesheet_id (Sheets.attach t ids e)) = false.
Proof.
  unfold Sheets.attach.
  destruct (mem (TimeEntry.id e) ids && is_null (TimeEntry.timesheet_id e))
    eqn:H; [simpl; apply andb_false_r|exact H].
Qed.

(** Where no listed entry is without a timesheet, [addTimeEntries]
    attaches nothing. *)
Lemma add_nothing t i ids d :
  (forall e, In e (time_entries d) ->
             mem (TimeEntry.id e) (i :: ids)
             && is_null (TimeEntry.timesheet_id e) = false) ->
  addTimeEntries t (i :: ids) d = (false, d).
Proof.
  intros H. unfold addTimeEntries.
  rewrite (existsb_none _ _ H).
  now rewrite set_time_entries_same by (apply map_untouched, H).
Qed.

(** After [addTimeEntries] no listed entry is left without a timesheet. *)
Lemma added_all t ids d e :
  In e (time_entries (snd (addTimeEntries t ids d))) ->
  ids <> [] ->
  mem (TimeEntry.id e) ids && is_null (TimeEntry.timesheet_id e) = false.
Proof.
  intros I N. destruct ids as [|i ids]; [now destruct N|].
  rewrite addTimeEntries_rows in I.
  apply in_map_iff in I. destruct I as (e0 & <- & _).
  apply attached_not_null.
Qed.

Lemma same_columns (l l' : list TimeEntry.t) e' :
  map (fun e => (TimeEntry.id e, TimeEntry.timesheet_id e)) l'
  = map (fun e => (TimeEntry.id e, TimeEntry.timesheet_id e)) l ->
  In e' l' ->
  exists e, In e l /\ TimeEntry.id e = TimeEntry.id e'
            /\ TimeEntry.timesheet_id e = TimeEntry.timesheet_id e'.
Proof.
  intros E I.
  apply (in_map (fun e => (TimeEntry.id e, TimeEntry.timesheet_id e))) in I.
  rewrite E in I. apply in_map_iff in I. destruct I as (e & Q & I).
  exists e. injection Q as Q1 Q2. auto.
Qed.

End AttachFacts.

(** X11.  The owner of a draft timesheet sends the same non-empty list of
    ids, all within [INTEGER], to [addTimeEntriesToTimesheet] twice:
    whatever the first request attached, the second attaches nothing, is
    answered 400 and writes nothing.  The second request runs on [d1]:
    the database the first one left, or any database with the same
    timesheets and the same [id] and [timesheet_id] in every time entry
    (the trigger of [db/schema.sql] moves [updated_at] in the rows an
    [UPDATE] rewrites). *)
Theorem add_entries_twice
    (req : Http.request TimesheetController.sheet_body) (d d1 : Db)
    (id i : Z) (ids : list Z) (t : Timesheet.joined) :
  Http.param_id req = Some id ->
  TimesheetController.timeEntryIds (Http.body req) = Some (i :: ids) ->
  Forall Pg.int4 (i :: ids) ->
  TimesheetModel.findById id d = Some t ->
  Timesheet.user_id (Timesheet.row t) = Http.id (Http.user req) ->
  Timesheet.status (Timesheet.row t) = sheet_draft ->
  let first := snd (TimesheetHandlers.addTimeEntriesToTimesheet req d) in
  timesheets d1 = timesheets first ->
  map (fun e => (TimeEntry.id e, TimeEntry.timesheet_id e)) (time_entries d1)
  = map (fun e => (TimeEntry.id e, TimeEntry.timesheet_id e))
        (time_entries first) ->
  TimesheetHandlers.addTimeEntriesToTimesheet req d1
  = (TimesheetHandlers.send
       (Http.reply 400
          (Http.json_message "Failed to add time entries to timesheet")),
     d1).
Proof.
  intros P B _ F O S first Sh En.
  assert (E : first = snd (TimesheetModel.addTimeEntries id (i :: ids) d)).
  { subst first. unfold TimesheetHandlers.addTimeEntriesToTimesheet.
    rewrite P, B, F, O, S, Z.eqb_refl. cbn [negb SheetStatus_eqb].
    destruct (TimesheetModel.addTimeEntries id (i :: ids) d) as [[|] d'];
      [|reflexivity].
    now destruct (TimesheetModel.findById id d'). }
  assert (F1 : option_map Timesheet.row (TimesheetModel.findById id d1)
               = Some (Timesheet.row t)).
  { rewrite (findById_sheets id d d1), F; [reflexivity|].
    rewrite Sh, E. reflexivity. }
  assert (N : forall e, In e (time_entries d1) ->
                        mem (TimeEntry.id e) (i :: ids)
                        && is_null (TimeEntry.timesheet_id e) = false).
  { intros e' I.
    destruct (same_columns _ _ e' En I) as (e & Ie & <- & <-).
    rewrite E in Ie. apply (added_all id (i :: ids) d e Ie). discriminate. }
  unfold TimesheetHandlers.addTimeEntriesToTimesheet. rewrite P, B.
  destruct (TimesheetModel.findById id d1) as [t1|]; [|discriminate F1].
  cbn [option_map] in F1. injection F1 as F1.
  rewrite F1, O, S, Z.eqb_refl. cbn [negb SheetStatus_eqb].
  now rewrite (add_nothing id i ids d1 N).
Qed.

Lemma add_entries_twice_witness :
  TimesheetHandlers.addTimeEntriesToTimesheet
    (Http.mkRequest (Http.mkUser 8 user) (Some 3) []
       (TimesheetController.mkBody None None None (Some [3])))
    (snd (TimesheetHandlers.addTimeEntriesToTimesheet
            (Http.mkRequest (Http.mkUser 8 user) (Some 3) []
               (TimesheetController.mkBody None None None (Some [3])))
            (set_timesheets
               (fun l => l ++ [Sample.sheet 3 8 sheet_draft]) Sample.db0)))
  = (TimesheetHandlers.send
       (Http.reply 400
          (Http.json_message "Failed to add time entries to timesheet")),
     snd (TimesheetHandlers.addTimeEntriesToTimesheet
            (Http.mkRequest (Http.mkUser 8 user) (Some 3) []
               (TimesheetController.mkBody None None None (Some [3])))
            (set_timesheets
               (fun l => l ++ [Sample.sheet 3 8 sheet_draft]) Sample.db0))).
Proof.
  assert (R : Forall Pg.int4 [3])
    by (repeat constructor; unfold Pg.int4; lia).
  exact (add_entries_twice
           (Http.mkRequest (Http.mkUser 8 user) (Some 3) []
              (TimesheetController.mkBody None None None (Some [3])))
           (set_timesheets
              (fun l => l ++ [Sample.sheet 3 8 sheet_draft]) Sample.db0)
           _ 3 3 []
           (Timesheet.mkJoined (Sample.sheet 3 8 sheet_draft) [None])
           eq_refl eq_refl R eq_refl eq_refl eq_refl eq_refl eq_refl).
Defined.

(** X12.  Attach then detach with the same ids, on a timesheet that had
    no entry: every time entry has its [timesheet_id] back; the entries
    that were attached and detached (listed, without a timesheet before)
    come back with status ['draft'], all the others exactly as they
    were. *)
Theorem add_then_remove
    (t : Z) (ids : list Z) (d : Db) :
  (forall e, In e (time_entries d) -> TimeEntry.timesheet_id e <> Some t) ->
  let d' :=
    snd (TimesheetModel.removeTimeEntries t ids
           (snd (TimesheetModel.addTimeEntries t ids d))) in
  time_entries d'
  = map (fun e =>
           if mem (TimeEntry.id e) ids && is_null (TimeEntry.timesheet_id e)
           then TimeEntry.with_status draft e else e)
        (time_entries d)
  /\ map TimeEntry.timesheet_id (time_entries d')
     = map TimeEntry.timesheet_id (time_entries d).
Proof.
  intros H d'.
  assert (E : time_entries d'
              = map (fun e =>
                       if mem (TimeEntry.id e) ids
                          && is_null (TimeEntry.timesheet_id e)
                       then TimeEntry.with_status draft e else e)
                    (time_entries d)).
  { subst d'. rewrite removeTimeEntries_rows, addTimeEntries_rows, map_map.
    apply map_ext_in. intros e I. unfold Sheets.detach, Sheets.attach.
    destruct (mem (TimeEntry.id e) ids) eqn:M; simpl.
    - destruct (TimeEntry.timesheet_id e) as [t0|] eqn:T; simpl.
      + rewrite M, T. simpl.
        destruct (t0 =? t) eqn:Q; [|reflexivity].
        apply Z.eqb_eq in Q. subst t0. exfalso. exact (H e I T).
      + rewrite M, Z.eqb_refl. simpl.
        unfold TimeEntry.with_timesheet, TimeEntry.with_status. simpl.
        now rewrite T.
    - now rewrite M. }
  split; [exact E|]. rewrite E, map_map. apply map_ext. intros e.
  now destruct (_ && _).
Qed.

Lemma add_then_remove_witness :
  map (fun e => (TimeEntry.timesheet_id e, TimeEntry.status e))
      (time_entries
         (snd (TimesheetModel.removeTimeEntries 2 [1; 3]
                 (snd (TimesheetModel.addTimeEntries 2 [1; 3] Sample.db0)))))
  = [(Some 1, approved); (Some 1, approved); (None, draft)].
Proof.
  destruct (add_then_remove 2 [1; 3] Sample.db0) as [E _].
  - simpl. intros e [<-|[<-|[<-|[]]]]; discriminate.
  - rewrite E. reflexivity.
Defined.

(** X13.  [getTimesheet] sends a timesheet, with its entries, only to the
    user the timesheet belongs to or to an administrator, and never
    writes. *)
Theorem getTimesheet_discloses_to_owner
    (req : Http.request unit) (d : Db) (t : Timesheet.joined) :
  Http.payload (fst (TimesheetHandlers.getTimesheet req d))
  = Http.json_joined t ->
  snd (TimesheetHandlers.getTimesheet req d) = d
  /\ (exists id, Http.param_id req = Some id
                 /\ TimesheetModel.findById id d = Some t)
  /\ (Timesheet.user_id (Timesheet.row t) = Http.id (Http.user req)
      \/ Http.role (Http.user req) = admin).
Proof.
  unfold TimesheetHandlers.getTimesheet.
  destruct (Http.param_id req) as [id|]; [|discriminate].
  destruct (TimesheetModel.findById id d) as [x|] eqn:F; [|discriminate].
  destruct (Timesheet.user_id (Timesheet.row x) =? Http.id (Http.user req))
    eqn:O; destruct (Http.role (Http.user req)) eqn:R; simpl;
    try discriminate; intros [= <-];
    (split; [reflexivity|]); (split; [exists id; auto|]); auto;
    left; now apply Z.eqb_eq.
Qed.

Lemma getTimesheet_discloses_to_owner_witness :
  Timesheet.user_id (Sample.sheet 2 8 sheet_submitted) = 8 \/ user = admin.
Proof.
  destruct (getTimesheet_discloses_to_owner
              (Http.mkRequest (Http.mkUser 8 user) (Some 2) [] tt)
              Sample.db0
              (Timesheet.mkJoined (Sample.sheet 2 8 sheet_submitted) [None])
              eq_refl)
    as (_ & _ & A).
  exact A.
Defined.

Section CreateSheetFacts.

Lemma filter_map_any {A B} (p : B -> bool) (g : A -> B) (l : list A) :
  filter p (map g l) = map g (filter (fun x => p (g x)) l).
Proof.
  induction l as [|a l IH]; simpl; [reflexivity|].
  destruct (p (g a)); simpl; now rewrite IH.
Qed.

Lemma forallb_int4 l : forallb Pg.int4b l = true <-> Forall Pg.int4 l.
Proof.
  rewrite forallb_forall, Forall_forall.
  split; intros H z I; specialize (H z I).
  - unfold Pg.int4b in H. apply andb_prop in H. destruct H as [A B].
    apply Z.leb_le in A, B. now split.
  - unfold Pg.int4 in H. unfold Pg.int4b.
    apply andb_true_intro. split; apply Z.leb_le; lia.
Qed.

Lemma int4b_iff z : Pg.int4b z = true <-> Pg.int4 z.
Proof.
  unfold Pg.int4, Pg.int4b. rewrite andb_true_iff, !Z.leb_le. tauto.
Qed.

(** The entries [Timesheets.create] rewrites: listed, and of that user. *)
Lemma create_sheet_rows id data now d :
  Timesheets.fits (TimeEntries.or_default (Timesheets.timeEntryIds data) [])
                  (Timesheets.userId data) ->
  Timesheets.create id data now d
  = (Conn.Ok (Timesheets.new_row id data now),
     set_time_entries
       (map (fun e =>
               if mem (TimeEntry.id e)
                      (TimeEntries.or_default (Timesheets.timeEntryIds data)
                                              [])
                  && (TimeEntry.user_id e =? Timesheets.userId data)
               then Timesheets.attached id now e else e))
       (set_timesheets (fun l => l ++ [Timesheets.new_row id data now]) d)).
Proof.
  intros R. unfold Timesheets.create.
  destruct (TimeEntries.or_default (Timesheets.timeEntryIds data) [])
    as [|z l] eqn:E.
  - f_equal. destruct d. unfold set_time_entries, set_timesheets. simpl.
    f_equal. symmetry. erewrite map_ext; [apply map_id|]. reflexivity.
  - destruct R as [R|[R U]]; [discriminate R|].
    now rewrite (proj2 (forallb_int4 _) R), (proj2 (int4b_iff _) U).
Qed.

Lemma create_sheet_refused id data now d :
  ~ Timesheets.fits
      (TimeEntries.or_default (Timesheets.timeEntryIds data) [])
      (Timesheets.userId data) ->
  Timesheets.create id data now d = (Conn.Throw, d).
Proof.
  intros R. unfold Timesheets.create.
  destruct (TimeEntries.or_default (Timesheets.timeEntryIds data) [])
    as [|z l] eqn:E; [exfalso; apply R; now left|].
  destruct (forallb Pg.int4b (z :: l)) eqn:A;
    destruct (Pg.int4b (Timesheets.userId data)) eqn:B; try reflexivity.
  exfalso. apply R. right.
  split; [now apply forallb_int4|now apply int4b_iff].
Qed.

End CreateSheetFacts.

(** X14.  [createTimesheet], for a request that passes validation, with an
    id that no timesheet has and no time entry points to.  When the body
    lists no entry, or when the listed ids and the id of the requester are
    within [INTEGER], the answer is 201 with a draft timesheet of the
    requester; it rewrites exactly the listed entries of the requester
    (whether or not they were on another timesheet), attaching them with
    status ['submitted'], and no entry of another user; [findById] then
    gives the timesheet with exactly those entries.  Otherwise the
    [UPDATE] throws, the transaction is rolled back, the answer is 500 and
    nothing is written. *)
Theorem created_timesheet_round_trip
    (id : Z) (req : Http.request TimesheetHandlers.create_body)
    (now : Date.t) (d : Db) :
  Http.validation_errors req = [] ->
  (forall t, In t (timesheets d) -> Timesheet.id t <> id) ->
  (forall e, In e (time_entries d) -> TimeEntry.timesheet_id e <> Some id) ->
  let out := TimesheetHandlers.createTimesheet id req now d in
  let ids :=
    TimeEntries.or_default
      (TimesheetHandlers.timeEntryIds (Http.body req)) [] in
  let listed e :=
    mem (TimeEntry.id e) ids
    && (TimeEntry.user_id e =? Http.id (Http.user req)) in
  (Timesheets.fits ids (Http.id (Http.user req)) ->
   exists row,
     fst out = Http.reply 201 (Http.json_timesheet row)
     /\ Timesheet.id row = id
     /\ Timesheet.user_id row = Http.id (Http.user req)
     /\ Timesheet.status row = sheet_draft
     /\ timesheets (snd out) = timesheets d ++ [row]
     /\ time_entries (snd out)
        = map (fun e => if listed e then Timesheets.attached id now e
                        else e) (time_entries d)
     /\ TimesheetModel.findById id (snd out)
        = Some (Timesheet.mkJoined row
                  (TimesheetModel.json_agg
                     (map (Timesheets.attached id now)
                          (filter listed (time_entries d))))))
  /\ (~ Timesheets.fits ids (Http.id (Http.user req)) ->
      out = (Http.reply 500
               (Http.json_message "Server error while creating timesheet"),
             d)).
Proof.
  intros V FS FE out ids listed. subst out.
  unfold TimesheetHandlers.createTimesheet. rewrite V.
  set (data := Timesheets.mkInput _ _ _ _ _ _).
  assert (Ids : TimeEntries.or_default (Timesheets.timeEntryIds data) []
                = ids).
  { subst data ids. simpl.
    now destruct (TimesheetHandlers.timeEntryIds (Http.body req)). }
  split.
  - intros R.
    assert (R' : Timesheets.fits
                   (TimeEntries.or_default (Timesheets.timeEntryIds data)
                                           [])
                   (Timesheets.userId data)) by (now rewrite Ids).
    rewrite (create_sheet_rows id data now d R'), Ids.
    set (row := Timesheets.new_row id data now).
    cbn [fst snd]. exists row.
    do 4 (split; [reflexivity|]).
    split; [reflexivity|].
    assert (Rows : time_entries
                     (set_time_entries
                        (map (fun e =>
                                if mem (TimeEntry.id e) ids
                                   && (TimeEntry.user_id e
                                       =? Timesheets.userId data)
                                then Timesheets.attached id now e else e))
                        (set_timesheets (fun l => l ++ [row]) d))
                   = map (fun e => if listed e
                                   then Timesheets.attached id now e
                                   else e) (time_entries d))
      by reflexivity.
    split; [exact Rows|].
    unfold TimesheetModel.findById, TimesheetModel.entries_of.
    rewrite Rows.
    replace (timesheets
               (set_time_entries
                  (map (fun e =>
                          if mem (TimeEntry.id e) ids
                             && (TimeEntry.user_id e
                                 =? Timesheets.userId data)
                          then Timesheets.attached id now e else e))
                  (set_timesheets (fun l => l ++ [row]) d)))
      with (timesheets d ++ [row]) by reflexivity.
    rewrite filter_app, (filter_none _ _ (sheet_not_in d id FS)).
    simpl. rewrite Z.eqb_refl. simpl.
    do 3 f_equal. rewrite filter_map_any.
    rewrite (filter_ext_in _ listed).
    + apply map_ext_in. intros e I. apply filter_In in I.
      destruct I as [_ ->]. reflexivity.
    + intros e I. destruct (listed e); simpl; [apply Z.eqb_refl|].
      destruct (TimeEntry.timesheet_id e) as [t0|] eqn:T; [|reflexivity].
      simpl. apply Z.eqb_neq. intros ->. exact (FE e I T).
  - intros R.
    assert (R' : ~ Timesheets.fits
                     (TimeEntries.or_default (Timesheets.timeEntryIds data)
                                             [])
                     (Timesheets.userId data)) by (now rewrite Ids).
    now rewrite (create_sheet_refused id data now d R').
Qed.

Lemma created_timesheet_round_trip_witness :
  option_map
    (fun t => (Timesheet.status (Timesheet.row t),
               map (option_map
                      (fun e => (TimeEntry.id e, TimeEntry.status e)))
                   (Timesheet.time_entries t)))
    (TimesheetModel.findById 3
       (snd (TimesheetHandlers.createTimesheet 3
               (Http.mkRequest (Http.mkUser 7 user) None []
                  (TimesheetHandlers.mkCreate (Sample.nov 1) (Sample.nov 7)
                     None (Some [1; 3])))
               (Sample.nov 8) Sample.db0)))
  = Some (sheet_draft, [Some (1, submitted)]).
Proof.
  assert (FS : forall t, In t (timesheets Sample.db0) -> Timesheet.id t <> 3)
    by (simpl; intros t [<-|[<-|[]]]; discriminate).
  assert (FE : forall e, In e (time_entries Sample.db0) ->
                         TimeEntry.timesheet_id e <> Some 3)
    by (simpl; intros e [<-|[<-|[<-|[]]]]; discriminate).
  assert (R : Timesheets.fits [1; 3] 7)
    by (right; split; [repeat constructor|]; unfold Pg.int4; lia).
  destruct (created_timesheet_round_trip 3
              (Http.mkRequest (Http.mkUser 7 user) None []
                 (TimesheetHandlers.mkCreate (Sample.nov 1) (Sample.nov 7)
                    None (Some [1; 3])))
              (Sample.nov 8) Sample.db0 eq_refl FS FE)
    as [A _].
  destruct (A R) as (row & Re & _ & _ & _ & _ & _ & F).
  rewrite F. injection Re as <-. reflexivity.
Defined.

(** ** Invoices: what a stored invoice does to the other operations *)

Section InvoiceFacts.
Import InvoiceModel InvoiceEffect.

Lemma item_rows_all_ids invoice_id l : forall seq,
  flat_map InvoiceItem.time_entry_ids (item_rows invoice_id seq l)
  = flat_map timeEntryIds l.
Proof.
  induction l as [|item r IH]; intros seq; simpl; [reflexivity|].
  now rewrite IH.
Qed.

Lemma bill_id ids e : TimeEntry.id (bill ids e) = TimeEntry.id e.
Proof. unfold bill. now destruct (mem _ _). Qed.

Lemma item_rows_invoice invoice_id l : forall seq it,
  In it (item_rows invoice_id seq l) -> InvoiceItem.invoice_id it = invoice_id.
Proof.
  induction l as [|item r IH]; intros seq it I; simpl in I; [contradiction|].
  destruct I as [<-|I]; [reflexivity|]. now apply (IH (seq + 1)).
Qed.

(** The rows of the items come out of [ORDER BY id] as they went in. *)
Lemma item_rows_ordered invoice_id l : forall seq,
  items_by_id (item_rows invoice_id seq l) = item_rows invoice_id seq l.
Proof.
  unfold items_by_id.
  induction l as [|item r IH]; intros seq; simpl; [reflexivity|].
  rewrite IH. destruct r as [|item' r]; simpl; [reflexivity|].
  replace (seq + 1 <=? seq + 1 + 1) with true; [reflexivity|].
  symmetry. apply Z.leb_le. lia.
Qed.

Lemma findById_executes fails id s :
  (forall k, fails k = false) ->
  fst (findById fails id s) = Conn.Ok (Invoices.found id (Conn.committed s)).
Proof.
  intros N. unfold findById, Invoices.found, Conn.bind, Conn.pool_query,
    Conn.statement, Conn.ret.
  rewrite N. simpl.
  destruct (select_invoice id (Conn.committed s)) as [|[i u] rest];
    [reflexivity|].
  now rewrite N.
Qed.

Lemma findById_throws fails id s :
  fails (Conn.issued s) = true -> fst (findById fails id s) = Conn.Throw.
Proof.
  intros F. unfold findById, Conn.bind, Conn.pool_query, Conn.statement.
  now rewrite F.
Qed.

End InvoiceFacts.

(** X15.  Once [InvoiceModel.create] has returned, every time entry whose
    id an item of the input lists has status ['billed'], and
    [getUnbilledTimeEntries] reports none of the listed ids any more, for
    any client. *)
Theorem billed_entries_leave_the_unbilled_list
    (fails : nat -> bool) (input : InvoiceModel.InvoiceInput) (now : Date.t)
    (s s' : Conn.state) (r : option Invoice.full) :
  Conn.working s = None ->
  InvoiceModel.create fails input now s = (Conn.Ok r, s') ->
  forall t,
    In t (flat_map InvoiceModel.timeEntryIds (InvoiceModel.items input)) ->
    (forall e, In e (time_entries (Conn.committed s')) ->
               TimeEntry.id e = t -> TimeEntry.status e = billed)
    /\ (forall clientId row,
          In row (InvoiceModel.getUnbilledTimeEntries clientId
                    (Conn.committed s')) ->
          TimeEntry.id (fst (fst (fst row))) <> t).
Proof.
  intros W E t I.
  destruct (create_run fails input now s W)
    as (r0 & s0 & E0 & _ & [(_ & R & _) | (_ & C & _)]);
    rewrite E in E0; injection E0 as <- <-; [discriminate R|].
  rewrite C. split.
  - unfold InvoiceEffect.committed_create. simpl. intros e Ie <-.
    apply in_map_iff in Ie. destruct Ie as (e0 & <- & _).
    unfold InvoiceEffect.bill.
    destruct (mem (TimeEntry.id e0) _) eqn:M; [reflexivity|].
    apply mem_In in I. rewrite bill_id in I. rewrite I in M.
    discriminate M.
  - intros c row Ir <-.
    apply (unbilled_not_invoiced (TimeEntry.id (fst (fst (fst row))))
             (InvoiceEffect.committed_create input now (Conn.committed s))).
    + exists c, row. auto.
    + unfold InvoiceModel.invoiced_ids, InvoiceEffect.committed_create.
      simpl. rewrite flat_map_app, item_rows_all_ids.
      apply in_or_app. now right.
Qed.

Lemma billed_entries_leave_the_unbilled_list_witness :
  map (fun row => TimeEntry.id (fst (fst (fst row))))
      (InvoiceModel.getUnbilledTimeEntries 10 Sample.db0)
  = [1; 2]
  /\ forall row,
       In row (InvoiceModel.getUnbilledTimeEntries 10
                 (Conn.committed
                    (snd (InvoiceModel.create Sample.never Sample.input1
                            (Sample.nov 3) (Conn.idle Sample.db0))))) ->
       TimeEntry.id (fst (fst (fst row))) <> 1.
Proof.
  split; [reflexivity|]. intros row.
  edestruct (billed_entries_leave_the_unbilled_list Sample.never
               Sample.input1 (Sample.nov 3) (Conn.idle Sample.db0)
               (snd (InvoiceModel.create Sample.never Sample.input1
                       (Sample.nov 3) (Conn.idle Sample.db0))))
    as [_ U].
  - reflexivity.
  - vm_compute. reflexivity.
  - simpl. left. reflexivity.
  - apply U.
Defined.

(** X16.  When the server executes every statement, the client is a user,
    and no invoice or invoice item carries an invoice id above the
    sequence, [InvoiceModel.create] returns the invoice it has just
    stored: the new row, the client's name, company and e-mail, and one
    item per input item in the order of the input. *)
Theorem create_returns_the_stored_invoice
    (fails : nat -> bool) (input : InvoiceModel.InvoiceInput) (now : Date.t)
    (s : Conn.state) (u : User.t) :
  Conn.working s = None ->
  (forall k, fails k = false) ->
  hd_error (filter (fun u => InvoiceModel.clientId input =? User.id u)
                   (users (Conn.committed s))) = Some u ->
  (forall i, In i (invoices (Conn.committed s)) ->
             Invoice.id i <= invoices_id_seq (Conn.committed s)) ->
  (forall it, In it (invoice_items (Conn.committed s)) ->
              InvoiceItem.invoice_id it
              <= invoices_id_seq (Conn.committed s)) ->
  fst (InvoiceModel.create fails input now s)
  = Conn.Ok
      (Some (Invoice.mkFull
               (InvoiceEffect.new_invoice input now (Conn.committed s))
               (Invoice.mkClient (InvoiceModel.clientId input)
                  (User.company_name u) (User.first_name u)
                  (User.last_name u) (User.email u))
               (InvoiceEffect.item_rows
                  (invoices_id_seq (Conn.committed s) + 1)
                  (invoice_items_id_seq (Conn.committed s))
                  (InvoiceModel.items input)))).
Proof.
  intros W N U FI FT.
  destruct (create_run fails input now s W)
    as (r & s' & E & _ & [((k & _ & F) & _) | (_ & _ & R)]); rewrite E; simpl.
  { rewrite N in F. discriminate F. }
  rewrite R, findById_executes by assumption. simpl. f_equal.
  set (d := Conn.committed s) in *.
  set (id := invoices_id_seq d + 1).
  assert (Old : forall i, In i (invoices d) -> (Invoice.id i =? id) = false).
  { intros i I. apply Z.eqb_neq. specialize (FI i I). subst id. lia. }
  assert (OldT : forall it, In it (invoice_items d) ->
                   (InvoiceItem.invoice_id it =? id) = false).
  { intros it I. apply Z.eqb_neq. specialize (FT it I). subst id. lia. }
  assert (Sel : InvoiceModel.select_invoice id
                  (InvoiceEffect.committed_create input now d)
                = map (fun u => (InvoiceEffect.new_invoice input now d, u))
                      (filter (fun u => InvoiceModel.clientId input
                                        =? User.id u) (users d))).
  { unfold InvoiceModel.select_invoice, InvoiceEffect.committed_create.
    simpl. rewrite flat_map_app. simpl.
    replace (flat_map _ (invoices d)) with (@nil (Invoice.t * User.t)).
    - simpl. fold id. rewrite Z.eqb_refl. now rewrite app_nil_r.
    - symmetry. clear - Old. induction (invoices d) as [|i l IH];
        [reflexivity|].
      simpl. rewrite (Old i (or_introl eq_refl)). simpl. apply IH.
      intros x Hx. apply Old. now right. }
  assert (Its : InvoiceModel.select_items id
                  (InvoiceEffect.committed_create input now d)
                = InvoiceEffect.item_rows id (invoice_items_id_seq d)
                    (InvoiceModel.items input)).
  { unfold InvoiceModel.select_items, InvoiceEffect.committed_create. simpl.
    rewrite filter_app, (filter_none _ _ OldT). simpl.
    rewrite filter_all; [apply item_rows_ordered|].
    intros it I. apply Z.eqb_eq. now apply item_rows_invoice in I. }
  unfold Invoices.found. rewrite Sel, Its.
  destruct (filter _ (users d)) as [|u0 rest]; [discriminate U|].
  simpl in U. injection U as ->. reflexivity.
Qed.

Lemma create_returns_the_stored_invoice_witness :
  option_map
    (fun f => (Invoice.invoice_number (Invoice.row f),
               Invoice.c_email (Invoice.client f),
               map InvoiceItem.id (Invoice.items f)))
    match fst (InvoiceModel.create Sample.never Sample.input0 (Sample.nov 2)
                 (Conn.idle Sample.db0)) with
    | Conn.Ok r => r
    | Conn.Throw => None
    end
  = Some ("INV-202611-0001", "alice@example.com", [1; 2]).
Proof.
  rewrite (create_returns_the_stored_invoice Sample.never Sample.input0
             (Sample.nov 2) (Conn.idle Sample.db0) Sample.alice).
  - reflexivity.
  - reflexivity.
  - reflexivity.
  - reflexivity.
  - simpl. intros i [].
  - simpl. intros it [].
Defined.

(** X17.  [createInvoice], for an administrator's request that passes
    validation, on a connection with no open transaction: the answer is
    201 or 500 and no transaction is left open; a 201 means the invoice,
    its items and the billed statuses are committed; when a statement up
    to [COMMIT] throws, the answer is 500 and the rows of every table are
    as before; when they all succeed and the first query of the closing
    [findById] throws, the answer is 500 as well although the invoice is
    committed. *)
Theorem createInvoice_answers
    (fails : nat -> bool) (req : Http.request InvoiceController.invoice_body)
    (now : Date.t) (s : Conn.state) :
  Http.validation_errors req = [] ->
  Http.role (Http.user req) = admin ->
  Conn.working s = None ->
  let input := InvoiceController.invoiceData (Http.body req) in
  let out := InvoiceController.createInvoice fails req now s in
  let code := InvoiceController.status (fst out) in
  let n := (1 + InvoiceEffect.tx_statements input)%nat in
  (code = 201 \/ code = 500)
  /\ Conn.working (snd out) = None
  /\ (code = 201 ->
      Conn.committed (snd out)
      = InvoiceEffect.committed_create input now (Conn.committed s))
  /\ (InvoiceEffect.some_fail fails (Conn.issued s) n ->
      code = 500
      /\ tables (Conn.committed (snd out)) = tables (Conn.committed s))
  /\ (InvoiceEffect.no_fail fails (Conn.issued s) n ->
      fails (Conn.issued s + n)%nat = true ->
      code = 500
      /\ Conn.committed (snd out)
         = InvoiceEffect.committed_create input now (Conn.committed s)).
Proof.
  intros V A W input out code n. subst code out.
  unfold InvoiceController.createInvoice. rewrite V, A. simpl negb.
  cbv iota. fold input.
  destruct (create_run fails input now s W)
    as (r & s' & E & W' & [(F & R & T) | (N & C & R)]); rewrite E.
  - subst r. simpl. split; [now right|]. split; [exact W'|].
    split; [discriminate|]. split; [auto|].
    intros N _. destruct F as (k & Hk & Fk).
    rewrite (N k Hk) in Fk. discriminate Fk.
  - split; [destruct r; simpl; auto|]. split; [now destruct r|].
    split; [now destruct r|]. split.
    + intros (k & Hk & Fk). rewrite (N k Hk) in Fk. discriminate Fk.
    + intros _ F. rewrite findById_throws in R
        by (simpl; rewrite <- F; f_equal; lia).
      subst r. simpl. auto.
Qed.

Lemma createInvoice_answers_witness :
  InvoiceController.status
    (fst (InvoiceController.createInvoice (Sample.at_ 7)
            (Http.mkRequest (Http.mkUser 99 admin) None []
               (InvoiceController.mkInvoiceBody 10 (Sample.nov 2)
                  (Sample.nov 30) 20 None
                  [InvoiceController.mkItemBody "work" 1.5 100 (Some [1]);
                   InvoiceController.mkItemBody "work" 0.5 50 None]))
            (Sample.nov 2) (Conn.idle Sample.db0)))
  = 500
  /\ List.length
       (invoices
          (Conn.committed
             (snd (InvoiceController.createInvoice (Sample.at_ 7)
                     (Http.mkRequest (Http.mkUser 99 admin) None []
                        (InvoiceController.mkInvoiceBody 10 (Sample.nov 2)
                           (Sample.nov 30) 20 None
                           [InvoiceController.mkItemBody "work" 1.5 100
                              (Some [1]);
                            InvoiceController.mkItemBody "work" 0.5 50
                              None]))
                     (Sample.nov 2) (Conn.idle Sample.db0)))))
     = 1%nat.
Proof.
  destruct (createInvoice_answers (Sample.at_ 7)
              (Http.mkRequest (Http.mkUser 99 admin) None []
                 (InvoiceController.mkInvoiceBody 10 (Sample.nov 2)
                    (Sample.nov 30) 20 None
                    [InvoiceController.mkItemBody "work" 1.5 100 (Some [1]);
                     InvoiceController.mkItemBody "work" 0.5 50 None]))
              (Sample.nov 2) (Conn.idle Sample.db0)
              eq_refl eq_refl eq_refl)
    as (_ & _ & _ & _ & L).
  destruct L as [C D].
  - intros k Hk. unfold InvoiceEffect.tx_statements in Hk. simpl in Hk.
    unfold Sample.at_. apply Nat.eqb_neq. simpl. lia.
  - reflexivity.
  - split; [exact C|]. rewrite D. reflexivity.
Defined.

(** X18.  [getInvoice] sends an invoice only to an administrator or to
    the client of that invoice, whichever statements throw, and never
    changes the committed rows. *)
Theorem getInvoice_discloses_to_client
    (fails : nat -> bool) (req : Http.request unit) (s : Conn.state)
    (inv : Invoice.full) :
  InvoiceController.payload (fst (InvoiceController.getInvoice fails req s))
  = InvoiceController.json_invoice (Some inv) ->
  Conn.committed (snd (InvoiceController.getInvoice fails req s))
  = Conn.committed s
  /\ (Http.role (Http.user req) = admin
      \/ Http.id (Http.user req) = Invoice.client_id (Invoice.row inv)).
Proof.
  unfold InvoiceController.getInvoice.
  destruct (Http.param_id req) as [id|]; [|discriminate].
  destruct (findById_run fails id s) as (r & s' & E & C & _). rewrite E.
  destruct r as [[f|]|]; try discriminate.
  destruct (Http.role (Http.user req)) eqn:R;
    destruct (Http.id (Http.user req) =? Invoice.client_id (Invoice.row f))
      eqn:O; simpl; try discriminate; intros [= <-];
    (split; [exact C|]); auto; right; now apply Z.eqb_eq.
Qed.

Lemma getInvoice_discloses_to_client_witness :
  user = admin
  \/ 10 = Invoice.client_id
            (InvoiceEffect.new_invoice Sample.input0 (Sample.nov 2)
               Sample.db0).
Proof.
  edestruct (getInvoice_discloses_to_client Sample.never
               (Http.mkRequest (Http.mkUser 10 user) (Some 1) [] tt)
               (snd (InvoiceModel.create Sample.never Sample.input0
                       (Sample.nov 2) (Conn.idle Sample.db0))))
    as [_ A].
  - vm_compute. reflexivity.
  - exact A.
Defined.

(** X19.  [updateInvoiceStatus], for any request, never changes the id,
    the number, the client, the issue, due and creation dates, the subtotal,
    the tax rate, the tax amount or the total of an invoice, never touches
    an invoice whose id is not the one in the path, sets [paid_at] only
    when the new status is ['paid'], and writes to no other table. *)
Theorem invoice_status_keeps_amounts
    (req : Http.request InvoiceController.status_body) (now : Date.t)
    (d : Db) :
  let d' := snd (InvoiceController.updateInvoiceStatus req now d) in
  let fixed i :=
    (Invoice.id i, Invoice.invoice_number i, Invoice.client_id i,
     Invoice.issue_date i, Invoice.due_date i, Invoice.created_at i,
     (Invoice.subtotal i, Invoice.tax_rate i, Invoice.tax_amount i,
      Invoice.total i)) in
  map fixed (invoices d') = map fixed (invoices d)
  /\ Forall2 (fun i i' =>
                (Http.param_id req <> Some (Invoice.id i) -> i' = i)
                /\ (Invoice.paid_at i' = Invoice.paid_at i
                    \/ (InvoiceController.new_status (Http.body req)
                        = inv_paid
                        /\ Invoice.paid_at i' = Some now)))
             (invoices d) (invoices d')
  /\ (invoice_items d', time_entries d', timesheets d')
     = (invoice_items d, time_entries d, timesheets d).
Proof.
  intros d' fixed.
  assert (Same : forall l : list Invoice.t,
             Forall2 (fun i i' =>
                        (Http.param_id req <> Some (Invoice.id i) -> i' = i)
                        /\ (Invoice.paid_at i' = Invoice.paid_at i
                            \/ (InvoiceController.new_status (Http.body req)
                                = inv_paid
                                /\ Invoice.paid_at i' = Some now))) l l).
  { induction l; constructor; auto. }
  subst d'. unfold InvoiceController.updateInvoiceStatus.
  destruct (Http.validation_errors req); [|simpl; auto].
  destruct (Http.param_id req) as [id|]; [|simpl; auto].
  destruct (negb _); [simpl; auto|].
  unfold Invoices.updateStatus.
  destruct (Pg.int4b id); [|simpl; auto].
  destruct (filter _ (invoices d)); [simpl; auto|].
  assert (K : let d' := InvoiceModel.updateStatus id
                          (InvoiceController.new_status (Http.body req))
                          (InvoiceController.status_notes (Http.body req))
                          now d in
              map fixed (invoices d') = map fixed (invoices d)
              /\ Forall2 (fun i i' =>
                            (Some id <> Some (Invoice.id i) -> i' = i)
                            /\ (Invoice.paid_at i' = Invoice.paid_at i
                                \/ (InvoiceController.new_status
                                      (Http.body req) = inv_paid
                                    /\ Invoice.paid_at i' = Some now)))
                         (invoices d) (invoices d')
              /\ (invoice_items d', time_entries d', timesheets d')
                 = (invoice_items d, time_entries d, timesheets d)).
  { unfold InvoiceModel.updateStatus. simpl. split; [|split; [|reflexivity]].
    - rewrite map_map. apply map_ext. intros i.
      now destruct (Invoice.id i =? id).
    - apply Forall2_map_self. intros i _.
      destruct (Invoice.id i =? id) eqn:E.
      + apply Z.eqb_eq in E. split; [congruence|]. simpl.
        destruct (InvoiceController.new_status (Http.body req)); auto.
      + auto. }
  destruct (Invoices.found id _); exact K.
Qed.

Section UnknownInvoice.

Lemma select_unknown id d :
  (forall i, In i (invoices d) -> Invoice.id i <> id) ->
  InvoiceModel.select_invoice id d = [].
Proof.
  intros H. unfold InvoiceModel.select_invoice.
  induction (invoices d) as [|i l IH]; [reflexivity|]. simpl.
  replace (Invoice.id i =? id) with false
    by (symmetry; apply Z.eqb_neq, H; now left).
  apply IH. intros x Hx. apply H. now right.
Qed.

End UnknownInvoice.

(** X20.  On an id that no invoice has: [getInvoice], when its query
    executes, answers 404; [updateInvoiceStatus], for an administrator's
    request that passes validation, leaves the database as it was and
    answers 404 when the id is within [INTEGER], 500 when it is not (the
    [UPDATE] throws). *)
Theorem unknown_invoice_not_found
    (fails : nat -> bool) (get : Http.request unit)
    (upd : Http.request InvoiceController.status_body) (now : Date.t)
    (s : Conn.state) (id : Z) :
  (forall i, In i (invoices (Conn.committed s)) -> Invoice.id i <> id) ->
  Http.param_id get = Some id ->
  Http.param_id upd = Some id ->
  (fails (Conn.issued s) = false ->
   InvoiceController.status (fst (InvoiceController.getInvoice fails get s))
   = 404)
  /\ (Http.validation_errors upd = [] ->
      Http.role (Http.user upd) = admin ->
      (Pg.int4 id ->
       InvoiceController.updateInvoiceStatus upd now (Conn.committed s)
       = (InvoiceController.reply 404
            (InvoiceController.json_message "Invoice not found"),
          Conn.committed s))
      /\ (~ Pg.int4 id ->
          InvoiceController.updateInvoiceStatus upd now (Conn.committed s)
          = (InvoiceController.reply 500
               (InvoiceController.json_message
                  "Server error while updating invoice status"),
             Conn.committed s))).
Proof.
  intros H G U. split.
  - intros F. unfold InvoiceController.getInvoice, InvoiceModel.findById,
      Conn.bind, Conn.pool_query, Conn.statement, Conn.ret.
    rewrite G, F. simpl. now rewrite (select_unknown id _ H).
  - intros V A. unfold InvoiceController.updateInvoiceStatus,
      Invoices.updateStatus.
    rewrite V, U, A. simpl negb. cbv iota.
    split; intros I.
    + assert (B : Pg.int4b id = true).
      { unfold Pg.int4 in I. unfold Pg.int4b.
        apply andb_true_intro. split; apply Z.leb_le; lia. }
      rewrite B, filter_none; [reflexivity|].
      intros i J. apply Z.eqb_neq. now apply H.
    + destruct (Pg.int4b id) eqn:B; [|reflexivity].
      exfalso. apply I. unfold Pg.int4b in B. apply andb_prop in B.
      destruct B as [B1 B2]. apply Z.leb_le in B1, B2. now split.
Qed.

Lemma unknown_invoice_not_found_witness :
  InvoiceController.updateInvoiceStatus
    (Http.mkRequest (Http.mkUser 99 admin) (Some 4) []
       (InvoiceController.mkStatusBody inv_sent None))
    (Sample.nov 4) Sample.db0
  = (InvoiceController.reply 404
       (InvoiceController.json_message "Invoice not found"),
     Sample.db0).
Proof.
  assert (H : forall i, In i (invoices (Conn.committed
                                          (Conn.idle Sample.db0))) ->
                        Invoice.id i <> 4)
    by (simpl; intros i []).
  assert (I : Pg.int4 4) by (unfold Pg.int4; lia).
  exact (proj1 (proj2 (unknown_invoice_not_found Sample.never
                         (Http.mkRequest (Http.mkUser 99 admin) (Some 4) []
                            tt)
                         (Http.mkRequest (Http.mkUser 99 admin) (Some 4) []
                            (InvoiceController.mkStatusBody inv_sent None))
                         (Sample.nov 4) (Conn.idle Sample.db0) 4
                         H eq_refl eq_refl) eq_refl eq_refl) I).
Defined.

Section UnbilledFacts.

Lemma unbilled_row (c : Z) (d : Db) te t p u :
  In (te, t, p, u) (InvoiceModel.getUnbilledTimeEntries c d) ->
  In te (time_entries d)
  /\ TimeEntry.status te = approved
  /\ TimeEntry.is_billable te = true
  /\ ~ In (TimeEntry.id te) (InvoiceModel.invoiced_ids d)
  /\ In t (tasks d) /\ TimeEntry.task_id te = Task.id t
  /\ In p (projects d) /\ Task.project_id t = Project.id p
  /\ Project.client_id p = c
  /\ In u (users d) /\ TimeEntry.user_id te = User.id u.
Proof.
  unfold InvoiceModel.getUnbilledTimeEntries. rewrite order_by_In.
  rewrite in_flat_map. intros (te' & I1 & I2).
  apply filter_In in I1. destruct I1 as [I1 W].
  apply andb_prop in W. destruct W as [W N].
  apply andb_prop in W. destruct W as [S B].
  rewrite in_flat_map in I2. destruct I2 as (t' & I2 & I3).
  apply filter_In in I2. destruct I2 as [I2 T].
  rewrite in_flat_map in I3. destruct I3 as (p' & I3 & I4).
  apply filter_In in I3. destruct I3 as [I3 P].
  apply andb_prop in P. destruct P as [P C].
  rewrite in_map_iff in I4. destruct I4 as (u' & E & I4).
  apply filter_In in I4. destruct I4 as [I4 U].
  inversion E; subst te' t' p' u'.
  apply Z.eqb_eq in T, P, C, U.
  repeat split; auto.
  - now destruct (TimeEntry.status te).
  - intros M. apply mem_In in M. rewrite M in N. discriminate.
Qed.

End UnbilledFacts.

(** X21.  Where time entries, tasks and projects each have distinct ids,
    the lists of unbilled entries that [getUnbilledTimeEntries] answers for
    two different clients have no time entry in common. *)
Theorem unbilled_lists_of_clients_disjoint
    (req1 req2 : Http.request unit) (d : Db)
    (rows1 rows2 : list (TimeEntry.t * Task.t * Project.t * User.t)) :
  NoDup (map TimeEntry.id (time_entries d)) ->
  NoDup (map Task.id (tasks d)) ->
  NoDup (map Project.id (projects d)) ->
  Http.param_id req1 <> Http.param_id req2 ->
  InvoiceController.getUnbilledTimeEntries req1 d
  = InvoiceController.ok (InvoiceController.json_rows rows1) ->
  InvoiceController.getUnbilledTimeEntries req2 d
  = InvoiceController.ok (InvoiceController.json_rows rows2) ->
  forall te1 t1 p1 u1 te2 t2 p2 u2,
    In (te1, t1, p1, u1) rows1 -> In (te2, t2, p2, u2) rows2 ->
    TimeEntry.id te1 <> TimeEntry.id te2.
Proof.
  intros Ne Nt Np D R1 R2 te1 t1 p1 u1 te2 t2 p2 u2 I1 I2 E.
  unfold InvoiceController.getUnbilledTimeEntries, InvoiceController.ok
    in R1, R2.
  destruct (Http.param_id req1) as [c1|]; [|discriminate].
  destruct (Http.param_id req2) as [c2|]; [|discriminate].
  destruct (negb (Role_eqb (Http.role (Http.user req1)) admin));
    [discriminate|].
  destruct (negb (Role_eqb (Http.role (Http.user req2)) admin));
    [discriminate|].
  injection R1 as <-. injection R2 as <-.
  apply unbilled_row in I1, I2.
  destruct I1 as (A1 & _ & _ & _ & B1 & C1 & D1 & E1 & F1 & _).
  destruct I2 as (A2 & _ & _ & _ & B2 & C2 & D2 & E2 & F2 & _).
  assert (te1 = te2) by (eapply NoDup_map_eq; eauto). subst te2.
  assert (t1 = t2)
    by (eapply NoDup_map_eq; eauto; congruence). subst t2.
  assert (p1 = p2)
    by (eapply NoDup_map_eq; eauto; congruence). subst p2.
  apply D. congruence.
Qed.

Lemma unbilled_lists_of_clients_disjoint_witness :
  TimeEntry.id (Sample.entry 1 7 1 90 approved None)
  <> TimeEntry.id (Sample.entry 2 7 2 30 approved None).
Proof.
  assert (Ne : NoDup (map TimeEntry.id (time_entries TwoClients.db)))
    by (simpl; repeat constructor; simpl; intuition lia).
  assert (Nt : NoDup (map Task.id (tasks TwoClients.db)))
    by (simpl; repeat constructor; simpl; intuition lia).
  assert (Np : NoDup (map Project.id (projects TwoClients.db)))
    by (simpl; repeat constructor; simpl; intuition lia).
  assert (D : Http.param_id (TwoClients.admin_asks 10)
              <> Http.param_id (TwoClients.admin_asks 11))
    by (simpl; congruence).
  exact (unbilled_lists_of_clients_disjoint
           (TwoClients.admin_asks 10) (TwoClients.admin_asks 11)
           TwoClients.db _ _ Ne Nt Np D eq_refl eq_refl
           _ _ _ _ _ _ _ _ (or_introl eq_refl) (or_introl eq_refl)).
Defined.
